(** * Fraud detection pipeline: feature engineering and rule scoring

    A shallow embedding of [src/data/etl.py] (class [FraudETLPipeline]) and
    [src/fraud/rules.py] (class [FraudDetector]).

    Conventions of the embedding.
    - A data frame is a list of records, one per row, in row order.
    - Text columns are [string]; [claim_date] is the number of days since
      1970-01-01 (the column after [pd.to_datetime] on calendar dates).
    - Amounts and statistics are exact rationals inside [fval], which adds
      the two special results of float division (infinity and NaN); signed
      zeros are not modelled.  The z-score column alone is computed in
      binary64, on the float cells pandas holds for the amount and for the
      specialty statistics, because there rounding decides between 0 and an
      infinity; the other columns hold the exact values.
    - A column produced by a left merge may be missing a match; such a cell is
      NaN in pandas and [None] (or [NaN]) here.
    - [groupby]/[merge]/[apply] are taken with their pandas meaning; a step
      that raises makes the whole function return [None]. *)

From Stdlib Require Import List Bool Arith ZArith QArith Qabs Lia Lqa.
From Stdlib Require Import String Ascii Permutation Sorted DecimalString.
From Stdlib Require Uint63 Floats.
Import ListNotations.

Local Open Scope string_scope.
Local Open Scope list_scope.

(** String concatenation, kept apart from list append. *)
Local Infix "^^" := String.append (at level 60, right associativity).

(** ** Float-like values *)

Inductive fval : Type :=
| Fin (q : Q)
| Inf (negative : bool)
| NaN.

Definition Qltb (x y : Q) : bool := negb (Qle_bool y x).

Definition Qnegb (x : Q) : bool := Qltb x 0.

Definition fabs (a : fval) : fval :=
  match a with
  | Fin q => Fin (Qabs q)
  | Inf _ => Inf false
  | NaN => NaN
  end.

(** [fgtb a b] is the float comparison [a > b]; any comparison with NaN is
    false. *)
Definition fgtb (a b : fval) : bool :=
  match a, b with
  | Fin x, Fin y => Qltb y x
  | Fin _, Inf neg => neg
  | Inf neg, Fin _ => negb neg
  | Inf na, Inf nb => negb na && nb
  | _, _ => false
  end.

Definition fmul (a b : fval) : fval :=
  match a, b with
  | Fin x, Fin y => Fin (x * y)
  | Fin x, Inf neg | Inf neg, Fin x =>
      if Qeq_bool x 0 then NaN else Inf (xorb neg (Qnegb x))
  | Inf na, Inf nb => Inf (xorb na nb)
  | _, _ => NaN
  end.

(** Float division: [0/0] is NaN, [x/0] is an infinity, NaN propagates. *)
Definition fdiv (a b : fval) : fval :=
  match a, b with
  | Fin x, Fin y =>
      if Qeq_bool y 0
      then (if Qeq_bool x 0 then NaN else Inf (Qnegb x))
      else Fin (x / y)
  | Fin _, Inf _ => Fin 0
  | Inf neg, Fin y => Inf (xorb neg (Qnegb y))
  | _, _ => NaN
  end.

Definition is_finite (a : fval) : bool :=
  match a with
  | Fin _ => true
  | _ => false
  end.

(** Comparison [c > k] of a merged count column with an integer literal. *)
Definition count_gtb (c : option nat) (k : nat) : bool :=
  match c with
  | Some n => (k <? n)%nat
  | None => false
  end.

Definition str_of_nat (n : nat) : string :=
  NilEmpty.string_of_uint (Nat.to_uint n).

Definition str_of_count (c : option nat) : string :=
  match c with
  | Some n => str_of_nat n
  | None => "nan"
  end.

(** ** Data model *)

(** One line of [data/raw/claims_data.csv]. *)
Record Claim : Type := mkClaim {
  claim_id : string;
  patient_id : string;
  provider_id : string;
  provider_specialty : string;
  procedure_code : string;
  diagnosis_code : string;
  claim_amount : Q;
  claim_date : Z;
  status : string;
  is_fraud : bool
}.

(** One row of the [claims] table: the raw columns and every column added
    by [FraudETLPipeline.transform], in the order they are added. *)
Record EnrichedClaim : Type := mkEnriched {
  claim : Claim;
  provider_avg_amount : fval;
  provider_total_claims : option nat;
  specialty_avg_amount : fval;
  specialty_std_amount : fval;
  amount_zscore : fval;
  is_provider_outlier : bool;
  patient_claims_7d : nat;
  patient_claims_30d : nat;
  same_day_claim_count : option nat;
  is_code_mismatch : bool;
  day_of_week : Z;
  is_weekend : bool;
  month : Z;
  duplicate_count : option nat;
  is_duplicate : bool;
  is_high_amount : bool;
  is_surgery : bool;
  same_day_surgeries : bool
}.

(** One row of the [fraud_flags] table. *)
Record Assessment : Type := mkAssessment {
  a_claim_id : string;
  fraud_detected : bool;
  fraud_score : nat;
  rules_triggered : string;
  explanation : string;
  actual_fraud : bool
}.

(** ** Rule evaluator ([src/fraud/rules.py]) *)

Section RuleEvaluator.

(** Python's float formats [f"{x:,.2f}"] and [f"{x:.1f}"]. *)
Variable fmt_money : fval -> string.
Variable fmt_fixed1 : fval -> string.

Definition rule_duplicate_claims (row : EnrichedClaim) : bool * string :=
  if count_gtb (duplicate_count row) 1
  then (true, "Duplicate claim: " ^^ claim_id (claim row) ^^ " appears "
              ^^ str_of_count (duplicate_count row) ^^ " times")
  else (false, "").

Definition rule_amount_anomaly (row : EnrichedClaim) : bool * string :=
  if fgtb (fabs (amount_zscore row)) (Fin 3)
  then (true, "Amount $" ^^ fmt_money (Fin (claim_amount (claim row)))
              ^^ " is " ^^ fmt_fixed1 (fabs (amount_zscore row))
              ^^ "σ from specialty average")
  else if is_high_amount row
  then (true, "Abnormally high amount: $"
              ^^ fmt_money (Fin (claim_amount (claim row))))
  else (false, "").

Definition rule_code_mismatch (row : EnrichedClaim) : bool * string :=
  if is_code_mismatch row
  then (true, "Procedure " ^^ procedure_code (claim row)
              ^^ " doesn't match diagnosis " ^^ diagnosis_code (claim row))
  else (false, "").

Definition rule_velocity_fraud (row : EnrichedClaim) : bool * string :=
  if (5 <=? patient_claims_7d row)%nat
  then (true, "Patient has " ^^ str_of_nat (patient_claims_7d row)
              ^^ " claims in past 7 days")
  else if (10 <=? patient_claims_30d row)%nat
  then (true, "Patient has " ^^ str_of_nat (patient_claims_30d row)
              ^^ " claims in past 30 days")
  else (false, "").

Definition rule_provider_outlier (row : EnrichedClaim) : bool * string :=
  if is_provider_outlier row
  then
    let provider_avg := provider_avg_amount row in
    let specialty_avg := specialty_avg_amount row in
    let ratio := if fgtb specialty_avg (Fin 0)
                 then fdiv provider_avg specialty_avg
                 else Fin 0 in
    (true, "Provider bills $" ^^ fmt_money provider_avg ^^ " avg ($"
           ^^ fmt_money specialty_avg ^^ " specialty avg, "
           ^^ fmt_fixed1 ratio ^^ "x)")
  else (false, "").

Definition rule_impossible_scenario (row : EnrichedClaim) : bool * string :=
  if same_day_surgeries row
  then (true, "Patient has " ^^ str_of_count (same_day_claim_count row)
              ^^ " surgeries on same day")
  else if is_surgery row && (3 <=? patient_claims_7d row)%nat
  then (true, "Patient has " ^^ str_of_nat (patient_claims_7d row)
              ^^ " surgical claims in 7 days")
  else (false, "").

(** The three accumulators of the loop body of [run_all_rules]. *)
Record Acc : Type := mkAcc {
  fraud_flags : list string;
  score : nat;
  explanations : list string
}.

Definition acc_init : Acc := mkAcc [] 0 [].

(** One [if is_fraud:] block: append the label, add the weight, append
    the explanation. *)
Definition record_rule (label : string) (weight : nat)
           (res : bool * string) (a : Acc) : Acc :=
  if fst res
  then mkAcc (fraud_flags a ++ [label]) (score a + weight)%nat
             (explanations a ++ [snd res])
  else a.

Definition run_rules (row : EnrichedClaim) : Acc :=
  let a := acc_init in
  let a := record_rule "DUPLICATE" 20 (rule_duplicate_claims row) a in
  let a := record_rule "AMOUNT_ANOMALY" 25 (rule_amount_anomaly row) a in
  let a := record_rule "CODE_MISMATCH" 15 (rule_code_mismatch row) a in
  let a := record_rule "VELOCITY_FRAUD" 20 (rule_velocity_fraud row) a in
  let a := record_rule "PROVIDER_OUTLIER" 15 (rule_provider_outlier row) a in
  let a := record_rule "IMPOSSIBLE_SCENARIO" 30
                       (rule_impossible_scenario row) a in
  a.

Definition nonempty {A : Type} (l : list A) : bool :=
  match l with
  | [] => false
  | _ :: _ => true
  end.

(** The body of the [for idx, row in self.df.iterrows()] loop. *)
Definition assess (row : EnrichedClaim) : Assessment :=
  let a := run_rules row in
  let fraud_score := Nat.min (score a) 100 in
  mkAssessment
    (claim_id (claim row))
    (0 <? List.length (fraud_flags a))%nat
    fraud_score
    (if nonempty (fraud_flags a)
     then String.concat ", " (fraud_flags a) else "NONE")
    (if nonempty (explanations a)
     then String.concat " | " (explanations a) else "No fraud detected")
    (is_fraud (claim row)).

(** [results], one dictionary appended per row of the frame. *)
Definition run_all_rules (df : list EnrichedClaim) : list Assessment :=
  map assess df.

End RuleEvaluator.

(** ** Frame operations used by the feature engine *)

Section FrameOps.

Context {A K V : Type}.
Variable keq : K -> K -> bool.
Variable key : A -> K.

(** The distinct values of a key column. *)
Fixpoint distinct (ks : list K) : list K :=
  match ks with
  | [] => []
  | k :: t => if existsb (keq k) t then distinct t else k :: distinct t
  end.

(** The rows of one group. *)
Definition group_rows (k : K) (df : list A) : list A :=
  filter (fun r => keq (key r) k) df.

(** [df.groupby(key)]: every key present in the frame with its rows, the
    rows in frame order. *)
Definition groupby (df : list A) : list (K * list A) :=
  map (fun k => (k, group_rows k df)) (distinct (map key df)).

(** [.agg(f)] followed by [.reset_index()]: one table row per group. *)
Definition agg (f : list A -> V) (groups : list (K * list A))
  : list (K * V) :=
  map (fun g => (fst g, f (snd g))) groups.

(** The cell a left merge on the key column gives a frame row: the
    aggregate of the table row with the same key, if there is one. *)
Fixpoint merge_lookup (k : K) (table : list (K * V)) : option V :=
  match table with
  | [] => None
  | (k', v) :: t => if keq k' k then Some v else merge_lookup k t
  end.

End FrameOps.

(** Stable insertion sort, the order of [sort_values] on several columns. *)
Section Sorting.

Context {A : Type}.
Variable leb : A -> A -> bool.

Fixpoint insert_sorted (x : A) (l : list A) : list A :=
  match l with
  | [] => [x]
  | y :: t => if leb x y then x :: l else y :: insert_sorted x t
  end.

Fixpoint sort_by (l : list A) : list A :=
  match l with
  | [] => []
  | x :: t => insert_sorted x (sort_by t)
  end.

End Sorting.

(** ** Strings: [str.split] and the code prefixes *)

(** [s.split(sep)] for a one-character separator. *)
Fixpoint split_on (sep : ascii) (s : string) : list string :=
  match s with
  | EmptyString => [EmptyString]
  | String c t =>
      if Ascii.eqb c sep then EmptyString :: split_on sep t
      else match split_on sep t with
           | h :: r => String c h :: r
           | [] => [String c EmptyString]
           end
  end.

(** ['_'.join(diagnosis.split('_')[:2])] *)
Definition diag_prefix (diagnosis : string) : string :=
  String.concat "_" (firstn 2 (split_on "_" diagnosis)).

(** [procedure.split('0')[0]] *)
Definition proc_prefix (procedure : string) : string :=
  hd EmptyString (split_on "0" procedure).

Definition valid_combos : list (string * list string) :=
  [ ("D_HEART", ["CARD"]);
    ("D_CARDIAC", ["CARD"]);
    ("D_VASCULAR", ["CARD"]);
    ("D_CANCER", ["ONC"]);
    ("D_TUMOR", ["ONC"]);
    ("D_LEUKEMIA", ["ONC"]);
    ("D_LYMPHOMA", ["ONC"]);
    ("D_CHILD", ["PED"]);
    ("D_INFANT", ["PED"]);
    ("D_FEVER", ["PED"; "GP"]);
    ("D_ALLERGY", ["PED"; "GP"]);
    ("D_BONE", ["ORTH"]);
    ("D_JOINT", ["ORTH"]);
    ("D_FRACTURE", ["ORTH"]);
    ("D_SPRAIN", ["ORTH"]);
    ("D_ROUTINE", ["GP"]);
    ("D_CHECKUP", ["GP"]);
    ("D_FLU", ["GP"; "ER"]);
    ("D_COMMON", ["GP"]);
    ("D_ACCIDENT", ["ER"; "ORTH"]);
    ("D_TRAUMA", ["ER"; "SURG"]);
    ("D_URGENT", ["ER"]);
    ("D_CRITICAL", ["ER"; "SURG"]);
    ("D_SURGICAL", ["SURG"]);
    ("D_OPERATION", ["SURG"]);
    ("D_PROCEDURE", ["SURG"]);
    ("D_INVASIVE", ["SURG"]);
    ("D_XRAY", ["RAD"]);
    ("D_SCAN", ["RAD"]);
    ("D_IMAGING", ["RAD"]);
    ("D_MRI", ["RAD"]) ].

(** Membership test [x in xs] on strings. *)
Definition str_in (x : string) (xs : list string) : bool :=
  existsb (String.eqb x) xs.

(** The body of the loop of [_detect_code_mismatches] for one row. *)
Definition code_mismatch_of (diagnosis procedure : string) : bool :=
  match merge_lookup String.eqb (diag_prefix diagnosis) valid_combos with
  | Some accepted => negb (str_in (proc_prefix procedure) accepted)
  | None => false
  end.

(** [_detect_code_mismatches]: one flag per row, in row order. *)
Definition _detect_code_mismatches (df : list Claim) : list bool :=
  map (fun row => code_mismatch_of (diagnosis_code row) (procedure_code row))
      df.

Definition surgery_codes : list string :=
  ["SURG001"; "SURG002"; "SURG003"; "SURG004"; "CARD003"; "ORTH003"; "ONC002"].

(** ** Calendar features of a date given in days since 1970-01-01 *)

(** [Series.dt.dayofweek]: Monday is 0; day 0 was a Thursday. *)
Definition dayofweek (d : Z) : Z := ((d + 3) mod 7)%Z.

(** [Series.dt.month], by the usual era/day-of-era conversion. *)
Definition month_of (d : Z) : Z :=
  (let z := d + 719468 in
   let era := z / 146097 in
   let doe := z - era * 146097 in
   let yoe := (doe - doe / 1460 + doe / 36524 - doe / 146096) / 365 in
   let doy := doe - (365 * yoe + yoe / 4 - yoe / 100) in
   let mp := (5 * doy + 2) / 153 in
   if mp <? 10 then mp + 3 else mp - 9)%Z.

(** ** Aggregates *)

Definition Qsum (xs : list Q) : Q := fold_right Qplus 0%Q xs.

Definition Qof_nat (n : nat) : Q := inject_Z (Z.of_nat n).

(** ['mean'] of a group; a group of a [groupby] is never empty. *)
Definition mean (xs : list Q) : fval :=
  match xs with
  | [] => NaN
  | _ :: _ => Fin (Qsum xs / Qof_nat (List.length xs))
  end.

(** Sum of squared deviations from [m] divided by [n - 1]. *)
Definition sample_variance (xs : list Q) : Q :=
  let m := Qsum xs / Qof_nat (List.length xs) in
  Qsum (map (fun x => (x - m) * (x - m)) xs)
  / Qof_nat (List.length xs - 1).

(** A computable square root: [sqrt x] rounded down to six decimals of
    [sqrt (num * den)]. *)
Definition Qsqrt_down (x : Q) : Q :=
  (Z.sqrt (Qnum x * Zpos (Qden x) * 1000000 * 1000000)
   # (Qden x * 1000000))%Q.

(** ** Binary64 cells *)

Local Abbreviation float := PrimFloat.float.

Definition float_of_Z (z : Z) : float :=
  match z with
  | Z0 => PrimFloat.zero
  | Zpos _ => PrimFloat.of_uint63 (Uint63.of_Z z)
  | Zneg p => PrimFloat.opp (PrimFloat.of_uint63 (Uint63.of_Z (Zpos p)))
  end.

(** The float cell [read_csv] holds for a decimal amount: the double nearest
    to it (numerator and denominator below 2^53). *)
Definition float_of_amount (q : Q) : float :=
  PrimFloat.div (float_of_Z (Qnum q)) (float_of_Z (Zpos (Qden q))).

(** The exact value of a finite double. *)
Definition Q_of_binary (negative : bool) (m : positive) (e : Z) : Q :=
  let n := if negative then Zneg m else Zpos m in
  match e with
  | Z0 => n # 1
  | Zpos p => (n * 2 ^ Zpos p) # 1
  | Zneg p => n # (2 ^ p)
  end.

Definition fval_of_float (x : float) : fval :=
  match FloatOps.Prim2SF x with
  | SpecFloat.S754_zero _ => Fin 0
  | SpecFloat.S754_infinity negative => Inf negative
  | SpecFloat.S754_nan => NaN
  | SpecFloat.S754_finite negative m e => Fin (Q_of_binary negative m e)
  end.

(** The sum pandas accumulates for ['mean'] of a group ([group_mean]): Kahan
    summation in row order, [compensation] being reset when it is NaN. *)
Fixpoint kahan_sum (values : list float) (sumx compensation : float)
  : float :=
  match values with
  | [] => sumx
  | val :: rest =>
      let y := PrimFloat.sub val compensation in
      let t := PrimFloat.add sumx y in
      let c := PrimFloat.sub (PrimFloat.sub t sumx) y in
      kahan_sum rest t (if PrimFloat.is_nan c then PrimFloat.zero else c)
  end.

Definition float_mean (values : list float) : float :=
  match values with
  | [] => PrimFloat.nan
  | _ :: _ =>
      PrimFloat.div (kahan_sum values PrimFloat.zero PrimFloat.zero)
                    (float_of_Z (Z.of_nat (List.length values)))
  end.

(** The sum of squared deviations pandas accumulates for ['std'] of a group
    ([group_var]): the running mean is updated with every value. *)
Fixpoint welford (values : list float) (nobs : nat) (running_mean out : float)
  : float :=
  match values with
  | [] => out
  | val :: rest =>
      let nobs := S nobs in
      let oldmean := running_mean in
      let running_mean :=
        PrimFloat.add oldmean
          (PrimFloat.div (PrimFloat.sub val oldmean)
                         (float_of_Z (Z.of_nat nobs))) in
      welford rest nobs running_mean
              (PrimFloat.add out
                 (PrimFloat.mul (PrimFloat.sub val running_mean)
                                (PrimFloat.sub val oldmean)))
  end.

(** ['std'] with one delta degree of freedom: NaN for fewer than two
    values. *)
Definition float_std (values : list float) : float :=
  let ct := List.length values in
  if (ct <=? 1)%nat then PrimFloat.nan
  else PrimFloat.sqrt
         (PrimFloat.div (welford values 0 PrimFloat.zero PrimFloat.zero)
                        (float_of_Z (Z.of_nat (ct - 1)))).

(** [Series.fillna(0)] on a float cell. *)
Definition float_fillna0 (x : float) : float :=
  if PrimFloat.is_nan x then PrimFloat.zero else x.

(** ** Feature engine ([src/data/etl.py]) *)

Section FeatureEngine.

(** The square root of the float library. *)
Variable sqrtQ : Q -> Q.

(** ['std'] of a group: the sample standard deviation, NaN for fewer than
    two values. *)
Definition std (xs : list Q) : fval :=
  if (List.length xs <? 2)%nat then NaN
  else Fin (sqrtQ (sample_variance xs)).

Definition amounts (rows : list Claim) : list Q := map claim_amount rows.

(** Step 1: [groupby('provider_id')['claim_amount'].agg(mean, count)]. *)
Definition provider_stats (df : list Claim)
  : list (string * (fval * nat)) :=
  agg (fun rows => (mean (amounts rows), List.length rows))
      (groupby String.eqb provider_id df).

(** Step 2: [groupby('provider_specialty')['claim_amount'].agg(mean, std)]. *)
Definition specialty_stats (df : list Claim)
  : list (string * (fval * fval)) :=
  agg (fun rows => (mean (amounts rows), std (amounts rows)))
      (groupby String.eqb provider_specialty df).

(** A missing float cell after a left merge. *)
Definition cell (o : option fval) : fval :=
  match o with
  | Some v => v
  | None => NaN
  end.

(** The float cells of the two specialty columns of step 2. *)
Definition specialty_stats_f64 (df : list Claim)
  : list (string * (float * float)) :=
  agg (fun rows =>
         (float_mean (map float_of_amount (amounts rows)),
          float_std (map float_of_amount (amounts rows))))
      (groupby String.eqb provider_specialty df).

(** A missing float cell, as binary64. *)
Definition cell_f64 (o : option float) : float :=
  match o with
  | Some v => v
  | None => PrimFloat.nan
  end.

(** Step 3: the z-score column, then [fillna(0)]:
    [(claim_amount - specialty_avg_amount) / specialty_std_amount] in
    binary64. *)
Definition zscore (amount specialty_avg specialty_std : float) : fval :=
  fval_of_float
    (float_fillna0
       (PrimFloat.div (PrimFloat.sub amount specialty_avg) specialty_std)).

(** Step 4: [provider_avg_amount > specialty_avg_amount * 2]. *)
Definition provider_outlier (provider_avg specialty_avg : fval) : bool :=
  fgtb provider_avg (fmul specialty_avg (Fin 2)).

(** Step 5: [sort_values(['patient_id', 'claim_date'])]. *)
Definition patient_date_leb (a b : Claim) : bool :=
  String.ltb (patient_id a) (patient_id b)
  || (String.eqb (patient_id a) (patient_id b)
      && (claim_date a <=? claim_date b)%Z).

(** The inner lambda of step 5 for one [date] of the group [x]:
    [((x.claim_date >= date - days) & (x.claim_date <= date)).sum()]. *)
Definition window_count (days : Z) (x : list Claim) (date : Z) : nat :=
  List.length
    (filter (fun r => (date - days <=? claim_date r)%Z
                      && (claim_date r <=? date)%Z) x).

(** The value the [groupby('patient_id').apply(...)] of step 5 gives the
    row [c]: the inner lambda on the group of its own patient. *)
Definition patient_claims (days : Z) (df : list Claim) (c : Claim) : nat :=
  window_count days (group_rows String.eqb patient_id (patient_id c) df)
               (claim_date c).

Definition patient_date_eqb (k1 k2 : string * Z) : bool :=
  String.eqb (fst k1) (fst k2) && (snd k1 =? snd k2)%Z.

(** [groupby(['patient_id', 'claim_date']).size()] *)
Definition same_day_counts (df : list Claim) : list ((string * Z) * nat) :=
  agg (fun rows => List.length rows)
      (groupby patient_date_eqb
               (fun r => (patient_id r, claim_date r)) df).

(** Step 8: [groupby('claim_id').size()] *)
Definition duplicate_counts (df : list Claim) : list (string * nat) :=
  agg (fun rows => List.length rows) (groupby String.eqb claim_id df).

(** All columns of one row, given the aggregate tables and the sorted
    frame; the fields follow the numbered steps of [transform].  The two
    specialty columns are recorded with their exact values; the z-score is
    computed on their float cells [sstats_f64]. *)
Definition enrich
           (pstats : list (string * (fval * nat)))
           (sstats : list (string * (fval * fval)))
           (sstats_f64 : list (string * (float * float)))
           (df : list Claim) (c : Claim) : EnrichedClaim :=
  let p := merge_lookup String.eqb (provider_id c) pstats in
  let s := merge_lookup String.eqb (provider_specialty c) sstats in
  let s64 := merge_lookup String.eqb (provider_specialty c) sstats_f64 in
  let provider_avg := cell (option_map fst p) in
  let specialty_avg := cell (option_map fst s) in
  let specialty_std := cell (option_map snd s) in
  let same_day :=
    merge_lookup patient_date_eqb (patient_id c, claim_date c)
                 (same_day_counts df) in
  let dup := merge_lookup String.eqb (claim_id c) (duplicate_counts df) in
  let surgery := str_in (procedure_code c) surgery_codes in
  let dow := dayofweek (claim_date c) in
  {| claim := c;
     provider_avg_amount := provider_avg;
     provider_total_claims := option_map snd p;
     specialty_avg_amount := specialty_avg;
     specialty_std_amount := specialty_std;
     amount_zscore :=
       zscore (float_of_amount (claim_amount c))
              (cell_f64 (option_map fst s64)) (cell_f64 (option_map snd s64));
     is_provider_outlier := provider_outlier provider_avg specialty_avg;
     patient_claims_7d := patient_claims 7 df c;
     patient_claims_30d := patient_claims 30 df c;
     same_day_claim_count := same_day;
     is_code_mismatch :=
       code_mismatch_of (diagnosis_code c) (procedure_code c);
     day_of_week := dow;
     is_weekend := (dow =? 5)%Z || (dow =? 6)%Z;
     month := month_of (claim_date c);
     duplicate_count := dup;
     is_duplicate := count_gtb dup 1;
     is_high_amount := Qltb 50000 (claim_amount c);
     is_surgery := surgery;
     same_day_surgeries := count_gtb same_day 1 && surgery |}.

(** The rows of the frame with every column of [transform]: the two
    statistics tables are computed on the frame as loaded, the frame is then
    sorted by patient and date, and every later column is computed on the
    sorted frame. *)
Definition enriched_rows (df0 : list Claim) : list EnrichedClaim :=
  let pstats := provider_stats df0 in
  let sstats := specialty_stats df0 in
  let sstats_f64 := specialty_stats_f64 df0 in
  let df := sort_by patient_date_leb df0 in
  map (enrich pstats sstats sstats_f64 df) df.

(** Whether [self.df['patient_claims_7d'] = groupby('patient_id').apply(...)]
    goes through (pandas).  The lambda returns one value per row of its
    group.  With two or more patient groups the results are concatenated
    into one series, a value per row of the frame.  With a single group the
    result is a frame of one row with a column per row of the group, and
    with no group an empty frame with the columns of [self.df]; assigning a
    frame to one column raises ValueError unless it has exactly one
    column. *)
Definition window_counts_assignable (df : list Claim) : bool :=
  match distinct String.eqb (map patient_id df) with
  | [] => false
  | [_] => (List.length df =? 1)%nat
  | _ :: _ :: _ => true
  end.

(** [transform] on the frame: [None] when the assignment of the windowed
    counts raises. *)
Definition transform_frame (df0 : list Claim)
  : option (list EnrichedClaim) :=
  if window_counts_assignable (sort_by patient_date_leb df0)
  then Some (enriched_rows df0)
  else None.





End FeatureEngine.

(** ** The specification's reading of the rules and of the prefixes *)

(** The six rules in the order of the rule table. *)
Inductive Rule : Type :=
| DUPLICATE
| AMOUNT_ANOMALY
| CODE_MISMATCH
| VELOCITY_FRAUD
| PROVIDER_OUTLIER
| IMPOSSIBLE_SCENARIO.

Definition all_rules : list Rule :=
  [DUPLICATE; AMOUNT_ANOMALY; CODE_MISMATCH; VELOCITY_FRAUD;
   PROVIDER_OUTLIER; IMPOSSIBLE_SCENARIO].

Definition rule_label (r : Rule) : string :=
  match r with
  | DUPLICATE => "DUPLICATE"
  | AMOUNT_ANOMALY => "AMOUNT_ANOMALY"
  | CODE_MISMATCH => "CODE_MISMATCH"
  | VELOCITY_FRAUD => "VELOCITY_FRAUD"
  | PROVIDER_OUTLIER => "PROVIDER_OUTLIER"
  | IMPOSSIBLE_SCENARIO => "IMPOSSIBLE_SCENARIO"
  end.

Definition rule_weight (r : Rule) : nat :=
  match r with
  | DUPLICATE => 20
  | AMOUNT_ANOMALY => 25
  | CODE_MISMATCH => 15
  | VELOCITY_FRAUD => 20
  | PROVIDER_OUTLIER => 15
  | IMPOSSIBLE_SCENARIO => 30
  end.

(** The trigger condition column of the rule table. *)
Definition rule_trigger (r : Rule) (row : EnrichedClaim) : bool :=
  match r with
  | DUPLICATE => count_gtb (duplicate_count row) 1
  | AMOUNT_ANOMALY =>
      fgtb (fabs (amount_zscore row)) (Fin 3) || is_high_amount row
  | CODE_MISMATCH => is_code_mismatch row
  | VELOCITY_FRAUD =>
      (5 <=? patient_claims_7d row)%nat || (10 <=? patient_claims_30d row)%nat
  | PROVIDER_OUTLIER => is_provider_outlier row
  | IMPOSSIBLE_SCENARIO =>
      same_day_surgeries row
      || (is_surgery row && (3 <=? patient_claims_7d row)%nat)
  end.

(** The rules that trigger on a row, in table order. *)
Definition triggered (row : EnrichedClaim) : list Rule :=
  filter (fun r => rule_trigger r row) all_rules.

Definition total_weight (rs : list Rule) : nat :=
  fold_right (fun r acc => (rule_weight r + acc)%nat) 0%nat rs.

Definition is_digit (c : ascii) : bool :=
  (48 <=? nat_of_ascii c)%nat && (nat_of_ascii c <=? 57)%nat.

(** The portion of a string before its first character satisfying [stop]. *)
Fixpoint take_until (stop : ascii -> bool) (s : string) : string :=
  match s with
  | EmptyString => EmptyString
  | String c t => if stop c then EmptyString else String c (take_until stop t)
  end.

(** "The portion before the first digit". *)
Definition before_first_digit (procedure : string) : string :=
  take_until is_digit procedure.

(** The portion before the first character ['0']. *)
Definition before_first_zero (procedure : string) : string :=
  take_until (fun c => Ascii.eqb c "0") procedure.

(** The mismatch flag with the procedure prefix read as "the portion before
    the first digit". *)
Definition code_mismatch_by_digit (diagnosis procedure : string) : bool :=
  match merge_lookup String.eqb (diag_prefix diagnosis) valid_combos with
  | Some accepted => negb (str_in (before_first_digit procedure) accepted)
  | None => false
  end.

(** A text without a digit. *)
Fixpoint digit_free (s : string) : bool :=
  match s with
  | EmptyString => true
  | String c t => negb (is_digit c) && digit_free t
  end.

Fixpoint has_char (c : ascii) (s : string) : bool :=
  match s with
  | EmptyString => false
  | String c' t => Ascii.eqb c' c || has_char c t
  end.

(** ** Sample data *)

Definition sample_claim (cid pid : string) (date : Z) (proc diag : string)
  : Claim :=
  mkClaim cid pid "DR001" "Cardiology" proc diag 1200 date "approved" false.

(** Patient P0001 has five claims on five consecutive days; patient P0002
    has one claim. *)
Definition week_population : list Claim :=
  [ sample_claim "C00001" "P0001" 19737 "CARD001" "D_HEART01";
    sample_claim "C00002" "P0001" 19738 "CARD001" "D_HEART01";
    sample_claim "C00003" "P0001" 19739 "CARD002" "D_HEART02";
    sample_claim "C00004" "P0001" 19740 "CARD002" "D_HEART02";
    sample_claim "C00005" "P0001" 19741 "CARD004" "D_CARDIAC03";
    sample_claim "C00006" "P0002" 19741 "CARD004" "D_CARDIAC03" ].

Definition plain_format (v : fval) : string := "0.0".

Definition week_rows : list EnrichedClaim :=
  enriched_rows Qsqrt_down week_population.

Definition default_row : EnrichedClaim :=
  enrich [] [] [] [] (sample_claim "" "" 0 "" "").

(** The row of claim C00005, the last of the five claims of P0001. *)
Definition last_of_week : EnrichedClaim := nth 4 week_rows default_row.

(** ** Statements about the population *)

(** [sub_rows s l]: the rows [s] are rows of the frame [l], each occurrence
    used once, in frame order. *)
Inductive sub_rows {A : Type} : list A -> list A -> Prop :=
| sub_rows_nil : forall l, sub_rows [] l
| sub_rows_take : forall x s l, sub_rows s l -> sub_rows (x :: s) (x :: l)
| sub_rows_skip : forall x s l, sub_rows s l -> sub_rows s (x :: l).

(** The number of claims of the population by the patient of [c] dated in
    the closed window of [days] days ending on the date of [c]. *)
Definition window_population_count (days : Z) (population : list Claim)
           (c : Claim) : nat :=
  List.length
    (filter (fun r => String.eqb (patient_id r) (patient_id c)
                      && ((claim_date c - days <=? claim_date r)%Z
                          && (claim_date r <=? claim_date c)%Z))
            population).

(** The number of claims among [rows] by the patient of [c] dated on or
    before the date of [c]. *)
Definition dated_on_or_before (rows : list Claim) (c : Claim) : nat :=
  List.length
    (filter (fun r => String.eqb (patient_id r) (patient_id c)
                      && (claim_date r <=? claim_date c)%Z)
            rows).

(** The number of claims of the population with the same value of a column. *)
Definition same_key_count {K : Type} (keq : K -> K -> bool)
           (key : Claim -> K) (population : list Claim) (c : Claim) : nat :=
  List.length (filter (fun r => keq (key r) (key c)) population).

(** The velocity property read for every one of the five claims: whenever
    [five] are five claims of the population by one patient dated within a
    7-day span, the row of each of them has a 7-day count of at least 5 and
    triggers the velocity rule. *)
Definition every_claim_of_five_triggers (sqrtQ : Q -> Q)
           (population five : list Claim) : Prop :=
  sub_rows five population ->
  List.length five = 5%nat ->
  (forall a b, In a five -> In b five ->
               patient_id a = patient_id b
               /\ (claim_date b - claim_date a <= 7)%Z) ->
  forall enriched,
    transform_frame sqrtQ population = Some enriched ->
    forall r, In r enriched ->
              In (claim r) five ->
              (5 <= patient_claims_7d r)%nat
              /\ fst (rule_velocity_fraud r) = true.

(** The row of claim C00001, the first of the five claims of P0001. *)
Definition first_of_week : EnrichedClaim := nth 0 week_rows default_row.

(** The amounts of the claims of the population in the specialty of [c]. *)
Definition specialty_amounts (population : list Claim) (c : Claim) : list Q :=
  amounts (group_rows String.eqb provider_specialty (provider_specialty c)
                      population).

(** Three cardiology claims of three patients with amounts 1000, 2000 and
    3000: mean 2000, sample variance 1000000. *)
Definition spread_population : list Claim :=
  [ mkClaim "C00011" "P0011" "DR001" "Cardiology" "CARD001" "D_HEART01"
            1000 19737 "approved" false;
    mkClaim "C00012" "P0012" "DR001" "Cardiology" "CARD001" "D_HEART01"
            2000 19738 "approved" false;
    mkClaim "C00013" "P0013" "DR002" "Cardiology" "CARD002" "D_HEART02"
            3000 19739 "approved" false ].

(** The row of claim C00013, one deviation above the mean. *)
Definition spread_row : EnrichedClaim :=
  nth 2 (enriched_rows Qsqrt_down spread_population) default_row.

(** Three cardiology claims of 0.1 each, of three patients. *)
Definition constant_population : list Claim :=
  [ mkClaim "C00031" "P0031" "DR001" "Cardiology" "CARD001" "D_HEART_01"
            (1 # 10) 19737 "approved" false;
    mkClaim "C00032" "P0032" "DR001" "Cardiology" "CARD001" "D_HEART_01"
            (1 # 10) 19738 "approved" false;
    mkClaim "C00033" "P0033" "DR002" "Cardiology" "CARD002" "D_HEART_01"
            (1 # 10) 19739 "approved" false ].

(** The order of the sorted frame: by patient, then by date. *)
Definition patient_date_le (a b : Claim) : Prop :=
  String.compare (patient_id a) (patient_id b) = Lt
  \/ (patient_id a = patient_id b /\ (claim_date a <= claim_date b)%Z).

(** Two claims of one patient on one day, the first a surgery; a third claim
    repeats the id of the first. *)
Definition surgery_day_population : list Claim :=
  [ mkClaim "C00021" "P0021" "DR003" "Surgery" "SURG001" "D_SURGICAL_01"
            60000 19750 "approved" false;
    mkClaim "C00022" "P0021" "DR004" "General Practice" "GP001" "D_ROUTINE_01"
            400 19750 "approved" false;
    mkClaim "C00021" "P0022" "DR004" "General Practice" "GP002" "D_FLU_03"
            500 19760 "denied" false ].

(** The row of the surgery claim C00021 of patient P0021. *)
Definition surgery_row : EnrichedClaim :=
  nth 0 (enriched_rows Qsqrt_down surgery_day_population) default_row.

Definition surgery_day_rows : list EnrichedClaim :=
  enriched_rows Qsqrt_down surgery_day_population.

(** ** Run summary ([FraudDetector._print_summary]) *)

(** [Series.str.contains(pattern)] for a pattern of letters and
    underscores: the pattern occurs somewhere in the text. *)
Definition contains (pattern text : string) : bool :=
  match String.index 0 pattern text with
  | Some _ => true
  | None => false
  end.

(** The number of rows on which a boolean column is true: [mask.sum()]. *)
Definition count_rows {A : Type} (mask : A -> bool) (rows : list A) : nat :=
  List.length (filter mask rows).

(** The rule names of the breakdown loop of [_print_summary]. *)
Definition summary_rules : list string :=
  ["DUPLICATE"; "AMOUNT_ANOMALY"; "CODE_MISMATCH";
   "VELOCITY_FRAUD"; "PROVIDER_OUTLIER"; "IMPOSSIBLE_SCENARIO"].

(** The quantities [_print_summary] computes before printing them. *)
Record Summary : Type := mkSummary {
  total : nat;
  detected : nat;
  actual_fraud_cases : nat;
  tp : nat;
  fp : nat;
  fn : nat;
  precision : Q;
  recall : Q;
  f1_score : Q;
  rule_counts : list (string * nat)
}.

Definition _print_summary (results_df : list Assessment) : Summary :=
  let total := List.length results_df in
  let detected := count_rows fraud_detected results_df in
  let actual_fraud_cases := count_rows actual_fraud results_df in
  let tp := count_rows (fun a => fraud_detected a && actual_fraud a)
                       results_df in
  let fp := count_rows (fun a => fraud_detected a && negb (actual_fraud a))
                       results_df in
  let fn := count_rows (fun a => negb (fraud_detected a) && actual_fraud a)
                       results_df in
  let precision :=
    if (0 <? tp + fp)%nat then (Qof_nat tp / Qof_nat (tp + fp))%Q else 0%Q in
  let recall :=
    if (0 <? tp + fn)%nat then (Qof_nat tp / Qof_nat (tp + fn))%Q else 0%Q in
  let f1_score :=
    if Qltb 0 (precision + recall)
    then (2 * (precision * recall) / (precision + recall))%Q else 0%Q in
  mkSummary total detected actual_fraud_cases tp fp fn
            precision recall f1_score
            (map (fun rule =>
                    (rule, count_rows (fun a => contains rule
                                                         (rules_triggered a))
                                      results_df))
                 summary_rules).

(** ** Reading the stored rule text back *)

(** [str.isspace] on one ASCII character. *)
Definition is_space (c : ascii) : bool :=
  let n := nat_of_ascii c in
  (n =? 32)%nat || ((9 <=? n)%nat && (n <=? 13)%nat)
  || ((28 <=? n)%nat && (n <=? 31)%nat).

Fixpoint lstrip (s : string) : string :=
  match s with
  | EmptyString => EmptyString
  | String c t => if is_space c then lstrip t else s
  end.

(** [str.rstrip()]: a character is dropped when it is a space and nothing
    is left of the text after it. *)
Fixpoint rstrip (s : string) : string :=
  match s with
  | EmptyString => EmptyString
  | String c t =>
      match rstrip t with
      | EmptyString => if is_space c then EmptyString
                       else String c EmptyString
      | String c' t' => String c (String c' t')
      end
  end.

(** [str.strip()] *)
Definition strip (s : string) : string := rstrip (lstrip s).

(** [[r.strip() for r in rules.split(',')]], as in [plot_fraud_by_rule] of
    [app/ui_utils.py] and [has_selected_rule] of [app/app.py]. *)
Definition rule_tokens (rules : string) : list string :=
  map strip (split_on "," rules).

(** [rules.split(',') if rules else []], as in
    [FraudDetectionOrchestrator.investigate_single_claim]. *)
Definition rules_triggered_list (rules : string) : list string :=
  match rules with
  | EmptyString => []
  | String _ _ => split_on "," rules
  end.

(** The text stored for a list of triggered rules. *)
Definition rules_text (rs : list Rule) : string :=
  if nonempty rs then String.concat ", " (map rule_label rs) else "NONE".

(** The first character of a text, if any. *)
Definition first_char (s : string) : option ascii :=
  match s with
  | EmptyString => None
  | String c _ => Some c
  end.

(** ** The two tables read together *)

(** [FROM claims c LEFT JOIN fraud_flags f ON c.claim_id = f.claim_id]:
    every claims row with each fraud_flags row of its claim id, or once with
    no match.  The rows are listed claim by claim; the queries carry no
    ORDER BY, so the engine may return them in any other order. *)
Definition left_join (claims : list EnrichedClaim)
           (flags : list Assessment)
  : list (EnrichedClaim * option Assessment) :=
  flat_map
    (fun c =>
       match filter (fun f => String.eqb (a_claim_id f) (claim_id (claim c)))
                    flags with
       | [] => [(c, None)]
       | f :: fs => map (fun f' => (c, Some f')) (f :: fs)
       end)
    claims.

(** [drop_duplicates(subset=[key], keep='first')], [seen] being the keys of
    the rows already passed. *)
Fixpoint drop_duplicates {A : Type} (key : A -> string) (seen : list string)
         (rows : list A) : list A :=
  match rows with
  | [] => []
  | row :: rest =>
      if str_in (key row) seen then drop_duplicates key seen rest
      else row :: drop_duplicates key (key row :: seen) rest
  end.

Definition joined_claim_id (row : EnrichedClaim * option Assessment)
  : string :=
  claim_id (claim (fst row)).

(** The claim id of a claims row. *)
Definition row_claim_id (c : EnrichedClaim) : string := claim_id (claim c).

(** A frame the query can return: the rows of the join in some order. *)
Definition query_result (claims : list EnrichedClaim)
           (flags : list Assessment)
           (rows : list (EnrichedClaim * option Assessment)) : Prop :=
  Permutation rows (left_join claims flags).

(** [load_data] of [app/ui_utils.py], on the frame [rows] the query
    returned: repeated claim ids are dropped, the first row of each id
    being kept. *)
Definition load_data (rows : list (EnrichedClaim * option Assessment))
  : list (EnrichedClaim * option Assessment) :=
  drop_duplicates joined_claim_id [] rows.

(** The join of the tables of one run over [surgery_day_rows], returned
    last row first. *)
Definition reversed_join : list (EnrichedClaim * option Assessment) :=
  rev (left_join surgery_day_rows
                 (run_all_rules plain_format plain_format surgery_day_rows)).

(** [df['fraud_detected'] == 1] on a joined row. *)
Definition flagged (row : EnrichedClaim * option Assessment) : bool :=
  match snd row with
  | Some a => fraud_detected a
  | None => false
  end.

Record FraudMetrics : Type := mkFraudMetrics {
  total_claims : nat;
  total_amount : Q;
  fraud_claims : nat;
  fraud_amount : Q;
  fraud_rate : Q
}.

(** [create_fraud_metrics] of [app/ui_utils.py]. *)
Definition create_fraud_metrics (df : list (EnrichedClaim * option Assessment))
  : FraudMetrics :=
  let total_claims := List.length df in
  let total_amount := Qsum (map (fun row => claim_amount (claim (fst row))) df) in
  let fraud_df := filter flagged df in
  let fraud_claims := List.length fraud_df in
  let fraud_amount :=
    Qsum (map (fun row => claim_amount (claim (fst row))) fraud_df) in
  let fraud_rate :=
    if (0 <? total_claims)%nat
    then (Qof_nat fraud_claims / Qof_nat total_claims * 100)%Q else 0%Q in
  mkFraudMetrics total_claims total_amount fraud_claims fraud_amount
                 fraud_rate.

(** The tokens [plot_fraud_by_rule] counts: the rule tokens of every
    flagged row. *)
Definition plotted_rule_tokens (df : list (EnrichedClaim * option Assessment))
  : list string :=
  flat_map (fun row => match snd row with
                       | Some a => rule_tokens (rules_triggered a)
                       | None => []
                       end)
           (filter flagged df).

(** ** Documents for the vector store ([rag/embeddings.py]) *)

Record DocMetadata : Type := mkDocMetadata {
  m_claim_id : string;
  m_fraud_detected : option bool;
  m_fraud_score : nat;
  m_claim_amount : Q
}.

Section Documents.

(** The text [_create_document_text] writes for a joined row. *)
Variable _create_document_text : EnrichedClaim * option Assessment -> string.

(** [create_fraud_documents]: one document and one metadata entry per row
    of the join. *)
Definition create_fraud_documents (claims : list EnrichedClaim)
           (flags : list Assessment) : list string * list DocMetadata :=
  let df := left_join claims flags in
  (map _create_document_text df,
   map (fun row =>
          mkDocMetadata (claim_id (claim (fst row)))
                        (option_map fraud_detected (snd row))
                        (match snd row with
                         | Some a => fraud_score a
                         | None => 0%nat
                         end)
                        (claim_amount (claim (fst row))))
       df).

End Documents.

(** ** Vector store ([rag/vector_store.py]) *)

(** Python list indexing [l[i]]: a negative index counts from the end, an
    index out of range raises. *)
Definition py_index {A : Type} (l : list A) (i : Z) : option A :=
  let n := Z.of_nat (List.length l) in
  if (0 <=? i)%Z then nth_error l (Z.to_nat i)
  else if (- n <=? i)%Z then nth_error l (Z.to_nat (n + i))
  else None.

Section VectorStore.

(** A metadata entry, a distance, and the truth value of
    [m['fraud_detected']]. *)
Variable M D : Type.
Variable is_fraud_case : M -> bool.

Record SearchResult : Type := mkSearchResult {
  document : string;
  metadata : M;
  distance : D
}.

(** The loop of [search] over the neighbours returned by the index, the
    results collected so far being [results]. *)
Fixpoint collect_results (documents : list string) (metadata_list : list M)
         (fraud_only : bool) (k : nat) (neighbours : list (D * Z))
         (results : list SearchResult) : option (list SearchResult) :=
  match neighbours with
  | [] => Some results
  | (dist, idx) :: rest =>
      if fraud_only
      then match py_index metadata_list idx with
           | None => None
           | Some m =>
               if negb (is_fraud_case m)
               then collect_results documents metadata_list fraud_only k
                                    rest results
               else match py_index documents idx with
                    | None => None
                    | Some d =>
                        let results := results ++ [mkSearchResult d m dist] in
                        if (k <=? List.length results)%nat then Some results
                        else collect_results documents metadata_list
                                             fraud_only k rest results
                    end
           end
      else match py_index documents idx, py_index metadata_list idx with
           | Some d, Some m =>
               let results := results ++ [mkSearchResult d m dist] in
               if (k <=? List.length results)%nat then Some results
               else collect_results documents metadata_list fraud_only k
                                    rest results
           | _, _ => None
           end
  end.

(** [search]: [index_search n] stands for the [n] nearest neighbours the
    index returns for the query, as (distance, position) pairs; the index
    refuses a request for no neighbour (faiss asserts [k > 0]), which makes
    the call raise before the loop. *)
Definition search (documents : list string) (metadata_list : list M)
           (index_search : nat -> list (D * Z)) (k : nat)
           (fraud_only : bool) : option (list SearchResult) :=
  let n := (if fraud_only then k * 5 else k)%nat in
  if (n =? 0)%nat then None
  else collect_results documents metadata_list fraud_only k
                       (index_search n) [].

(** The result entry of one neighbour whose position is in range. *)
Definition resolve_neighbour (documents : list string)
           (metadata_list : list M) (neighbour : D * Z)
  : list SearchResult :=
  match py_index documents (snd neighbour),
        py_index metadata_list (snd neighbour) with
  | Some d, Some m => [mkSearchResult d m (fst neighbour)]
  | _, _ => []
  end.

(** The entries of all neighbours in rank order, restricted to fraud cases
    when [fraud_only] is set. *)
Definition ranked_candidates (documents : list string)
           (metadata_list : list M) (fraud_only : bool)
           (neighbours : list (D * Z)) : list SearchResult :=
  filter (fun r => negb fraud_only || is_fraud_case (metadata r))
         (flat_map (resolve_neighbour documents metadata_list) neighbours).

(** [get_fraud_statistics]: total, fraud, legitimate and percentage; the
    division raises on an empty store. *)
Definition get_fraud_statistics (metadata_list : list M)
  : option (nat * nat * nat * Q) :=
  let total := List.length metadata_list in
  let fraud_cases := List.length (filter is_fraud_case metadata_list) in
  if (total =? 0)%nat then None
  else Some (total, fraud_cases, (total - fraud_cases)%nat,
             (Qof_nat fraud_cases / Qof_nat total * 100)%Q).

End VectorStore.

(** ** Orchestrator ([orchestrator.py]) *)

Section Orchestrator.

(** The investigation and explanation agents, outside this development. *)
Variable Investigation Explanation : Type.
Variable investigate_claim : string -> Investigation.
Variable explain_fraud_case : string -> Investigation -> Explanation.

Inductive SingleClaimResult : Type :=
| ResultError (error : string)
| ResultFraud (id : string) (claim_data : EnrichedClaim) (score : nat)
              (rules : list string) (investigation : Investigation)
              (explained : Explanation)
| ResultLegitimate (id : string) (claim_data : EnrichedClaim) (score : nat).

(** [investigate_single_claim] on the two tables, for a claim id without a
    quote character (the id is spliced into the query text). *)
Definition investigate_single_claim (claims : list EnrichedClaim)
           (flags : list Assessment) (id : string) : SingleClaimResult :=
  match filter (fun c => String.eqb (claim_id (claim c)) id) claims with
  | [] => ResultError "Claim not found"
  | claim_info :: _ =>
      match filter (fun f => String.eqb (a_claim_id f) id) flags with
      | [] => ResultError "Fraud flag data not found"
      | fraud_info :: _ =>
          if fraud_detected fraud_info
          then
            let investigation := investigate_claim id in
            let explained := explain_fraud_case id investigation in
            ResultFraud id claim_info (fraud_score fraud_info)
                        (rules_triggered_list (rules_triggered fraud_info))
                        investigation explained
          else ResultLegitimate id claim_info (fraud_score fraud_info)
      end
  end.

End Orchestrator.

(** A text that is not empty and does not begin with the letter N. *)
Definition starts_unlike_sentinel (s : string) : Prop :=
  exists c t, s = String c t /\ c <> "N"%char.

(** [a / (a + b)] guarded against a zero denominator. *)
Definition guarded_ratio (a b : nat) : Q :=
  if (0 <? a + b)%nat then (Qof_nat a / Qof_nat (a + b))%Q else 0%Q.

(** ** Loading the database ([FraudETLPipeline.load]) *)

(** One row of the [providers] table. *)
Record ProviderSummary : Type := mkProviderSummary {
  ps_provider_id : string;
  ps_provider_specialty : string;
  avg_claim_amount : fval;
  total_billed : Q;
  ps_total_claims : nat;
  ps_fraud_claims : nat
}.

(** One row of the [patients] table. *)
Record PatientSummary : Type := mkPatientSummary {
  pt_patient_id : string;
  total_spent : Q;
  pt_total_claims : nat;
  pt_fraud_claims : nat
}.

Record Database : Type := mkDatabase {
  claims_table : list EnrichedClaim;
  providers_table : list ProviderSummary;
  patients_table : list PatientSummary
}.

Definition string_pair_eqb (a b : string * string) : bool :=
  String.eqb (fst a) (fst b) && String.eqb (snd a) (snd b).

(** The order of group keys made of two text columns. *)
Definition string_pair_leb (a b : string * string) : bool :=
  String.ltb (fst a) (fst b)
  || (String.eqb (fst a) (fst b) && String.leb (snd a) (snd b)).

Definition row_amounts (rows : list EnrichedClaim) : list Q :=
  map (fun r => claim_amount (claim r)) rows.

Definition row_is_fraud (r : EnrichedClaim) : bool := is_fraud (claim r).

(** [groupby(['provider_id', 'provider_specialty']).agg(mean, sum, count,
    fraud sum)], one row per key in key order. *)
Definition provider_summary (df : list EnrichedClaim)
  : list ProviderSummary :=
  let key := fun r => (provider_id (claim r), provider_specialty (claim r)) in
  map (fun k =>
         let rows := group_rows string_pair_eqb key k df in
         mkProviderSummary (fst k) (snd k)
                           (mean (row_amounts rows))
                           (Qsum (row_amounts rows))
                           (List.length rows)
                           (count_rows row_is_fraud rows))
      (sort_by string_pair_leb (distinct string_pair_eqb (map key df))).

(** [groupby('patient_id').agg(sum, count, fraud sum)], one row per patient
    in key order. *)
Definition patient_summary (df : list EnrichedClaim)
  : list PatientSummary :=
  let key := fun r => patient_id (claim r) in
  map (fun k =>
         let rows := group_rows String.eqb key k df in
         mkPatientSummary k (Qsum (row_amounts rows)) (List.length rows)
                          (count_rows row_is_fraud rows))
      (sort_by String.leb (distinct String.eqb (map key df))).

(** [load]: the three tables written, each replacing the previous one. *)
Definition load (df : list EnrichedClaim) : Database :=
  mkDatabase df (provider_summary df) (patient_summary df).

(** A store of three documents, the second one legitimate; the index ranks
    the last document first, addressing it from the end. *)
Definition sample_documents : list string := ["doc A"; "doc B"; "doc C"].

Definition sample_metadata : list bool := [true; false; true].

Definition sample_index_search (n : nat) : list (nat * Z) :=
  firstn n [(1%nat, (-1)%Z); (2%nat, 1%Z); (3%nat, 0%Z)].

(** ** The data generator ([src/data/generator.py]) *)

(** [self.diagnoses]: the diagnosis codes the generator draws from. *)
Definition generator_diagnoses : list (string * list string) :=
  [ ("Cardiology", ["D_HEART01"; "D_HEART02"; "D_CARDIAC03"; "D_VASCULAR04"]);
    ("Oncology", ["D_CANCER01"; "D_TUMOR02"; "D_LEUKEMIA03"; "D_LYMPHOMA04"]);
    ("Pediatrics", ["D_CHILD01"; "D_INFANT02"; "D_FEVER03"; "D_ALLERGY04"]);
    ("Orthopedics", ["D_BONE01"; "D_JOINT02"; "D_FRACTURE03"; "D_SPRAIN04"]);
    ("General Practice",
     ["D_ROUTINE01"; "D_CHECKUP02"; "D_FLU03"; "D_COMMON04"]);
    ("Emergency",
     ["D_ACCIDENT01"; "D_TRAUMA02"; "D_URGENT03"; "D_CRITICAL04"]);
    ("Surgery",
     ["D_SURGICAL01"; "D_OPERATION02"; "D_PROCEDURE03"; "D_INVASIVE04"]);
    ("Radiology", ["D_XRAY01"; "D_SCAN02"; "D_IMAGING03"; "D_MRI04"]) ].

(** Every diagnosis code of the generator, whatever the specialty. *)
Definition generated_diagnosis_codes : list string :=
  flat_map snd generator_diagnoses.

(** [df.iloc[positions]]: the rows at the given positions; a position out
    of range raises. *)
Fixpoint iloc {A : Type} (df : list A) (positions : list nat)
  : option (list A) :=
  match positions with
  | [] => Some []
  | i :: rest =>
      match nth_error df i, iloc df rest with
      | Some row, Some rows => Some (row :: rows)
      | _, _ => None
      end
  end.

Definition mark_fraud (c : Claim) : Claim :=
  mkClaim (claim_id c) (patient_id c) (provider_id c) (provider_specialty c)
          (procedure_code c) (diagnosis_code c) (claim_amount c)
          (claim_date c) (status c) true.

(** [inject_duplicates]: copies of the rows at the sampled positions,
    labelled fraud, appended to the frame; [duplicate_indices] stands for the
    random sample. *)
Definition inject_duplicates (df : list Claim) (duplicate_indices : list nat)
  : option (list Claim) :=
  match iloc df duplicate_indices with
  | Some duplicate_rows => Some (df ++ map mark_fraud duplicate_rows)
  | None => None
  end.

(** The rules DUPLICATE and IMPOSSIBLE_SCENARIO alone. *)
Definition duplicate_or_impossible (r : Rule) : bool :=
  match r with
  | DUPLICATE | IMPOSSIBLE_SCENARIO => true
  | _ => false
  end.

(** ** Cleaning the generated query ([SQLQueryAgent.question_to_sql]) *)

(** [s.replace(old, new)] for a non-empty [old], scanning from the left;
    [skip] counts the characters of a matched occurrence still to pass. *)
Fixpoint replace_from (old new : string) (skip : nat) (s : string) : string :=
  match s with
  | EmptyString => EmptyString
  | String c t =>
      match skip with
      | S k => replace_from old new k t
      | O =>
          if prefix old s
          then new ^^ replace_from old new (String.length old - 1) t
          else String c (replace_from old new 0 t)
      end
  end.

Definition replace (old new s : string) : string := replace_from old new 0 s.

Definition fence : string := "```".

Definition sql_fence : string := "```sql".

Definition newline : string := String (ascii_of_nat 10) EmptyString.

(** The clean-up of the model's answer: strip, remove the code fences,
    strip again. *)
Definition clean_sql (answer : string) : string :=
  strip (replace fence "" (replace sql_fence "" (strip answer))).

(** The number of backquotes a text begins with. *)
Fixpoint leading_backquotes (s : string) : nat :=
  match s with
  | EmptyString => 0
  | String c t => if Ascii.eqb c "`" then S (leading_backquotes t) else 0
  end.

(** A text that is empty or begins with a character that is no space. *)
Definition starts_clean (s : string) : Prop :=
  match s with
  | EmptyString => True
  | String c _ => is_space c = false
  end.

(** A text made of spaces only. *)
Fixpoint all_space (s : string) : bool :=
  match s with
  | EmptyString => true
  | String c t => is_space c && all_space t
  end.

(** * Properties of the rule evaluator *)

Section RuleEvaluatorFacts.

Variable fmt_money : fval -> string.
Variable fmt_fixed1 : fval -> string.

Local Abbreviation rules_of := (run_rules fmt_money fmt_fixed1).
Local Abbreviation assess_row := (assess fmt_money fmt_fixed1).
Local Abbreviation assess_all := (run_all_rules fmt_money fmt_fixed1).

(** Each rule function decides exactly the condition of its table line. *)
Lemma rule_functions_follow_table (row : EnrichedClaim) :
  fst (rule_duplicate_claims row) = rule_trigger DUPLICATE row
  /\ fst (rule_amount_anomaly fmt_money fmt_fixed1 row)
     = rule_trigger AMOUNT_ANOMALY row
  /\ fst (rule_code_mismatch row) = rule_trigger CODE_MISMATCH row
  /\ fst (rule_velocity_fraud row) = rule_trigger VELOCITY_FRAUD row
  /\ fst (rule_provider_outlier fmt_money fmt_fixed1 row)
     = rule_trigger PROVIDER_OUTLIER row
  /\ fst (rule_impossible_scenario row)
     = rule_trigger IMPOSSIBLE_SCENARIO row.
Proof.
  unfold rule_duplicate_claims, rule_amount_anomaly, rule_code_mismatch,
    rule_velocity_fraud, rule_provider_outlier, rule_impossible_scenario.
  cbn [rule_trigger].
  repeat split.
  - destruct (count_gtb (duplicate_count row) 1); reflexivity.
  - destruct (fgtb (fabs (amount_zscore row)) (Fin 3)); [reflexivity|].
    destruct (is_high_amount row); reflexivity.
  - destruct (is_code_mismatch row); reflexivity.
  - destruct (5 <=? patient_claims_7d row)%nat; [reflexivity|].
    destruct (10 <=? patient_claims_30d row)%nat; reflexivity.
  - destruct (is_provider_outlier row); reflexivity.
  - destruct (same_day_surgeries row); [reflexivity|].
    destruct (is_surgery row && (3 <=? patient_claims_7d row)%nat);
      reflexivity.
Qed.

(** The accumulators after the six blocks, in terms of the table. *)
Lemma run_rules_table (row : EnrichedClaim) :
  fraud_flags (rules_of row) = map rule_label (triggered row)
  /\ score (rules_of row) = total_weight (triggered row)
  /\ List.length (explanations (rules_of row))
     = List.length (triggered row).
Proof.
  destruct (rule_functions_follow_table row)
    as (H1 & H2 & H3 & H4 & H5 & H6).
  unfold run_rules, record_rule, triggered, all_rules.
  rewrite H1, H2, H3, H4, H5, H6.
  cbn [filter].
  destruct (rule_trigger DUPLICATE row),
           (rule_trigger AMOUNT_ANOMALY row),
           (rule_trigger CODE_MISMATCH row),
           (rule_trigger VELOCITY_FRAUD row),
           (rule_trigger PROVIDER_OUTLIER row),
           (rule_trigger IMPOSSIBLE_SCENARIO row);
    repeat split; reflexivity.
Qed.

Lemma rule_label_injective (r1 r2 : Rule) :
  rule_label r1 = rule_label r2 -> r1 = r2.
Proof.
  destruct r1, r2; simpl; intro H; try reflexivity; discriminate H.
Qed.

Lemma every_rule_listed (r : Rule) : In r all_rules.
Proof.
  destruct r; simpl; tauto.
Qed.

Lemma rule_weight_bounds (r : Rule) : (15 <= rule_weight r <= 30)%nat.
Proof.
  destruct r; simpl; lia.
Qed.

Lemma total_weight_positive (rs : list Rule) :
  rs <> [] -> (15 <= total_weight rs)%nat.
Proof.
  destruct rs as [|r rs]; [congruence|].
  intros _. simpl. pose proof (rule_weight_bounds r). lia.
Qed.

Lemma total_weight_nil_iff (rs : list Rule) :
  total_weight rs = 0%nat <-> rs = [].
Proof.
  split.
  - destruct rs as [|r rs]; [reflexivity|].
    simpl. pose proof (rule_weight_bounds r). lia.
  - intros ->. reflexivity.
Qed.

Lemma nonempty_map {A B : Type} (f : A -> B) (l : list A) :
  nonempty (map f l) = nonempty l.
Proof.
  destruct l; reflexivity.
Qed.

Lemma detected_iff_triggered (row : EnrichedClaim) :
  fraud_detected (assess_row row) = nonempty (triggered row).
Proof.
  unfold assess. cbn [fraud_detected].
  destruct (run_rules_table row) as (Hflags & _ & _).
  rewrite Hflags, length_map.
  destruct (triggered row); reflexivity.
Qed.

Lemma score_is_capped_weight (row : EnrichedClaim) :
  fraud_score (assess_row row) = Nat.min (total_weight (triggered row)) 100.
Proof.
  unfold assess. cbn [fraud_score].
  destruct (run_rules_table row) as (_ & Hscore & _).
  rewrite Hscore. reflexivity.
Qed.

(** C1: the fraud score of every enriched claim lies between 0 and 100, is
    the sum of the table weights of exactly the rules that triggered, capped
    at 100, and is 0 exactly when [fraud_detected] is false. *)
Theorem fraud_score_capped_sum (row : EnrichedClaim) :
  (0 <= fraud_score (assess_row row) <= 100)%nat
  /\ fraud_score (assess_row row)
     = Nat.min (total_weight (filter (fun r => rule_trigger r row) all_rules))
               100
  /\ (forall r, In r (filter (fun r => rule_trigger r row) all_rules)
                <-> rule_trigger r row = true)
  /\ (fraud_score (assess_row row) = 0%nat
      <-> fraud_detected (assess_row row) = false).
Proof.
  pose proof (score_is_capped_weight row) as Hs.
  pose proof (detected_iff_triggered row) as Hd.
  fold (triggered row).
  split; [ rewrite Hs; lia | ].
  split; [ exact Hs | ].
  split.
  - intro r. unfold triggered. rewrite filter_In.
    pose proof (every_rule_listed r). tauto.
  - rewrite Hs, Hd.
    destruct (triggered row) as [|r rs] eqn:E.
    + simpl. tauto.
    + assert (15 <= total_weight (r :: rs))%nat
        by (apply total_weight_positive; discriminate).
      simpl nonempty. split; [ lia | discriminate ].
Qed.

Lemma label_in_flags_iff (row : EnrichedClaim) (r : Rule) :
  In (rule_label r) (fraud_flags (rules_of row)) <-> rule_trigger r row = true.
Proof.
  destruct (run_rules_table row) as (Hflags & _ & _).
  rewrite Hflags, in_map_iff. unfold triggered. split.
  - intros (r' & Hlabel & Hin).
    apply rule_label_injective in Hlabel. subst r'.
    apply filter_In in Hin. tauto.
  - intro Ht. exists r. split; [ reflexivity | ].
    apply filter_In. split; [ apply every_rule_listed | exact Ht ].
Qed.

(** C2: the labels collected for a row are exactly the rules of the table
    whose trigger condition holds on the row, in table order; each of the six
    rule functions is evaluated and decides its own table condition, and the
    stored text is the labels joined by a comma, or NONE when there is none. *)
Theorem rules_triggered_exact (row : EnrichedClaim) :
  fraud_flags (rules_of row)
  = map rule_label (filter (fun r => rule_trigger r row) all_rules)
  /\ (forall r, In (rule_label r) (fraud_flags (rules_of row))
                <-> rule_trigger r row = true)
  /\ rules_triggered (assess_row row)
     = (if nonempty (triggered row)
        then String.concat ", " (map rule_label (triggered row))
        else "NONE")
  /\ fst (rule_duplicate_claims row) = rule_trigger DUPLICATE row
  /\ fst (rule_amount_anomaly fmt_money fmt_fixed1 row)
     = rule_trigger AMOUNT_ANOMALY row
  /\ fst (rule_code_mismatch row) = rule_trigger CODE_MISMATCH row
  /\ fst (rule_velocity_fraud row) = rule_trigger VELOCITY_FRAUD row
  /\ fst (rule_provider_outlier fmt_money fmt_fixed1 row)
     = rule_trigger PROVIDER_OUTLIER row
  /\ fst (rule_impossible_scenario row)
     = rule_trigger IMPOSSIBLE_SCENARIO row.
Proof.
  destruct (run_rules_table row) as (Hflags & _ & _).
  split; [ exact Hflags | ].
  split; [ intro r; apply label_in_flags_iff | ].
  split; [ | apply rule_functions_follow_table ].
  {
    unfold assess. cbn [rules_triggered].
    rewrite Hflags, nonempty_map. reflexivity. }
Qed.

(** C6: a run over an enriched frame yields one assessment per row, in row
    order and with the row's claim_id, duplicates included; the number of
    assessments is the number of enriched claims. *)
Theorem one_assessment_per_claim (df : list EnrichedClaim) :
  List.length (assess_all df) = List.length df
  /\ map a_claim_id (assess_all df) = map (fun row => claim_id (claim row)) df
  /\ (forall i row, nth_error df i = Some row ->
        nth_error (assess_all df) i = Some (assess_row row))
  /\ (forall i, nth_error (assess_all df) i = None <-> nth_error df i = None).
Proof.
  unfold run_all_rules.
  split; [ apply length_map | ].
  split; [ rewrite map_map; reflexivity | ].
  split.
  - intros i row H. apply map_nth_error. exact H.
  - intro i. rewrite !nth_error_None, length_map. tauto.
Qed.

(** Every score, detected or not, is 0 or at least 15. *)
Lemma score_zero_or_at_least_15 (row : EnrichedClaim) :
  (fraud_score (assess_row row) = 0 \/ 15 <= fraud_score (assess_row row))%nat.
Proof.
  rewrite score_is_capped_weight.
  destruct (triggered row) as [|r rs] eqn:E.
  - left. reflexivity.
  - right.
    assert (15 <= total_weight (r :: rs))%nat
      by (apply total_weight_positive; discriminate).
    lia.
Qed.

(** C10: a detected claim scores at least 15; no score lies strictly between
    0 and 15; every score is the capped sum of the weights of a sub-list of
    the six rules, whose weights are 20, 25, 15, 20, 15 and 30. *)
Theorem detected_score_at_least_15 (row : EnrichedClaim) :
  (fraud_detected (assess_row row) = true ->
   (15 <= fraud_score (assess_row row))%nat)
  /\ ~ (0 < fraud_score (assess_row row) < 15)%nat
  /\ (exists keep : Rule -> bool,
        fraud_score (assess_row row)
        = Nat.min (total_weight (filter keep all_rules)) 100)
  /\ map rule_weight all_rules = [20; 25; 15; 20; 15; 30]%nat.
Proof.
  pose proof (score_zero_or_at_least_15 row) as Hz.
  split.
  - intro Hd. rewrite detected_iff_triggered in Hd.
    rewrite score_is_capped_weight.
    assert (15 <= total_weight (triggered row))%nat.
    { apply total_weight_positive. destruct (triggered row); discriminate. }
    lia.
  - split; [ lia | ].
    split; [ | reflexivity ].
    exists (fun r => rule_trigger r row). apply score_is_capped_weight.
Qed.

End RuleEvaluatorFacts.

(** * Properties of the frame operations *)

Section FrameFacts.

Context {A K V : Type}.
Variable keq : K -> K -> bool.
Variable key : A -> K.
Hypothesis keq_spec : forall a b, keq a b = true <-> a = b.

Lemma keq_refl (k : K) : keq k k = true.
Proof.
  apply keq_spec. reflexivity.
Qed.

Lemma distinct_In (k : K) (ks : list K) :
  In k (distinct keq ks) <-> In k ks.
Proof.
  induction ks as [|a ks IH]; simpl; [tauto|].
  destruct (existsb (keq a) ks) eqn:E.
  - rewrite IH. split; [tauto|].
    intros [->|H]; [|exact H].
    apply existsb_exists in E. destruct E as (x & Hx & Hax).
    apply keq_spec in Hax. subst x. exact Hx.
  - simpl. rewrite IH. tauto.
Qed.

Lemma merge_lookup_map (g : K -> V) (k : K) (ks : list K) :
  In k ks ->
  merge_lookup keq k (map (fun k' => (k', g k')) ks) = Some (g k).
Proof.
  induction ks as [|a ks IH]; simpl; [tauto|].
  intros H. destruct (keq a k) eqn:E.
  - apply keq_spec in E. subst a. reflexivity.
  - destruct H as [->|H]; [|exact (IH H)].
    rewrite keq_refl in E. discriminate E.
Qed.

(** The left merge of an aggregate table back onto the frame it was computed
    from always finds the group of the row. *)
Lemma merge_lookup_agg (f : list A -> V) (df : list A) (r : A) :
  In r df ->
  merge_lookup keq (key r) (agg f (groupby keq key df))
  = Some (f (group_rows keq key (key r) df)).
Proof.
  intro H. unfold agg, groupby. rewrite map_map. cbn [fst snd].
  apply (merge_lookup_map (fun k => f (group_rows keq key k df))).
  apply distinct_In, in_map, H.
Qed.

Lemma group_rows_self (df : list A) (r : A) :
  In r df -> In r (group_rows keq key (key r) df).
Proof.
  intro H. apply filter_In. split; [exact H | apply keq_refl].
Qed.

End FrameFacts.

Lemma filter_length_pos {A : Type} (f : A -> bool) (l : list A) (x : A) :
  In x (filter f l) -> (1 <= List.length (filter f l))%nat.
Proof.
  destruct (filter f l); simpl; [tauto | lia].
Qed.

Lemma filter_permutation {A : Type} (f : A -> bool) (l l' : list A) :
  Permutation l l' -> Permutation (filter f l) (filter f l').
Proof.
  induction 1 as [| x l l' _ IH | x y l | l l' l'' _ IH1 _ IH2]; simpl.
  - constructor.
  - destruct (f x); [constructor|]; exact IH.
  - destruct (f x), (f y); try apply Permutation_refl. constructor.
  - exact (Permutation_trans IH1 IH2).
Qed.

Lemma filter_length_le {A : Type} (f g : A -> bool) (l : list A) :
  (forall x, f x = true -> g x = true) ->
  (List.length (filter f l) <= List.length (filter g l))%nat.
Proof.
  intro H. induction l as [|a l IH]; simpl; [lia|].
  destruct (f a) eqn:E.
  - rewrite (H a E). simpl. lia.
  - destruct (g a); simpl; lia.
Qed.

Section SortingFacts.

Context {A : Type}.
Variable leb : A -> A -> bool.

Lemma insert_sorted_permutation (x : A) (l : list A) :
  Permutation (insert_sorted leb x l) (x :: l).
Proof.
  induction l as [|y l IH]; simpl; [apply Permutation_refl|].
  destruct (leb x y); [apply Permutation_refl|].
  apply (Permutation_trans (perm_skip y IH)). apply perm_swap.
Qed.

(** Sorting only reorders the rows. *)
Lemma sort_by_permutation (l : list A) : Permutation (sort_by leb l) l.
Proof.
  induction l as [|x l IH]; simpl; [constructor|].
  apply (Permutation_trans (insert_sorted_permutation x _)).
  constructor. exact IH.
Qed.

Lemma sort_by_In (x : A) (l : list A) : In x (sort_by leb l) <-> In x l.
Proof.
  split; apply Permutation_in;
    [ | apply Permutation_sym ]; apply sort_by_permutation.
Qed.

End SortingFacts.

Lemma patient_date_eqb_spec (a b : string * Z) :
  patient_date_eqb a b = true <-> a = b.
Proof.
  destruct a as [s1 z1], b as [s2 z2]. unfold patient_date_eqb. simpl.
  rewrite andb_true_iff, String.eqb_eq, Z.eqb_eq.
  split; [ intros [-> ->]; reflexivity | intro H; inversion H; tauto ].
Qed.

(** * Properties of the feature engine *)

Lemma filter_filter_andb {A : Type} (f g : A -> bool) (l : list A) :
  filter f (filter g l) = filter (fun x => g x && f x) l.
Proof.
  induction l as [|a l IH]; simpl; [reflexivity|].
  destruct (g a); simpl; [|exact IH].
  destruct (f a); rewrite IH; reflexivity.
Qed.

Lemma sub_rows_filter_length {A : Type} (f : A -> bool) (s l : list A) :
  sub_rows s l ->
  (forall x, In x s -> f x = true) ->
  (List.length s <= List.length (filter f l))%nat.
Proof.
  induction 1 as [l | x s l _ IH | x s l _ IH]; intro Hall; simpl.
  - lia.
  - rewrite (Hall x (or_introl eq_refl)). simpl.
    apply le_n_S, IH. intros y Hy. apply Hall. right. exact Hy.
  - specialize (IH Hall). destruct (f x); simpl; lia.
Qed.

Section FeatureEngineFacts.

Variable sqrtQ : Q -> Q.

Local Abbreviation sorted := (sort_by patient_date_leb).

(** The frame [transform] returns, when it returns one. *)
Lemma transform_frame_some (df0 : list Claim)
      (enriched : list EnrichedClaim) :
  transform_frame sqrtQ df0 = Some enriched ->
  enriched = enriched_rows sqrtQ df0.
Proof.
  unfold transform_frame.
  destruct (window_counts_assignable (sorted df0)); congruence.
Qed.

(** Every enriched row is the enrichment of one claim of the population. *)
Lemma transform_frame_rows (df0 : list Claim) (r : EnrichedClaim) :
  In r (enriched_rows sqrtQ df0) <->
  exists c, In c df0
            /\ r = enrich (provider_stats df0) (specialty_stats sqrtQ df0)
                          (specialty_stats_f64 df0) (sorted df0) c.
Proof.
  unfold enriched_rows. rewrite in_map_iff. split.
  - intros (c & <- & Hc). exists c. split; [|reflexivity].
    apply (sort_by_In patient_date_leb). exact Hc.
  - intros (c & Hc & ->). exists c. split; [reflexivity|].
    apply (sort_by_In patient_date_leb). exact Hc.
Qed.

(** The windowed count of a row counts over the whole population. *)
Lemma patient_claims_population (days : Z) (df0 : list Claim) (c : Claim) :
  patient_claims days (sorted df0) c = window_population_count days df0 c.
Proof.
  unfold patient_claims, window_count, window_population_count, group_rows.
  rewrite filter_filter_andb.
  apply Permutation_length, filter_permutation, sort_by_permutation.
Qed.

Lemma window_count_self (days : Z) (df0 : list Claim) (c : Claim) :
  (0 <= days)%Z -> In c df0 ->
  (1 <= window_population_count days df0 c)%nat.
Proof.
  intros Hd Hc. unfold window_population_count.
  apply (filter_length_pos _ _ c). apply filter_In. split; [exact Hc|].
  rewrite String.eqb_refl. simpl.
  apply andb_true_iff. split; apply Z.leb_le; lia.
Qed.

Lemma window_count_monotone (d1 d2 : Z) (df0 : list Claim) (c : Claim) :
  (d1 <= d2)%Z ->
  (window_population_count d1 df0 c
   <= window_population_count d2 df0 c)%nat.
Proof.
  intro H. unfold window_population_count. apply filter_length_le.
  intros x Hx.
  apply andb_true_iff in Hx. destruct Hx as [Hp Hw].
  apply andb_true_iff in Hw. destruct Hw as [Hlo Hhi].
  rewrite Hp, Hhi. simpl. rewrite andb_true_r.
  apply Z.leb_le. apply Z.leb_le in Hlo. lia.
Qed.

Lemma same_day_count_value (df0 : list Claim) (c : Claim) :
  In c df0 ->
  merge_lookup patient_date_eqb (patient_id c, claim_date c)
               (same_day_counts (sorted df0))
  = Some (same_key_count patient_date_eqb
                         (fun r => (patient_id r, claim_date r)) df0 c).
Proof.
  intro Hc. unfold same_day_counts.
  rewrite (merge_lookup_agg patient_date_eqb
             (fun r => (patient_id r, claim_date r))
             patient_date_eqb_spec _ (sorted df0) c).
  - f_equal. unfold same_key_count, group_rows.
    apply Permutation_length, filter_permutation, sort_by_permutation.
  - apply (sort_by_In patient_date_leb). exact Hc.
Qed.

Lemma duplicate_count_value (df0 : list Claim) (c : Claim) :
  In c df0 ->
  merge_lookup String.eqb (claim_id c) (duplicate_counts (sorted df0))
  = Some (same_key_count String.eqb claim_id df0 c).
Proof.
  intro Hc. unfold duplicate_counts.
  rewrite (merge_lookup_agg String.eqb claim_id String.eqb_eq _
                            (sorted df0) c).
  - f_equal. unfold same_key_count, group_rows.
    apply Permutation_length, filter_permutation, sort_by_permutation.
  - apply (sort_by_In patient_date_leb). exact Hc.
Qed.

Lemma same_key_count_self {K : Type} (keq : K -> K -> bool)
      (key : Claim -> K) (df0 : list Claim) (c : Claim) :
  (forall a b, keq a b = true <-> a = b) ->
  In c df0 -> (1 <= same_key_count keq key df0 c)%nat.
Proof.
  intros Hk Hc. unfold same_key_count.
  apply (filter_length_pos _ _ c). apply filter_In.
  split; [exact Hc | apply Hk; reflexivity].
Qed.

(** C9: in the enriched set every row has
    1 <= patient_claims_7d <= patient_claims_30d, and its same-day count and
    its duplicate count are present and at least 1. *)
Theorem window_counts_ordered (df0 : list Claim)
        (enriched : list EnrichedClaim) (r : EnrichedClaim) :
  transform_frame sqrtQ df0 = Some enriched ->
  In r enriched ->
  (1 <= patient_claims_7d r <= patient_claims_30d r)%nat
  /\ (exists n, same_day_claim_count r = Some n /\ (1 <= n)%nat)
  /\ (exists n, duplicate_count r = Some n /\ (1 <= n)%nat).
Proof.
  intros Henriched Hr.
  apply transform_frame_some in Henriched. subst enriched.
  apply transform_frame_rows in Hr.
  destruct Hr as (c & Hc & ->). cbn -[patient_claims same_day_counts
                                        duplicate_counts].
  rewrite !patient_claims_population.
  split; [split|split].
  - apply window_count_self; [lia | exact Hc].
  - apply window_count_monotone. lia.
  - rewrite (same_day_count_value df0 c Hc). eexists. split; [reflexivity|].
    apply same_key_count_self; [apply patient_date_eqb_spec | exact Hc].
  - rewrite (duplicate_count_value df0 c Hc). eexists. split; [reflexivity|].
    apply same_key_count_self; [apply String.eqb_eq | exact Hc].
Qed.

End FeatureEngineFacts.

Lemma week_transformed :
  transform_frame Qsqrt_down week_population = Some week_rows.
Proof. reflexivity. Qed.

Lemma last_of_week_enriched : In last_of_week week_rows.
Proof.
  vm_compute. right. right. right. right. left. reflexivity.
Qed.

Lemma window_counts_ordered_witness :
  (1 <= patient_claims_7d last_of_week
   <= patient_claims_30d last_of_week)%nat
  /\ (exists n, same_day_claim_count last_of_week = Some n /\ (1 <= n)%nat)
  /\ (exists n, duplicate_count last_of_week = Some n /\ (1 <= n)%nat).
Proof.
  apply (window_counts_ordered Qsqrt_down week_population week_rows
                               last_of_week).
  - exact week_transformed.
  - exact last_of_week_enriched.
Defined.

(** * The velocity rule on a dense week *)

Lemma week_is_sub_rows : sub_rows (firstn 5 week_population) week_population.
Proof.
  unfold week_population. cbn [firstn].
  do 5 apply sub_rows_take. apply sub_rows_nil.
Qed.

Lemma week_one_patient_one_span (a b : Claim) :
  In a (firstn 5 week_population) -> In b (firstn 5 week_population) ->
  patient_id a = patient_id b /\ (claim_date b - claim_date a <= 7)%Z.
Proof.
  unfold week_population. cbn [firstn In].
  intros Ha Hb.
  repeat (destruct Ha as [<-|Ha]; [|]); try contradiction;
    repeat (destruct Hb as [<-|Hb]; [|]); try contradiction;
    (split; [reflexivity | vm_compute; discriminate]).
Qed.

(** C3, as stated, fails: the five claims of P0001 lie on five consecutive
    days, and the row of the first of them has a 7-day count of 1. *)
Lemma velocity_misses_earlier_claims :
  patient_claims_7d first_of_week = 1%nat
  /\ fst (rule_velocity_fraud first_of_week) = false
  /\ ~ every_claim_of_five_triggers Qsqrt_down week_population
                                    (firstn 5 week_population).
Proof.
  split; [reflexivity|]. split; [reflexivity|].
  intro H.
  destruct (H week_is_sub_rows eq_refl week_one_patient_one_span
              week_rows week_transformed first_of_week) as [Hcount _].
  - vm_compute. left. reflexivity.
  - vm_compute. left. reflexivity.
  - vm_compute in Hcount. lia.
Qed.

Lemma sub_rows_filter {A : Type} (f : A -> bool) (s l : list A) :
  sub_rows s l -> sub_rows (filter f s) l.
Proof.
  induction 1 as [l | x s l _ IH | x s l _ IH]; simpl.
  - apply sub_rows_nil.
  - destruct (f x); [apply sub_rows_take | apply sub_rows_skip]; exact IH.
  - apply sub_rows_skip. exact IH.
Qed.

Section VelocityFacts.

Variable sqrtQ : Q -> Q.
Variable fmt_money : fval -> string.
Variable fmt_fixed1 : fval -> string.

Local Abbreviation flags_of r :=
  (fraud_flags (run_rules fmt_money fmt_fixed1 r)).

(** A 7-day count of at least 5 triggers the velocity rule. *)
Lemma five_in_window_trigger (r : EnrichedClaim) :
  (5 <= patient_claims_7d r)%nat ->
  fst (rule_velocity_fraud r) = true /\ In "VELOCITY_FRAUD" (flags_of r).
Proof.
  intro Hfive.
  assert (fst (rule_velocity_fraud r) = true) as Hrule.
  { unfold rule_velocity_fraud.
    apply Nat.leb_le in Hfive. rewrite Hfive. reflexivity. }
  split; [exact Hrule|].
  apply (label_in_flags_iff fmt_money fmt_fixed1 _ VELOCITY_FRAUD).
  destruct (rule_functions_follow_table fmt_money fmt_fixed1 r)
    as (_ & _ & _ & Hv & _).
  rewrite <- Hv. exact Hrule.
Qed.

(** C3, amended: the 7-day count of every row is the number of claims of the
    population by the same patient dated in the closed window
    [claim_date - 7, claim_date], so it counts no claim dated after the row
    and triggers VELOCITY_FRAUD as soon as it reaches 5.  Among five claims
    of one patient within a 7-day span, every claim counts at least those of
    the five dated on or before it; every claim dated on the latest of their
    dates therefore has a count of at least 5 and triggers VELOCITY_FRAUD. *)
Theorem velocity_on_latest_of_five
        (population : list Claim) (enriched : list EnrichedClaim) :
  transform_frame sqrtQ population = Some enriched ->
  (forall r, In r enriched ->
     patient_claims_7d r = window_population_count 7 population (claim r)
     /\ (patient_claims_7d r
         <= dated_on_or_before population (claim r))%nat
     /\ ((5 <= patient_claims_7d r)%nat ->
         In "VELOCITY_FRAUD" (flags_of r)))
  /\ (forall five r,
        sub_rows five population ->
        List.length five = 5%nat ->
        (forall a b, In a five -> In b five ->
                     patient_id a = patient_id b
                     /\ (claim_date b - claim_date a <= 7)%Z) ->
        In r enriched ->
        In (claim r) five ->
        (dated_on_or_before five (claim r) <= patient_claims_7d r)%nat
        /\ ((forall c, In c five ->
                       (claim_date c <= claim_date (claim r))%Z) ->
            (5 <= patient_claims_7d r)%nat
            /\ fst (rule_velocity_fraud r) = true
            /\ In "VELOCITY_FRAUD" (flags_of r))).
Proof.
  intro Henriched.
  apply transform_frame_some in Henriched. subst enriched.
  assert (forall r, In r (enriched_rows sqrtQ population) ->
            patient_claims_7d r
            = window_population_count 7 population (claim r)) as Hcount.
  { intros r Hr. apply transform_frame_rows in Hr.
    destruct Hr as (c & _ & ->). apply patient_claims_population. }
  split.
  - intros r Hr. split; [exact (Hcount r Hr)|]. split.
    + rewrite (Hcount r Hr).
      unfold window_population_count, dated_on_or_before.
      apply filter_length_le. intros x Hx.
      apply andb_true_iff in Hx. destruct Hx as [Hp Hw].
      apply andb_true_iff in Hw. destruct Hw as [_ Hhi].
      rewrite Hp, Hhi. reflexivity.
    + intro Hfive. exact (proj2 (five_in_window_trigger r Hfive)).
  - intros five r Hsub Hlen Hspan Hr Hin.
    assert (dated_on_or_before five (claim r) <= patient_claims_7d r)%nat
      as Hlower.
    { rewrite (Hcount r Hr).
      unfold dated_on_or_before, window_population_count.
      apply sub_rows_filter_length; [apply sub_rows_filter, Hsub|].
      intros x Hx. apply filter_In in Hx. destruct Hx as [Hx Hbefore].
      apply andb_true_iff in Hbefore. destruct Hbefore as [Hp Hd].
      rewrite Hp, Hd, andb_true_r. cbn [andb].
      destruct (Hspan x (claim r) Hx Hin) as [_ Hwithin].
      apply Z.leb_le. lia. }
    split; [exact Hlower|].
    intro Hlatest.
    assert (5 <= patient_claims_7d r)%nat as Hfive.
    { rewrite <- Hlen. etransitivity; [|exact Hlower].
      unfold dated_on_or_before.
      rewrite forallb_filter_id; [lia|].
      apply forallb_forall. intros x Hx.
      destruct (Hspan x (claim r) Hx Hin) as [Hp _].
      rewrite Hp, String.eqb_refl. cbn [andb].
      apply Z.leb_le, Hlatest, Hx. }
    split; [exact Hfive|]. exact (five_in_window_trigger r Hfive).
Qed.

End VelocityFacts.

Lemma last_of_week_is_latest (c : Claim) :
  In c (firstn 5 week_population) ->
  (claim_date c <= claim_date (claim last_of_week))%Z.
Proof.
  unfold week_population. cbn [firstn In].
  intro H.
  repeat (destruct H as [<-|H]; [vm_compute; discriminate|]).
  contradiction.
Qed.

Lemma velocity_on_latest_of_five_witness :
  patient_claims_7d last_of_week
  = window_population_count 7 week_population (claim last_of_week)
  /\ (5 <= patient_claims_7d last_of_week)%nat
  /\ fst (rule_velocity_fraud last_of_week) = true
  /\ In "VELOCITY_FRAUD"
        (fraud_flags (run_rules plain_format plain_format last_of_week)).
Proof.
  destruct (velocity_on_latest_of_five Qsqrt_down plain_format plain_format
              week_population week_rows week_transformed)
    as [Hall Hfive].
  destruct (Hall last_of_week last_of_week_enriched) as [Hcount _].
  destruct (Hfive (firstn 5 week_population) last_of_week
                  week_is_sub_rows eq_refl week_one_patient_one_span
                  last_of_week_enriched) as [_ Hlatest].
  - vm_compute. right. right. right. right. left. reflexivity.
  - destruct (Hlatest last_of_week_is_latest) as (H5 & Hrule & Hflag).
    split; [exact Hcount|]. split; [exact H5|]. split; assumption.
Defined.

(** * The code-mismatch flag *)

Lemma split_on_nonempty (sep : ascii) (s : string) : split_on sep s <> [].
Proof.
  destruct s as [|c t]; simpl; [discriminate|].
  destruct (Ascii.eqb c sep); [discriminate|].
  destruct (split_on sep t); discriminate.
Qed.

Lemma hd_split_on (sep : ascii) (s : string) :
  hd EmptyString (split_on sep s)
  = take_until (fun c => Ascii.eqb c sep) s.
Proof.
  induction s as [|c t IH]; simpl; [reflexivity|].
  destruct (Ascii.eqb c sep); [reflexivity|].
  rewrite <- IH.
  pose proof (split_on_nonempty sep t) as Hne.
  destruct (split_on sep t); [contradiction|reflexivity].
Qed.

(** A string without the separator is its own single token. *)
Lemma split_on_absent (sep : ascii) (s : string) :
  has_char sep s = false -> split_on sep s = [s].
Proof.
  induction s as [|c t IH]; simpl; [reflexivity|].
  intro H. apply orb_false_iff in H. destruct H as [Hc Ht].
  rewrite Hc, (IH Ht). reflexivity.
Qed.

Lemma merge_lookup_key {V : Type} (k : string) (v : V)
      (table : list (string * V)) :
  merge_lookup String.eqb k table = Some v -> In k (map fst table).
Proof.
  induction table as [|[k' v'] t IH]; simpl; [discriminate|].
  destruct (String.eqb k' k) eqn:E.
  - intros _. left. apply String.eqb_eq. exact E.
  - intro H. right. exact (IH H).
Qed.

Lemma known_families_have_underscore (k : string) :
  In k (map fst valid_combos) -> has_char "_" k = true.
Proof.
  assert (forallb (has_char "_") (map fst valid_combos) = true) as H
      by reflexivity.
  rewrite forallb_forall in H. apply H.
Qed.

(** C5: the code departs from the claim on a procedure code whose first
    digit is not a zero.  It takes the text before the first character 0 as
    the procedure prefix, which is more than the letters: CARD100 gives
    CARD1 and CARD123 gives the whole code, a cardiac procedure on the
    cardiac diagnosis D_HEART_01 is flagged, and the flag differs from the
    one computed with the prefix before the first digit. *)
Theorem prefix_before_first_digit_differs :
  diag_prefix "D_HEART_01" = "D_HEART"
  /\ before_first_digit "CARD123" = "CARD"
  /\ proc_prefix "CARD123" = "CARD123"
  /\ proc_prefix "CARD100" = "CARD1"
  /\ code_mismatch_by_digit "D_HEART_01" "CARD123" = false
  /\ code_mismatch_of "D_HEART_01" "CARD123" = true
  /\ code_mismatch_of "D_HEART_01" "CARD100" = true
  /\ ~ (forall diagnosis procedure,
          code_mismatch_of diagnosis procedure
          = code_mismatch_by_digit diagnosis procedure).
Proof.
  repeat (split; [reflexivity|]).
  intro H. specialize (H "D_HEART_01" "CARD123"). discriminate H.
Qed.

Lemma zero_is_digit (c : ascii) : Ascii.eqb c "0" = true -> is_digit c = true.
Proof.
  intro H. apply Ascii.eqb_eq in H. subst c. reflexivity.
Qed.

(** Where no digit comes before the first 0 of a code, the text before the
    first 0 is the text before the first digit. *)
Lemma before_first_zero_digit (procedure : string) :
  digit_free (before_first_zero procedure) = true ->
  before_first_digit procedure = before_first_zero procedure.
Proof.
  unfold before_first_digit, before_first_zero.
  induction procedure as [|c t IH]; [reflexivity|].
  cbn [take_until].
  destruct (Ascii.eqb c "0") eqn:E.
  - rewrite (zero_is_digit c E). reflexivity.
  - cbn [digit_free]. intro H. apply andb_true_iff in H.
    destruct H as [Hc Ht]. apply negb_true_iff in Hc.
    rewrite Hc, (IH Ht). reflexivity.
Qed.

(** The flag as [_detect_code_mismatches] computes it: the diagnosis prefix
    is the first two underscore-delimited tokens of the diagnosis code, the
    procedure prefix is the portion of the procedure code before its first
    character 0, and the flag is true exactly when the diagnosis prefix is a
    family of the fixed mapping and the procedure prefix is not in the
    accepted set of that family; for a prefix outside the table, and for a
    diagnosis code without an underscore, the flag is false.  On a procedure
    code with no digit before its first 0 the flag is the one computed with
    the prefix before the first digit.  Every enriched row carries this
    flag. *)
Theorem code_mismatch_flag (diagnosis procedure : string) :
  diag_prefix diagnosis
  = String.concat "_" (firstn 2 (split_on "_" diagnosis))
  /\ proc_prefix procedure = before_first_zero procedure
  /\ (digit_free (before_first_zero procedure) = true ->
      code_mismatch_of diagnosis procedure
      = code_mismatch_by_digit diagnosis procedure)
  /\ (code_mismatch_of diagnosis procedure = true <->
      exists accepted,
        merge_lookup String.eqb (diag_prefix diagnosis) valid_combos
        = Some accepted
        /\ str_in (before_first_zero procedure) accepted = false)
  /\ (merge_lookup String.eqb (diag_prefix diagnosis) valid_combos = None ->
      code_mismatch_of diagnosis procedure = false)
  /\ (has_char "_" diagnosis = false ->
      code_mismatch_of diagnosis procedure = false)
  /\ (forall sqrtQ population enriched r,
        transform_frame sqrtQ population = Some enriched ->
        In r enriched ->
        is_code_mismatch r
        = code_mismatch_of (diagnosis_code (claim r))
                           (procedure_code (claim r))).
Proof.
  assert (proc_prefix procedure = before_first_zero procedure) as Hproc
      by apply hd_split_on.
  split; [reflexivity|]. split; [exact Hproc|].
  split.
  { intro Hfree. unfold code_mismatch_of, code_mismatch_by_digit.
    rewrite Hproc, (before_first_zero_digit procedure Hfree). reflexivity. }
  unfold code_mismatch_of. rewrite Hproc.
  split; [|split; [|split]].
  - destruct (merge_lookup String.eqb (diag_prefix diagnosis) valid_combos)
      as [accepted|].
    + rewrite negb_true_iff. split.
      * intro H. exists accepted. split; [reflexivity | exact H].
      * intros (a & Ha & Hin). inversion Ha. subst a. exact Hin.
    + split; [discriminate|]. intros (a & Ha & _). discriminate Ha.
  - intros ->. reflexivity.
  - intro Hno.
    destruct (merge_lookup String.eqb (diag_prefix diagnosis) valid_combos)
      as [accepted|] eqn:E; [|reflexivity].
    apply merge_lookup_key, known_families_have_underscore in E.
    unfold diag_prefix in E. rewrite (split_on_absent _ _ Hno) in E.
    simpl in E. congruence.
  - intros sqrtQ population enriched r Henriched Hr.
    apply transform_frame_some in Henriched. subst enriched.
    apply transform_frame_rows in Hr. destruct Hr as (c & _ & ->).
    reflexivity.
Qed.

(** * The z-score of the amount within the specialty *)

Local Open Scope Q_scope.

Lemma Qof_nat_pos (n : nat) : (0 < n)%nat -> 0 < Qof_nat n.
Proof.
  intro H. unfold Qof_nat, Qlt. simpl. lia.
Qed.

Lemma mean_of_nonempty (xs : list Q) :
  xs <> [] -> mean xs = Fin (Qsum xs / Qof_nat (List.length xs)).
Proof.
  destruct xs; [congruence | reflexivity].
Qed.

Local Close Scope Q_scope.

Section SpecialtyFacts.

Variable sqrtQ : Q -> Q.



End SpecialtyFacts.

Lemma spread_transformed :
  transform_frame Qsqrt_down spread_population
  = Some (enriched_rows Qsqrt_down spread_population).
Proof. reflexivity. Qed.

Lemma spread_row_enriched :
  In spread_row (enriched_rows Qsqrt_down spread_population).
Proof.
  vm_compute. right. right. left. reflexivity.
Qed.

(** Amounts 1000, 2000 and 3000: the last lies one deviation above the
    mean. *)
Lemma spread_row_zscore :
  exists z, amount_zscore spread_row = Fin z /\ (z == 1)%Q.
Proof.
  eexists. split; [vm_compute; reflexivity | reflexivity].
Qed.

(** C4: the code departs from the claim on a specialty whose amounts are
    all equal.  For three cardiology claims of 0.1 the float cell of each
    amount is 7205759403792794 * 2^-56, the mean pandas stores is one unit
    in the last place above it and the deviation it stores is 0: the
    z-score is (amount - mean) / 0 = -infinity, which [fillna(0)] leaves in
    place, and AMOUNT_ANOMALY triggers on every one of the three claims. *)
Theorem constant_specialty_zscore_infinite :
  FloatOps.Prim2SF (float_of_amount (1 # 10))
  = SpecFloat.S754_finite false 7205759403792794 (-56)
  /\ map (fun stats =>
            (fst stats, FloatOps.Prim2SF (fst (snd stats)),
             FloatOps.Prim2SF (snd (snd stats))))
         (specialty_stats_f64 constant_population)
     = [("Cardiology",
         SpecFloat.S754_finite false 7205759403792795 (-56),
         SpecFloat.S754_zero false)]
  /\ exists enriched,
       transform_frame Qsqrt_down constant_population = Some enriched
       /\ List.length enriched = 3%nat
       /\ forall r, In r enriched ->
            amount_zscore r = Inf true
            /\ is_finite (amount_zscore r) = false
            /\ is_high_amount r = false
            /\ fst (rule_amount_anomaly plain_format plain_format r) = true
            /\ rules_triggered (assess plain_format plain_format r)
               = "AMOUNT_ANOMALY"
            /\ fraud_score (assess plain_format plain_format r) = 25%nat.
Proof.
  split; [vm_compute; reflexivity|]. split; [vm_compute; reflexivity|].
  exists (enriched_rows Qsqrt_down constant_population).
  split; [reflexivity|]. split; [reflexivity|].
  intros r Hr.
  assert (forallb
            (fun r =>
               match amount_zscore r with
               | Inf true => true
               | _ => false
               end
               && negb (is_high_amount r)
               && fst (rule_amount_anomaly plain_format plain_format r)
               && String.eqb
                    (rules_triggered (assess plain_format plain_format r))
                    "AMOUNT_ANOMALY"
               && (fraud_score (assess plain_format plain_format r)
                   =? 25)%nat)
            (enriched_rows Qsqrt_down constant_population) = true) as Hall
      by (vm_compute; reflexivity).
  rewrite forallb_forall in Hall. specialize (Hall r Hr).
  repeat (apply andb_true_iff in Hall; destruct Hall as [Hall ?]).
  destruct (amount_zscore r) as [q|[|]|] eqn:Ez; try discriminate Hall.
  split; [reflexivity|]. split; [reflexivity|].
  split; [apply negb_true_iff; assumption|].
  split; [assumption|].
  split; [apply String.eqb_eq; assumption | apply Nat.eqb_eq; assumption].
Qed.

(** A float whose pattern is NaN is recognised by [is_nan]. *)
Lemma nan_is_nan (x : float) :
  FloatOps.Prim2SF x = SpecFloat.S754_nan -> PrimFloat.is_nan x = true.
Proof.
  intro P. unfold PrimFloat.is_nan.
  rewrite FloatAxioms.eqb_spec, P. reflexivity.
Qed.

Lemma div_by_nan (x : float) :
  PrimFloat.is_nan (PrimFloat.div x PrimFloat.nan) = true.
Proof.
  apply nan_is_nan. rewrite FloatAxioms.div_spec.
  change (FloatOps.Prim2SF PrimFloat.nan) with SpecFloat.S754_nan.
  unfold FloatAxioms.SF64div, SpecFloat.SFdiv.
  destruct (FloatOps.Prim2SF x); reflexivity.
Qed.

Lemma fillna0_not_nan (x : float) : fval_of_float (float_fillna0 x) <> NaN.
Proof.
  unfold float_fillna0. destruct (PrimFloat.is_nan x) eqn:E.
  - vm_compute. discriminate.
  - unfold fval_of_float.
    destruct (FloatOps.Prim2SF x) eqn:P; try discriminate.
    rewrite (nan_is_nan x P) in E. discriminate E.
Qed.

Section ZScoreFacts.

Variable sqrtQ : Q -> Q.

Lemma specialty_lookup_f64 (population : list Claim) (c : Claim) :
  In c population ->
  merge_lookup String.eqb (provider_specialty c)
               (specialty_stats_f64 population)
  = Some (float_mean (map float_of_amount (specialty_amounts population c)),
          float_std (map float_of_amount (specialty_amounts population c))).
Proof.
  intro Hc. unfold specialty_stats_f64.
  rewrite (merge_lookup_agg String.eqb provider_specialty String.eqb_eq
                            _ population c Hc).
  reflexivity.
Qed.

(** The z-score of every row is computed from the float cells of its own
    amount and of the mean and deviation of the amounts of its specialty;
    the stored value is never NaN, and it is exactly 0 for a claim whose
    specialty has fewer than two claims (the deviation is then undefined). *)
Theorem zscore_never_nan (population : list Claim)
        (enriched : list EnrichedClaim) (r : EnrichedClaim) :
  transform_frame sqrtQ population = Some enriched ->
  In r enriched ->
  let cells :=
    map float_of_amount (specialty_amounts population (claim r)) in
  amount_zscore r
  = zscore (float_of_amount (claim_amount (claim r)))
           (float_mean cells) (float_std cells)
  /\ amount_zscore r <> NaN
  /\ ((List.length (specialty_amounts population (claim r)) < 2)%nat ->
      amount_zscore r = Fin 0).
Proof.
  intros Henriched Hr.
  apply transform_frame_some in Henriched. subst enriched.
  apply transform_frame_rows in Hr. destruct Hr as (c & Hc & ->).
  cbv zeta. cbn [enrich claim amount_zscore].
  rewrite (specialty_lookup_f64 population c Hc).
  cbn [option_map fst snd cell_f64].
  split; [reflexivity|]. split; [apply fillna0_not_nan|].
  intro Hfew. unfold zscore, float_std.
  rewrite length_map.
  assert ((List.length (specialty_amounts population c) <=? 1)%nat = true)
    as -> by (apply Nat.leb_le; lia).
  unfold float_fillna0. rewrite div_by_nan. reflexivity.
Qed.

End ZScoreFacts.

Lemma zscore_never_nan_witness :
  amount_zscore surgery_row <> NaN /\ amount_zscore surgery_row = Fin 0.
Proof.
  destruct (zscore_never_nan Qsqrt_down surgery_day_population
              surgery_day_rows surgery_row) as (_ & Hnan & Hfew).
  - reflexivity.
  - vm_compute. left. reflexivity.
  - split; [exact Hnan|]. apply Hfew. vm_compute. lia.
Defined.

(** * The empty population *)



(** * Further properties of the feature engine *)

Lemma Qltb_lt (x y : Q) : Qltb x y = true <-> (x < y)%Q.
Proof.
  unfold Qltb. rewrite negb_true_iff. split.
  - intro H. apply Qnot_le_lt. intro Hle.
    apply Qle_bool_iff in Hle. congruence.
  - intro H. destruct (Qle_bool y x) eqn:E; [|reflexivity].
    apply Qle_bool_iff in E. exfalso. exact (Qlt_not_le _ _ H E).
Qed.

Lemma count_gtb_spec (c : option nat) (k : nat) :
  count_gtb c k = true <-> exists n, c = Some n /\ (k < n)%nat.
Proof.
  destruct c as [n|]; simpl.
  - rewrite Nat.ltb_lt. split.
    + intro H. exists n. split; [reflexivity | exact H].
    + intros (m & Hm & H). inversion Hm. subst m. exact H.
  - split; [discriminate|]. intros (m & Hm & _). discriminate Hm.
Qed.

Lemma str_in_spec (x : string) (xs : list string) :
  str_in x xs = true <-> In x xs.
Proof.
  unfold str_in. rewrite existsb_exists. split.
  - intros (y & Hy & E). apply String.eqb_eq in E. subst y. exact Hy.
  - intro H. exists x. split; [exact H | apply String.eqb_refl].
Qed.

Section SortedFacts.

Context {A : Type}.
Variable leb : A -> A -> bool.
Hypothesis leb_total : forall a b, leb a b = false -> leb b a = true.

Lemma insert_sorted_head (x y : A) (l : list A) :
  HdRel (fun a b => leb a b = true) y l -> leb y x = true ->
  HdRel (fun a b => leb a b = true) y (insert_sorted leb x l).
Proof.
  intros Hl Hyx. destruct l as [|z l]; simpl.
  - constructor. exact Hyx.
  - destruct (leb x z); constructor; [exact Hyx|].
    inversion Hl. assumption.
Qed.

Lemma insert_sorted_keeps_sorted (x : A) (l : list A) :
  Sorted (fun a b => leb a b = true) l ->
  Sorted (fun a b => leb a b = true) (insert_sorted leb x l).
Proof.
  induction 1 as [|y l Hs IH Hhd]; simpl.
  - repeat constructor.
  - destruct (leb x y) eqn:E.
    + constructor; [constructor; assumption | constructor; exact E].
    + constructor; [exact IH|].
      apply insert_sorted_head; [exact Hhd | apply leb_total, E].
Qed.

Lemma sort_by_sorted (l : list A) :
  Sorted (fun a b => leb a b = true) (sort_by leb l).
Proof.
  induction l as [|x l IH]; simpl; [constructor|].
  apply insert_sorted_keeps_sorted, IH.
Qed.

End SortedFacts.

Lemma Sorted_map {A B : Type} (R : A -> A -> Prop) (S : B -> B -> Prop)
      (f : A -> B) (l : list A) :
  (forall a b, R a b -> S (f a) (f b)) ->
  Sorted R l -> Sorted S (map f l).
Proof.
  intros HRS. induction 1 as [|a l Hs IH Hhd]; simpl; constructor.
  - exact IH.
  - destruct Hhd; simpl; constructor. apply HRS. assumption.
Qed.

Lemma patient_date_leb_total (a b : Claim) :
  patient_date_leb a b = false -> patient_date_leb b a = true.
Proof.
  unfold patient_date_leb, String.ltb.
  rewrite (String.compare_antisym (patient_id b) (patient_id a)).
  destruct (String.compare (patient_id a) (patient_id b)) eqn:E; simpl.
  - apply String.compare_eq_iff in E. rewrite E, !String.eqb_refl. simpl.
    intro H. apply Z.leb_gt in H. apply Z.leb_le. lia.
  - discriminate.
  - intros _. reflexivity.
Qed.

Lemma patient_date_leb_le (a b : Claim) :
  patient_date_leb a b = true -> patient_date_le a b.
Proof.
  unfold patient_date_leb, patient_date_le, String.ltb.
  destruct (String.compare (patient_id a) (patient_id b)); simpl.
  - intro H. apply andb_true_iff in H. destruct H as [He Hd].
    right. split; [apply String.eqb_eq, He | apply Z.leb_le, Hd].
  - intros _. left. reflexivity.
  - intro H. apply andb_true_iff in H. destruct H as [He Hd].
    right. split; [apply String.eqb_eq, He | apply Z.leb_le, Hd].
Qed.

Section FeatureEngineMore.

Variable sqrtQ : Q -> Q.
Variable fmt_money : fval -> string.
Variable fmt_fixed1 : fval -> string.


(** The enriched frame is ordered by patient id and, within a patient, by
    claim date. *)
Theorem transform_sorted_by_patient_and_date (population : list Claim)
        (enriched : list EnrichedClaim) :
  transform_frame sqrtQ population = Some enriched ->
  Sorted (fun r1 r2 => patient_date_le (claim r1) (claim r2)) enriched.
Proof.
  intro Henriched.
  apply transform_frame_some in Henriched. subst enriched.
  unfold enriched_rows.
  apply (Sorted_map (fun a b => patient_date_leb a b = true)).
  - intros a b H. cbn [enrich claim]. apply patient_date_leb_le, H.
  - apply sort_by_sorted. exact patient_date_leb_total.
Qed.

End FeatureEngineMore.

Lemma transform_sorted_by_patient_and_date_witness :
  Sorted (fun r1 r2 => patient_date_le (claim r1) (claim r2)) week_rows.
Proof.
  apply (transform_sorted_by_patient_and_date Qsqrt_down week_population).
  exact week_transformed.
Defined.

Lemma total_weight_filter_le (f g : Rule -> bool) (rs : list Rule) :
  (forall r, f r = true -> g r = true) ->
  (total_weight (filter f rs) <= total_weight (filter g rs))%nat.
Proof.
  intro H. induction rs as [|r rs IH]; simpl; [lia|].
  destruct (f r) eqn:E.
  - rewrite (H r E). simpl. lia.
  - destruct (g r); simpl; lia.
Qed.

Lemma total_weight_member (r : Rule) (rs : list Rule) :
  In r rs -> (rule_weight r <= total_weight rs)%nat.
Proof.
  induction rs as [|a rs IH]; simpl; [tauto|].
  intros [->|H]; [lia|]. specialize (IH H). lia.
Qed.

Section FeatureRuleFacts.

Variable sqrtQ : Q -> Q.
Variable fmt_money : fval -> string.
Variable fmt_fixed1 : fval -> string.

Local Abbreviation flags_of := (fun row =>
  fraud_flags (run_rules fmt_money fmt_fixed1 row)).
Local Abbreviation score_of := (fun row =>
  fraud_score (assess fmt_money fmt_fixed1 row)).

(** A triggered rule contributes its weight: the score is at least the
    weight of every rule that triggered. *)
Lemma triggered_weight_le_score (row : EnrichedClaim) (r : Rule) :
  rule_trigger r row = true -> (rule_weight r <= score_of row)%nat.
Proof.
  intro H. cbv beta. rewrite score_is_capped_weight.
  assert (rule_weight r <= total_weight (triggered row))%nat.
  { apply total_weight_member. apply filter_In.
    split; [apply every_rule_listed | exact H]. }
  pose proof (rule_weight_bounds r). lia.
Qed.



(** The duplicate count of a row is the number of claims of the population
    carrying its claim id; the row is a duplicate, and the DUPLICATE rule
    fires on it, exactly when the id occurs at least twice. *)
Theorem duplicate_rule_counts_ids (population : list Claim)
        (enriched : list EnrichedClaim) (r : EnrichedClaim) :
  transform_frame sqrtQ population = Some enriched ->
  In r enriched ->
  let n := same_key_count String.eqb claim_id population (claim r) in
  duplicate_count r = Some n
  /\ (is_duplicate r = true <-> (2 <= n)%nat)
  /\ (In "DUPLICATE" (flags_of r) <-> (2 <= n)%nat).
Proof.
  intros Henriched Hr.
  apply transform_frame_some in Henriched. subst enriched.
  apply transform_frame_rows in Hr. destruct Hr as (c & Hc & ->).
  cbv zeta beta.
  rewrite (label_in_flags_iff fmt_money fmt_fixed1 _ DUPLICATE).
  cbn [rule_trigger]. unfold enrich. cbn [claim duplicate_count is_duplicate].
  rewrite (duplicate_count_value population c Hc).
  set (n := same_key_count String.eqb claim_id population c).
  split; [reflexivity|].
  simpl count_gtb. rewrite Nat.ltb_lt. split; lia.
Qed.

Lemma same_day_within_week (population : list Claim) (c : Claim) :
  (same_key_count patient_date_eqb (fun r => (patient_id r, claim_date r))
                  population c
   <= window_population_count 7 population c)%nat.
Proof.
  unfold same_key_count, window_population_count. apply filter_length_le.
  intros x Hx. apply patient_date_eqb_spec in Hx. inversion Hx as [[Hp Hd]].
  rewrite Hp, Hd, String.eqb_refl. simpl.
  apply andb_true_iff. split; apply Z.leb_le; lia.
Qed.

(** The same-day count of a row is the number of claims of its patient on
    its date, whatever their procedure, and never exceeds the 7-day count.
    The same-day-surgery flag holds exactly when the row's own procedure is a
    surgery code and that count is at least 2; IMPOSSIBLE_SCENARIO fires
    exactly on a surgery with a same-day count of at least 2 or a 7-day count
    of at least 3. *)
Theorem same_day_surgery_flag (population : list Claim)
        (enriched : list EnrichedClaim) (r : EnrichedClaim) :
  transform_frame sqrtQ population = Some enriched ->
  In r enriched ->
  let n := same_key_count patient_date_eqb
                          (fun c => (patient_id c, claim_date c))
                          population (claim r) in
  same_day_claim_count r = Some n
  /\ (n <= patient_claims_7d r)%nat
  /\ (is_surgery r = true <-> In (procedure_code (claim r)) surgery_codes)
  /\ (same_day_surgeries r = true <->
      In (procedure_code (claim r)) surgery_codes /\ (2 <= n)%nat)
  /\ (In "IMPOSSIBLE_SCENARIO" (flags_of r) <->
      In (procedure_code (claim r)) surgery_codes
      /\ (2 <= n \/ 3 <= patient_claims_7d r)%nat).
Proof.
  intros Henriched Hr.
  apply transform_frame_some in Henriched. subst enriched.
  apply transform_frame_rows in Hr. destruct Hr as (c & Hc & ->).
  cbv zeta beta.
  rewrite (label_in_flags_iff fmt_money fmt_fixed1 _ IMPOSSIBLE_SCENARIO).
  cbn [rule_trigger]. unfold enrich.
  cbn [claim same_day_claim_count patient_claims_7d is_surgery
       same_day_surgeries].
  rewrite (same_day_count_value population c Hc).
  rewrite patient_claims_population.
  pose proof (same_day_within_week population c) as Hle.
  set (n := same_key_count patient_date_eqb _ population c) in *.
  set (w := window_population_count 7 population c) in *.
  pose proof (str_in_spec (procedure_code c) surgery_codes) as Hs.
  split; [reflexivity|]. split; [exact Hle|]. split; [exact Hs|].
  simpl count_gtb.
  destruct (str_in (procedure_code c) surgery_codes) eqn:E.
  - assert (In (procedure_code c) surgery_codes) as Hin by (apply Hs; reflexivity).
    rewrite !andb_true_r, andb_true_l, orb_true_iff, Nat.ltb_lt, Nat.leb_le.
    split; split.
    + intro H. split; [exact Hin | lia].
    + intros [_ H]. lia.
    + intro H. split; [exact Hin | lia].
    + intros [_ H]. lia.
  - assert (~ In (procedure_code c) surgery_codes) as Hin
        by (intro H; apply Hs in H; discriminate H).
    rewrite !andb_false_r, andb_false_l. cbn [orb].
    split; split; try discriminate; intros [H _]; contradiction.
Qed.

(** A row is a high amount exactly when its amount exceeds 50000 (50000
    itself is not); such a row always triggers AMOUNT_ANOMALY and scores at
    least 25, whatever its z-score. *)
Theorem high_amount_triggers_anomaly (population : list Claim)
        (enriched : list EnrichedClaim) (r : EnrichedClaim) :
  transform_frame sqrtQ population = Some enriched ->
  In r enriched ->
  (is_high_amount r = true <-> (50000 < claim_amount (claim r))%Q)
  /\ ((50000 < claim_amount (claim r))%Q ->
      In "AMOUNT_ANOMALY" (flags_of r) /\ (25 <= score_of r)%nat).
Proof.
  intros Henriched Hr.
  apply transform_frame_some in Henriched. subst enriched.
  apply transform_frame_rows in Hr. destruct Hr as (c & Hc & ->).
  assert (is_high_amount
            (enrich (provider_stats population)
                    (specialty_stats sqrtQ population)
                    (specialty_stats_f64 population)
                    (sort_by patient_date_leb population) c) = true
          <-> (50000 < claim_amount c)%Q) as Hhigh
      by apply Qltb_lt.
  split; [exact Hhigh|].
  intro Hamount. apply Hhigh in Hamount.
  assert (rule_trigger AMOUNT_ANOMALY
            (enrich (provider_stats population)
                    (specialty_stats sqrtQ population)
                    (specialty_stats_f64 population)
                    (sort_by patient_date_leb population) c) = true) as Ht.
  { cbn [rule_trigger]. rewrite Hamount. apply orb_true_r. }
  split.
  - apply (label_in_flags_iff fmt_money fmt_fixed1 _ AMOUNT_ANOMALY), Ht.
  - apply (triggered_weight_le_score _ AMOUNT_ANOMALY Ht).
Qed.

End FeatureRuleFacts.

Lemma surgery_day_transformed :
  transform_frame Qsqrt_down surgery_day_population
  = Some (enriched_rows Qsqrt_down surgery_day_population).
Proof. reflexivity. Qed.

Lemma surgery_row_enriched :
  In surgery_row (enriched_rows Qsqrt_down surgery_day_population).
Proof.
  vm_compute. left. reflexivity.
Qed.


Lemma duplicate_rule_counts_ids_witness :
  duplicate_count surgery_row = Some 2%nat
  /\ In "DUPLICATE"
        (fraud_flags (run_rules plain_format plain_format surgery_row)).
Proof.
  destruct (duplicate_rule_counts_ids Qsqrt_down plain_format plain_format
              surgery_day_population _ surgery_row surgery_day_transformed surgery_row_enriched)
    as (Hn & _ & Hflag).
  split; [exact Hn | apply Hflag; vm_compute; lia].
Defined.

Lemma same_day_surgery_flag_witness :
  same_day_claim_count surgery_row = Some 2%nat
  /\ same_day_surgeries surgery_row = true.
Proof.
  destruct (same_day_surgery_flag Qsqrt_down plain_format plain_format
              surgery_day_population _ surgery_row surgery_day_transformed surgery_row_enriched)
    as (Hn & _ & _ & Hflag & _).
  split; [exact Hn|]. apply Hflag. split.
  - vm_compute. left. reflexivity.
  - vm_compute. lia.
Defined.

Lemma high_amount_triggers_anomaly_witness :
  In "AMOUNT_ANOMALY"
     (fraud_flags (run_rules plain_format plain_format surgery_row))
  /\ (25 <= fraud_score (assess plain_format plain_format surgery_row))%nat.
Proof.
  apply (high_amount_triggers_anomaly Qsqrt_down plain_format plain_format
           surgery_day_population _ surgery_row surgery_day_transformed surgery_row_enriched).
  reflexivity.
Defined.

(** * Further properties of the rule evaluator *)

Lemma concat_starts (sep e : string) (es : list string) :
  starts_unlike_sentinel e ->
  starts_unlike_sentinel (String.concat sep (e :: es)).
Proof.
  intros (c & t & -> & Hc). destruct es as [|e' es]; simpl.
  - exists c, t. split; [reflexivity | exact Hc].
  - eexists c, _. split; [reflexivity | exact Hc].
Qed.

Section RuleTextFacts.

Variable fmt_money : fval -> string.
Variable fmt_fixed1 : fval -> string.

Local Abbreviation rules_of := (run_rules fmt_money fmt_fixed1).
Local Abbreviation assess_row := (assess fmt_money fmt_fixed1).

Lemma rules_triggered_text (row : EnrichedClaim) :
  rules_triggered (assess_row row) = rules_text (triggered row).
Proof.
  destruct (run_rules_table fmt_money fmt_fixed1 row) as (Hflags & _ & _).
  unfold assess, rules_text. cbn [rules_triggered].
  rewrite Hflags, nonempty_map. reflexivity.
Qed.

Lemma explanations_start (row : EnrichedClaim) :
  Forall starts_unlike_sentinel (explanations (rules_of row)).
Proof.
  assert (fst (rule_duplicate_claims row) = true ->
          starts_unlike_sentinel (snd (rule_duplicate_claims row))) as H1.
  { unfold rule_duplicate_claims.
    destruct (count_gtb (duplicate_count row) 1); [|discriminate].
    intros _. eexists _, _. split; [reflexivity | discriminate]. }
  assert (fst (rule_amount_anomaly fmt_money fmt_fixed1 row) = true ->
          starts_unlike_sentinel
            (snd (rule_amount_anomaly fmt_money fmt_fixed1 row))) as H2.
  { unfold rule_amount_anomaly.
    destruct (fgtb (fabs (amount_zscore row)) (Fin 3)).
    - intros _. eexists _, _. split; [reflexivity | discriminate].
    - destruct (is_high_amount row); [|discriminate].
      intros _. eexists _, _. split; [reflexivity | discriminate]. }
  assert (fst (rule_code_mismatch row) = true ->
          starts_unlike_sentinel (snd (rule_code_mismatch row))) as H3.
  { unfold rule_code_mismatch.
    destruct (is_code_mismatch row); [|discriminate].
    intros _. eexists _, _. split; [reflexivity | discriminate]. }
  assert (fst (rule_velocity_fraud row) = true ->
          starts_unlike_sentinel (snd (rule_velocity_fraud row))) as H4.
  { unfold rule_velocity_fraud.
    destruct (5 <=? patient_claims_7d row)%nat.
    - intros _. eexists _, _. split; [reflexivity | discriminate].
    - destruct (10 <=? patient_claims_30d row)%nat; [|discriminate].
      intros _. eexists _, _. split; [reflexivity | discriminate]. }
  assert (fst (rule_provider_outlier fmt_money fmt_fixed1 row) = true ->
          starts_unlike_sentinel
            (snd (rule_provider_outlier fmt_money fmt_fixed1 row))) as H5.
  { unfold rule_provider_outlier.
    destruct (is_provider_outlier row); [|discriminate].
    intros _. eexists _, _. split; [reflexivity | discriminate]. }
  assert (fst (rule_impossible_scenario row) = true ->
          starts_unlike_sentinel (snd (rule_impossible_scenario row))) as H6.
  { unfold rule_impossible_scenario.
    destruct (same_day_surgeries row).
    - intros _. eexists _, _. split; [reflexivity | discriminate].
    - destruct (is_surgery row && (3 <=? patient_claims_7d row)%nat);
        [|discriminate].
      intros _. eexists _, _. split; [reflexivity | discriminate]. }
  unfold run_rules, record_rule.
  destruct (fst (rule_duplicate_claims row)),
           (fst (rule_amount_anomaly fmt_money fmt_fixed1 row)),
           (fst (rule_code_mismatch row)),
           (fst (rule_velocity_fraud row)),
           (fst (rule_provider_outlier fmt_money fmt_fixed1 row)),
           (fst (rule_impossible_scenario row));
    cbn [explanations fraud_flags score acc_init app];
    repeat constructor; auto.
Qed.

(** The two sentinel texts are unambiguous: the stored rule text is NONE
    exactly when no fraud was detected, and the stored explanation is
    "No fraud detected" exactly then, whatever the rules wrote. *)
Theorem sentinel_texts_mean_no_fraud (row : EnrichedClaim) :
  (rules_triggered (assess_row row) = "NONE"
   <-> fraud_detected (assess_row row) = false)
  /\ (explanation (assess_row row) = "No fraud detected"
      <-> fraud_detected (assess_row row) = false).
Proof.
  split.
  - rewrite rules_triggered_text, detected_iff_triggered.
    unfold rules_text, triggered, all_rules. cbn [filter].
    destruct (rule_trigger DUPLICATE row),
             (rule_trigger AMOUNT_ANOMALY row),
             (rule_trigger CODE_MISMATCH row),
             (rule_trigger VELOCITY_FRAUD row),
             (rule_trigger PROVIDER_OUTLIER row),
             (rule_trigger IMPOSSIBLE_SCENARIO row);
      vm_compute; split; congruence.
  - rewrite detected_iff_triggered.
    destruct (run_rules_table fmt_money fmt_fixed1 row) as (_ & _ & Hlen).
    pose proof (explanations_start row) as Hstart.
    unfold assess. cbn [explanation].
    destruct (explanations (rules_of row)) as [|e es];
      destruct (triggered row) as [|r rs]; try discriminate Hlen.
    + simpl. tauto.
    + simpl nonempty. split; [|discriminate].
      intro H. exfalso.
      inversion Hstart as [|? ? He _]. subst.
      destruct (concat_starts " | " e es He) as (c & t & Hc & Hn).
      rewrite Hc in H. inversion H. congruence.
Qed.

(** The cap is reached only by five or six rules: the score is 100 exactly
    when all six rules triggered, or five of them including
    IMPOSSIBLE_SCENARIO; the cap never removes more than 25 points. *)
Theorem score_cap_reached (row : EnrichedClaim) :
  (fraud_score (assess_row row) = 100%nat <->
   List.length (triggered row) = 6%nat
   \/ (List.length (triggered row) = 5%nat
       /\ rule_trigger IMPOSSIBLE_SCENARIO row = true))
  /\ (total_weight (triggered row) - fraud_score (assess_row row) <= 25)%nat.
Proof.
  rewrite score_is_capped_weight.
  unfold triggered, all_rules. cbn [filter].
  destruct (rule_trigger DUPLICATE row),
           (rule_trigger AMOUNT_ANOMALY row),
           (rule_trigger CODE_MISMATCH row),
           (rule_trigger VELOCITY_FRAUD row),
           (rule_trigger PROVIDER_OUTLIER row),
           (rule_trigger IMPOSSIBLE_SCENARIO row);
    vm_compute; (split; [split; [intro H; try discriminate H; auto
                               | intros [H|[H H']]; try discriminate H;
                                 try discriminate H'; reflexivity]
                        | repeat constructor]).
Qed.

(** Scoring is monotone: a row on which at least the rules of another row
    trigger scores at least as much. *)
Theorem score_monotone (a b : EnrichedClaim) :
  (forall r, rule_trigger r a = true -> rule_trigger r b = true) ->
  (fraud_score (assess_row a) <= fraud_score (assess_row b))%nat.
Proof.
  intro H. rewrite !score_is_capped_weight.
  pose proof (total_weight_filter_le
                (fun r => rule_trigger r a) (fun r => rule_trigger r b)
                all_rules H) as Hle.
  fold (triggered a) in Hle. fold (triggered b) in Hle. lia.
Qed.

End RuleTextFacts.

Lemma score_monotone_witness :
  (fraud_score (assess plain_format plain_format first_of_week)
   <= fraud_score (assess plain_format plain_format last_of_week))%nat.
Proof.
  apply (score_monotone plain_format plain_format first_of_week last_of_week).
  intros r. destruct r; vm_compute; intro H; try discriminate H; reflexivity.
Defined.

(** * The run summary *)

Lemma count_rows_split {A : Type} (p q : A -> bool) (rows : list A) :
  (count_rows (fun a => p a && q a) rows
   + count_rows (fun a => p a && negb (q a)) rows
   = count_rows p rows)%nat.
Proof.
  unfold count_rows. induction rows as [|a rows IH]; simpl; [reflexivity|].
  destruct (p a), (q a); simpl; lia.
Qed.

Lemma count_rows_le {A : Type} (p : A -> bool) (rows : list A) :
  (count_rows p rows <= List.length rows)%nat.
Proof.
  unfold count_rows. induction rows as [|a rows IH]; simpl; [lia|].
  destruct (p a); simpl; lia.
Qed.

Lemma count_rows_disjoint3 {A : Type} (p q : A -> bool) (rows : list A) :
  (count_rows (fun a => p a && q a) rows
   + count_rows (fun a => p a && negb (q a)) rows
   + count_rows (fun a => negb (p a) && q a) rows
   <= List.length rows)%nat.
Proof.
  unfold count_rows. induction rows as [|a rows IH]; simpl; [lia|].
  destruct (p a), (q a); simpl; lia.
Qed.

Lemma count_rows_map {A B : Type} (f : A -> B) (p : B -> bool)
      (rows : list A) :
  count_rows p (map f rows) = count_rows (fun a => p (f a)) rows.
Proof.
  unfold count_rows. induction rows as [|a rows IH]; simpl; [reflexivity|].
  destruct (p (f a)); simpl; rewrite IH; reflexivity.
Qed.

Lemma count_rows_ext {A : Type} (p q : A -> bool) (rows : list A) :
  (forall a, p a = q a) -> count_rows p rows = count_rows q rows.
Proof.
  intro H. unfold count_rows. rewrite (filter_ext p q H). reflexivity.
Qed.

(** The confusion counts of the summary partition the results: true and
    false positives add up to the detected rows, true positives and false
    negatives to the rows labelled fraud, and no row is counted twice. *)
Theorem summary_confusion_counts (results_df : list Assessment) :
  let s := _print_summary results_df in
  (tp s + fp s = detected s)%nat
  /\ (tp s + fn s = actual_fraud_cases s)%nat
  /\ (tp s + fp s + fn s <= total s)%nat
  /\ (detected s <= total s)%nat
  /\ (actual_fraud_cases s <= total s)%nat.
Proof.
  cbv zeta. unfold _print_summary.
  cbn [tp fp fn detected actual_fraud_cases total].
  split; [apply count_rows_split|].
  split.
  - rewrite <- (count_rows_split actual_fraud fraud_detected).
    f_equal; apply count_rows_ext; intro a;
      [apply andb_comm | apply andb_comm].
  - split; [apply count_rows_disjoint3|].
    split; apply count_rows_le.
Qed.

Local Open Scope Q_scope.

Lemma Qof_nat_add (a b : nat) : Qof_nat (a + b) == Qof_nat a + Qof_nat b.
Proof.
  unfold Qof_nat. rewrite Nat2Z.inj_add, inject_Z_plus. reflexivity.
Qed.

Lemma Qof_nat_nonneg (a : nat) : 0 <= Qof_nat a.
Proof.
  unfold Qof_nat, Qle. simpl. lia.
Qed.

Lemma Qof_nat_zero : Qof_nat 0 == 0.
Proof.
  reflexivity.
Qed.

Lemma guarded_ratio_bounds (a b : nat) :
  0 <= guarded_ratio a b <= 1.
Proof.
  unfold guarded_ratio. destruct (0 <? a + b)%nat eqn:E; [|lra].
  apply Nat.ltb_lt in E. pose proof (Qof_nat_pos _ E) as Hd.
  pose proof (Qof_nat_nonneg a) as Ha. pose proof (Qof_nat_nonneg b) as Hb.
  pose proof (Qof_nat_add a b) as Hab.
  split.
  - apply Qle_shift_div_l; [exact Hd | lra].
  - apply Qle_shift_div_r; [exact Hd | lra].
Qed.

Lemma guarded_ratio_zero (b : nat) : guarded_ratio 0 b == 0.
Proof.
  unfold guarded_ratio. destruct (0 <? 0 + b)%nat; [|reflexivity].
  unfold Qdiv. rewrite Qof_nat_zero. ring.
Qed.

Lemma guarded_ratio_pos (a b : nat) :
  (0 < a)%nat ->
  guarded_ratio a b == Qof_nat a / (Qof_nat a + Qof_nat b)
  /\ 0 < guarded_ratio a b.
Proof.
  intro Ha. unfold guarded_ratio.
  assert ((0 <? a + b)%nat = true) as E by (apply Nat.ltb_lt; lia).
  rewrite E.
  assert (0 < Qof_nat a) as HA by (apply Qof_nat_pos; exact Ha).
  pose proof (Qof_nat_nonneg b) as HB.
  rewrite Qof_nat_add. split; [reflexivity|].
  apply Qlt_shift_div_l; lra.
Qed.

(** Precision, recall and F1 of the summary lie between 0 and 1; with no
    true positive all three are 0 and nothing is divided by zero; with a
    true positive F1 is 2 tp / (2 tp + fp + fn). *)
Theorem summary_metrics (results_df : list Assessment) :
  let s := _print_summary results_df in
  0 <= precision s <= 1
  /\ 0 <= recall s <= 1
  /\ 0 <= f1_score s <= 1
  /\ (tp s = 0%nat ->
      precision s == 0 /\ recall s == 0 /\ f1_score s = 0)
  /\ ((0 < tp s)%nat ->
      precision s == Qof_nat (tp s) / (Qof_nat (tp s) + Qof_nat (fp s))
      /\ recall s == Qof_nat (tp s) / (Qof_nat (tp s) + Qof_nat (fn s))
      /\ f1_score s
         == 2 * Qof_nat (tp s)
            / (2 * Qof_nat (tp s) + Qof_nat (fp s) + Qof_nat (fn s))).
Proof.
  cbv zeta. unfold _print_summary.
  cbn [precision recall f1_score tp fp fn].
  set (t := count_rows (fun a => fraud_detected a && actual_fraud a)
                       results_df).
  set (p := count_rows (fun a => fraud_detected a && negb (actual_fraud a))
                       results_df).
  set (n := count_rows (fun a => negb (fraud_detected a) && actual_fraud a)
                       results_df).
  fold (guarded_ratio t p). fold (guarded_ratio t n).
  pose proof (guarded_ratio_bounds t p) as Hp.
  pose proof (guarded_ratio_bounds t n) as Hr.
  set (P := guarded_ratio t p) in *. set (R := guarded_ratio t n) in *.
  split; [exact Hp|]. split; [exact Hr|].
  split.
  - destruct (Qltb 0 (P + R)) eqn:E; [|lra].
    apply Qltb_lt in E. split.
    + apply Qle_shift_div_l; [exact E | nra].
    + apply Qle_shift_div_r; [exact E | nra].
  - split.
    + intro Ht. subst P R. rewrite Ht.
      pose proof (guarded_ratio_zero p) as Hp0.
      pose proof (guarded_ratio_zero n) as Hr0.
      split; [exact Hp0|]. split; [exact Hr0|].
      destruct (Qltb 0 (guarded_ratio 0 p + guarded_ratio 0 n)) eqn:E;
        [|reflexivity].
      apply Qltb_lt in E. exfalso. lra.
    + intro Ht.
      destruct (guarded_ratio_pos t p Ht) as [HP HPpos].
      destruct (guarded_ratio_pos t n Ht) as [HR HRpos].
      fold P in HP, HPpos. fold R in HR, HRpos.
      split; [exact HP|]. split; [exact HR|].
      assert (Qltb 0 (P + R) = true) as E by (apply Qltb_lt; lra).
      rewrite E, HP, HR.
      assert (0 < Qof_nat t) as HT by (apply Qof_nat_pos; exact Ht).
      pose proof (Qof_nat_nonneg p) as Hpn.
      pose proof (Qof_nat_nonneg n) as Hnn.
      field. repeat split; first [lra | nra].
Qed.

Local Close Scope Q_scope.

(** * Reading the stored rule text *)

(** No rule name occurs inside the text stored for other rules: a name is
    found in the text exactly when its rule is in the list. *)
Lemma contains_rules_text (keep : Rule -> bool) (r : Rule) :
  contains (rule_label r) (rules_text (filter keep all_rules)) = keep r.
Proof.
  unfold all_rules. cbn [filter].
  destruct (keep DUPLICATE) eqn:E1, (keep AMOUNT_ANOMALY) eqn:E2,
           (keep CODE_MISMATCH) eqn:E3, (keep VELOCITY_FRAUD) eqn:E4,
           (keep PROVIDER_OUTLIER) eqn:E5, (keep IMPOSSIBLE_SCENARIO) eqn:E6;
    destruct r; rewrite ?E1, ?E2, ?E3, ?E4, ?E5, ?E6; vm_compute; reflexivity.
Qed.

(** Splitting the stored text at commas and stripping each piece gives the
    rule names back. *)
Lemma rule_tokens_rules_text (keep : Rule -> bool) :
  rule_tokens (rules_text (filter keep all_rules))
  = if nonempty (filter keep all_rules)
    then map rule_label (filter keep all_rules) else ["NONE"].
Proof.
  unfold all_rules. cbn [filter].
  destruct (keep DUPLICATE), (keep AMOUNT_ANOMALY), (keep CODE_MISMATCH),
           (keep VELOCITY_FRAUD), (keep PROVIDER_OUTLIER),
           (keep IMPOSSIBLE_SCENARIO);
    vm_compute; reflexivity.
Qed.

(** Splitting at commas alone leaves the blank after each comma in front
    of every name but the first. *)
Lemma rules_triggered_list_rules_text (keep : Rule -> bool) :
  rules_triggered_list (rules_text (filter keep all_rules))
  = match map rule_label (filter keep all_rules) with
    | [] => ["NONE"]
    | first :: others => first :: map (String " ") others
    end.
Proof.
  unfold all_rules. cbn [filter].
  destruct (keep DUPLICATE), (keep AMOUNT_ANOMALY), (keep CODE_MISMATCH),
           (keep VELOCITY_FRAUD), (keep PROVIDER_OUTLIER),
           (keep IMPOSSIBLE_SCENARIO);
    vm_compute; reflexivity.
Qed.

Section StoredRuleText.

Variable fmt_money : fval -> string.
Variable fmt_fixed1 : fval -> string.

Local Abbreviation assess_row := (assess fmt_money fmt_fixed1).
Local Abbreviation assess_all := (run_all_rules fmt_money fmt_fixed1).

(** The rule breakdown of the summary, which searches each rule name in the
    stored text, counts for every rule exactly the rows on which that rule
    triggered. *)
Theorem summary_rule_counts (df : list EnrichedClaim) :
  rule_counts (_print_summary (assess_all df))
  = map (fun r => (rule_label r, count_rows (rule_trigger r) df)) all_rules.
Proof.
  unfold _print_summary. cbn [rule_counts].
  change summary_rules with (map rule_label all_rules).
  rewrite map_map. apply map_ext. intro r. f_equal.
  unfold run_all_rules. rewrite count_rows_map.
  apply count_rows_ext. intro row.
  rewrite rules_triggered_text. unfold triggered.
  apply (contains_rules_text (fun r => rule_trigger r row)).
Qed.

(** The dashboard's reading of the stored text, split at commas and
    stripped, returns the triggered rule names in table order for a detected
    row and the single token NONE otherwise. *)
Theorem rule_tokens_round_trip (row : EnrichedClaim) :
  (fraud_detected (assess_row row) = true ->
   rule_tokens (rules_triggered (assess_row row))
   = fraud_flags (run_rules fmt_money fmt_fixed1 row))
  /\ (fraud_detected (assess_row row) = false ->
      rule_tokens (rules_triggered (assess_row row)) = ["NONE"])
  /\ (forall r, In (rule_label r)
                   (rule_tokens (rules_triggered (assess_row row)))
                <-> rule_trigger r row = true).
Proof.
  destruct (run_rules_table fmt_money fmt_fixed1 row) as (Hflags & _ & _).
  pose proof (rule_tokens_rules_text (fun r => rule_trigger r row)) as Htok.
  fold (triggered row) in Htok.
  rewrite rules_triggered_text, detected_iff_triggered, Hflags, Htok.
  split; [intros ->; reflexivity|].
  split; [intros ->; reflexivity|].
  intro r. destruct (nonempty (triggered row)) eqn:E.
  - rewrite <- Hflags. apply label_in_flags_iff.
  - assert (triggered row = []) as Hnil
        by (destruct (triggered row); [reflexivity | discriminate E]).
    assert (rule_trigger r row = false) as Hr.
    { destruct (rule_trigger r row) eqn:Et; [|reflexivity].
      assert (In r (triggered row)) as Hin
          by (apply filter_In; split; [apply every_rule_listed | exact Et]).
      rewrite Hnil in Hin. contradiction. }
    rewrite Hr. split; [|discriminate].
    intros [H|[]]. destruct r; discriminate H.
Qed.

(** The single-claim investigation splits the stored text at commas without
    stripping: its rule list is the first triggered rule name followed by
    the other names each preceded by one blank. *)
Theorem investigation_rule_list (row : EnrichedClaim) :
  fraud_detected (assess_row row) = true ->
  rules_triggered_list (rules_triggered (assess_row row))
  = match fraud_flags (run_rules fmt_money fmt_fixed1 row) with
    | [] => []
    | first :: others => first :: map (String " ") others
    end.
Proof.
  destruct (run_rules_table fmt_money fmt_fixed1 row) as (Hflags & _ & _).
  rewrite detected_iff_triggered, rules_triggered_text, Hflags.
  pose proof (rules_triggered_list_rules_text (fun r => rule_trigger r row))
    as Hlist.
  fold (triggered row) in Hlist. rewrite Hlist.
  destruct (triggered row); [discriminate | reflexivity].
Qed.

End StoredRuleText.

(** * The joined tables *)

Lemma filter_map_comm {A B : Type} (f : A -> B) (p : B -> bool)
      (l : list A) :
  filter p (map f l) = map f (filter (fun a => p (f a)) l).
Proof.
  induction l as [|a l IH]; simpl; [reflexivity|].
  destruct (p (f a)); simpl; rewrite IH; reflexivity.
Qed.

Lemma length_flat_map_sum {A B : Type} (g : A -> list B) (l : list A) :
  List.length (flat_map g l)
  = list_sum (map (fun a => List.length (g a)) l).
Proof.
  induction l as [|a l IH]; simpl; [reflexivity|].
  rewrite length_app, IH. reflexivity.
Qed.

Section DropDuplicates.

Context {A : Type}.
Variable key : A -> string.

Lemma drop_duplicates_keys (seen : list string) (rows : list A) (k : string) :
  In k (map key (drop_duplicates key seen rows))
  <-> In k (map key rows) /\ ~ In k seen.
Proof.
  revert seen. induction rows as [|row rest IH]; intro seen; simpl.
  - tauto.
  - destruct (str_in (key row) seen) eqn:E.
    + apply str_in_spec in E. rewrite IH. split.
      * tauto.
      * intros [[Hk|Hk] Hs]; [subst k; contradiction | tauto].
    + assert (~ In (key row) seen) as Hn
          by (intro H; apply str_in_spec in H; congruence).
      simpl. rewrite IH. simpl. split.
      * intros [Hk|[Hk Hs]]; [subst k; tauto | tauto].
      * intros [[Hk|Hk] Hs]; [tauto|].
        destruct (string_dec (key row) k) as [Heq|Hne]; [tauto|].
        right. split; [exact Hk|]. intros [H|H]; [contradiction | tauto].
Qed.

Lemma drop_duplicates_NoDup (seen : list string) (rows : list A) :
  NoDup (map key (drop_duplicates key seen rows)).
Proof.
  revert seen. induction rows as [|row rest IH]; intro seen; simpl.
  - constructor.
  - destruct (str_in (key row) seen); [apply IH|].
    simpl. constructor; [|apply IH].
    rewrite drop_duplicates_keys. simpl. tauto.
Qed.

(** Rows that all carry a key already seen are all dropped. *)
Lemma drop_duplicates_seen_prefix (seen : list string) (rows rest : list A) :
  (forall x, In x rows -> In (key x) seen) ->
  drop_duplicates key seen (rows ++ rest) = drop_duplicates key seen rest.
Proof.
  induction rows as [|row rows IH]; simpl; intro H; [reflexivity|].
  assert (str_in (key row) seen = true) as E
      by (apply str_in_spec, H; left; reflexivity).
  rewrite E. apply IH. intros x Hx. apply H. right. exact Hx.
Qed.

(** A kept row is the first row of the frame with its key. *)
Lemma drop_duplicates_first (seen : list string) (rows : list A) (c : A) :
  In c (drop_duplicates key seen rows) ->
  ~ In (key c) seen
  /\ exists before after,
       rows = before ++ c :: after
       /\ forall x, In x before -> key x <> key c.
Proof.
  revert seen. induction rows as [|row rest IH]; intro seen; simpl.
  - tauto.
  - destruct (str_in (key row) seen) eqn:E.
    + intro Hc. destruct (IH seen Hc) as (Hs & before & after & -> & Hb).
      split; [exact Hs|]. exists (row :: before), after.
      split; [reflexivity|].
      intros x [<-|Hx]; [|apply Hb, Hx].
      apply str_in_spec in E. intro Heq. rewrite Heq in E. contradiction.
    + assert (~ In (key row) seen) as Hn
          by (intro H; apply str_in_spec in H; congruence).
      intros [<-|Hc].
      * split; [exact Hn|]. exists [], rest. split; [reflexivity|].
        intros x [].
      * destruct (IH (key row :: seen) Hc)
          as (Hs & before & after & -> & Hb).
        simpl in Hs. split; [tauto|].
        exists (row :: before), after. split; [reflexivity|].
        intros x [<-|Hx]; [tauto | apply Hb, Hx].
Qed.

End DropDuplicates.

(** Dropping repeated keys from a frame whose rows come in groups, one
    group per row of [l] and all rows of a group carrying the key of that
    row, keeps the head of the group of each first occurrence. *)
Lemma drop_duplicates_grouped {A B : Type} (key : A -> string)
      (key' : B -> string) (g : A -> list B) (h : A -> B)
      (l : list A) (seen : list string) :
  (forall a, In a l ->
     exists bs, g a = h a :: bs
                /\ key' (h a) = key a
                /\ forall x, In x bs -> key' x = key a) ->
  drop_duplicates key' seen (flat_map g l)
  = map h (drop_duplicates key seen l).
Proof.
  revert seen. induction l as [|a l IH]; intros seen Hg; simpl.
  - reflexivity.
  - destruct (Hg a (or_introl eq_refl)) as (bs & Hga & Hk & Hbs).
    assert (forall a', In a' l ->
              exists bs', g a' = h a' :: bs'
                          /\ key' (h a') = key a'
                          /\ forall x, In x bs' -> key' x = key a') as Hl
        by (intros a' Ha'; apply Hg; right; exact Ha').
    rewrite Hga. simpl. rewrite Hk.
    destruct (str_in (key a) seen) eqn:E.
    + rewrite drop_duplicates_seen_prefix; [apply IH, Hl|].
      intros x Hx. rewrite (Hbs x Hx). apply str_in_spec, E.
    + simpl. f_equal.
      rewrite drop_duplicates_seen_prefix; [apply IH, Hl|].
      intros x Hx. rewrite (Hbs x Hx). left. reflexivity.
Qed.

Lemma unique_key_count {A : Type} (key : A -> string) (l : list A) (c : A) :
  NoDup (map key l) -> In c l ->
  List.length (filter (fun x => String.eqb (key x) (key c)) l) = 1%nat.
Proof.
  induction l as [|a l IH]; simpl; [tauto|].
  intros Hnd Hc. inversion Hnd as [|? ? Hnotin Hnd']. subst.
  destruct Hc as [->|Hc].
  - rewrite String.eqb_refl. simpl. f_equal.
    apply length_zero_iff_nil.
    destruct (filter (fun x => String.eqb (key x) (key c)) l) as [|y ys] eqn:E;
      [reflexivity|].
    exfalso. apply Hnotin.
    assert (In y (filter (fun x => String.eqb (key x) (key c)) l)) as Hy
        by (rewrite E; left; reflexivity).
    apply filter_In in Hy. destruct Hy as [Hy Hk].
    apply String.eqb_eq in Hk. rewrite <- Hk. apply in_map, Hy.
  - destruct (String.eqb (key a) (key c)) eqn:E.
    + apply String.eqb_eq in E. exfalso. apply Hnotin.
      rewrite E. apply in_map, Hc.
    + apply IH; assumption.
Qed.

Lemma unique_key_rows {A : Type} (key : A -> string) (l : list A) (c : A) :
  NoDup (map key l) -> In c l ->
  filter (fun x => String.eqb (key x) (key c)) l = [c].
Proof.
  intros Hnd Hc.
  pose proof (unique_key_count key l c Hnd Hc) as Hlen.
  assert (In c (filter (fun x => String.eqb (key x) (key c)) l)) as Hin
      by (apply filter_In; split; [exact Hc | apply String.eqb_refl]).
  destruct (filter (fun x => String.eqb (key x) (key c)) l) as [|x [|y t]];
    [contradiction | | discriminate Hlen].
  destruct Hin as [->|[]]. reflexivity.
Qed.

Lemma flat_map_singleton {A B : Type} (f : A -> B) (l : list A) :
  flat_map (fun a => [f a]) l = map f l.
Proof.
  induction l as [|a l IH]; simpl; [reflexivity|]. rewrite IH. reflexivity.
Qed.

Lemma flat_map_pointwise {A B : Type} (f g : A -> list B) (l : list A) :
  (forall a, In a l -> f a = g a) -> flat_map f l = flat_map g l.
Proof.
  induction l as [|a l IH]; simpl; intro H; [reflexivity|].
  rewrite (H a (or_introl eq_refl)), IH; [reflexivity|].
  intros x Hx. apply H. right. exact Hx.
Qed.

(** Rows without a repeated key, none of them seen before, are all kept. *)
Lemma drop_duplicates_unique {A : Type} (key : A -> string)
      (seen : list string) (rows : list A) :
  NoDup (map key rows) ->
  (forall x, In x rows -> ~ In (key x) seen) ->
  drop_duplicates key seen rows = rows.
Proof.
  revert seen. induction rows as [|row rest IH]; intros seen Hnd Hseen;
    simpl; [reflexivity|].
  inversion Hnd as [|? ? Hnotin Hnd']. subst.
  destruct (str_in (key row) seen) eqn:E.
  - apply str_in_spec in E. exfalso.
    exact (Hseen row (or_introl eq_refl) E).
  - f_equal. apply IH; [exact Hnd'|].
    intros x Hx [Hk|Hk].
    + apply Hnotin. rewrite Hk. apply in_map, Hx.
    + exact (Hseen x (or_intror Hx) Hk).
Qed.

Lemma drop_duplicates_incl {A : Type} (key : A -> string)
      (seen : list string) (rows : list A) (c : A) :
  In c (drop_duplicates key seen rows) -> In c rows.
Proof.
  intro H. destruct (drop_duplicates_first key seen rows c H)
    as (_ & before & after & -> & _).
  apply in_or_app. right. left. reflexivity.
Qed.

Section JoinedTables.

Variable fmt_money : fval -> string.
Variable fmt_fixed1 : fval -> string.

Local Abbreviation assess_row := (assess fmt_money fmt_fixed1).
Local Abbreviation assess_all := (run_all_rules fmt_money fmt_fixed1).

(** The assessments of a claim id, for the table written by a run. *)
Lemma matching_assessments (df : list EnrichedClaim) (id : string) :
  filter (fun f => String.eqb (a_claim_id f) id) (assess_all df)
  = map assess_row (filter (fun c => String.eqb (row_claim_id c) id) df).
Proof.
  unfold run_all_rules. apply filter_map_comm.
Qed.

(** On the tables of one run every row of the join pairs a claims row with
    the assessment of a claims row of the same claim id. *)
Lemma left_join_rows (df : list EnrichedClaim)
      (row : EnrichedClaim * option Assessment) :
  In row (left_join df (assess_all df)) <->
  In (fst row) df
  /\ exists c, In c df
               /\ row_claim_id c = row_claim_id (fst row)
               /\ snd row = Some (assess_row c).
Proof.
  unfold left_join. rewrite in_flat_map. split.
  - intros (c0 & Hc0 & Hrow). fold (row_claim_id c0) in Hrow.
    rewrite matching_assessments in Hrow.
    assert (In c0 (filter (fun x => String.eqb (row_claim_id x)
                                               (row_claim_id c0)) df)) as Hin
        by (apply filter_In; split; [exact Hc0 | apply String.eqb_refl]).
    destruct (filter (fun x => String.eqb (row_claim_id x) (row_claim_id c0))
                     df) as [|x xs] eqn:Ef; [contradiction|].
    change (In row (map (fun f' => (c0, Some f'))
                        (map assess_row (x :: xs)))) in Hrow.
    rewrite map_map in Hrow.
    apply in_map_iff in Hrow. destruct Hrow as (c & <- & Hc).
    rewrite <- Ef in Hc. apply filter_In in Hc. destruct Hc as [Hc Hid].
    apply String.eqb_eq in Hid.
    split; [exact Hc0|]. exists c. repeat split; assumption.
  - intros (Hc0 & c & Hc & Hid & Hsnd). exists (fst row).
    split; [exact Hc0|]. fold (row_claim_id (fst row)).
    rewrite matching_assessments.
    assert (In c (filter (fun x => String.eqb (row_claim_id x)
                                              (row_claim_id (fst row))) df))
      as Hin by (apply filter_In; split;
                 [exact Hc | apply String.eqb_eq, Hid]).
    destruct (filter (fun x => String.eqb (row_claim_id x)
                                          (row_claim_id (fst row))) df)
      as [|x xs] eqn:Ef; [contradiction|].
    change (In row (map (fun f' => (fst row, Some f'))
                        (map assess_row (x :: xs)))).
    rewrite map_map. apply in_map_iff.
    exists c. split; [|exact Hin].
    destruct row as [c0 a]. cbn [fst snd] in *. rewrite Hsnd. reflexivity.
Qed.

(** With no repeated claim id the join pairs every claim with its own
    assessment. *)
Lemma left_join_unique (df : list EnrichedClaim) :
  NoDup (map row_claim_id df) ->
  left_join df (assess_all df) = map (fun c => (c, Some (assess_row c))) df.
Proof.
  intro Hnd. unfold left_join.
  rewrite <- (flat_map_singleton (fun c => (c, Some (assess_row c)))).
  apply flat_map_pointwise. intros c Hc. fold (row_claim_id c).
  rewrite matching_assessments, (unique_key_rows row_claim_id df c Hnd Hc).
  reflexivity.
Qed.

(** The dashboard frame, whatever order the query returns the joined rows
    in: no claim id is repeated and none is lost; every row pairs a claims
    row with the assessment of a claims row carrying the same id (which of
    them, when an id is repeated, depends on the order returned); when no
    claim id is repeated the frame holds every claim with its own
    assessment. *)
Theorem load_data_one_row_per_claim_id (df : list EnrichedClaim)
        (rows : list (EnrichedClaim * option Assessment)) :
  query_result df (assess_all df) rows ->
  NoDup (map joined_claim_id (load_data rows))
  /\ (forall id, In id (map joined_claim_id (load_data rows))
                 <-> In id (map row_claim_id df))
  /\ (forall row, In row (load_data rows) ->
        In (fst row) df
        /\ exists c, In c df
                     /\ row_claim_id c = row_claim_id (fst row)
                     /\ snd row = Some (assess_row c))
  /\ (NoDup (map row_claim_id df) ->
      Permutation (load_data rows)
                  (map (fun c => (c, Some (assess_row c))) df)).
Proof.
  unfold query_result, load_data. intro Hrows.
  split; [apply drop_duplicates_NoDup|]. split; [|split].
  - intro id. rewrite drop_duplicates_keys.
    assert (In id (map joined_claim_id rows)
            <-> In id (map joined_claim_id (left_join df (assess_all df))))
      as Hperm.
    { split; apply Permutation_in, Permutation_map;
        [exact Hrows | apply Permutation_sym, Hrows]. }
    rewrite Hperm, !in_map_iff. split.
    + intros [(row & Hid & Hrow) _]. apply left_join_rows in Hrow.
      exists (fst row). split; [exact Hid | tauto].
    + intros (c & Hid & Hc). split; [|intros []].
      exists (c, Some (assess_row c)). split; [exact Hid|].
      apply left_join_rows. cbn [fst snd]. split; [exact Hc|].
      exists c. repeat split. exact Hc.
  - intros row Hrow. apply drop_duplicates_incl in Hrow.
    apply (Permutation_in _ Hrows) in Hrow.
    apply left_join_rows. exact Hrow.
  - intro Hnd. rewrite (left_join_unique df Hnd) in Hrows.
    rewrite drop_duplicates_unique; [exact Hrows| |intros x _ []].
    apply (Permutation_NoDup (l := map row_claim_id df)).
    + apply Permutation_sym.
      apply (Permutation_map joined_claim_id) in Hrows.
      rewrite map_map in Hrows. exact Hrows.
    + exact Hnd.
Qed.

End JoinedTables.

Lemma load_data_one_row_per_claim_id_witness :
  NoDup (map joined_claim_id (load_data reversed_join))
  /\ (forall id, In id (map joined_claim_id (load_data reversed_join))
                 <-> In id (map row_claim_id surgery_day_rows))
  /\ (forall row, In row (load_data reversed_join) ->
        In (fst row) surgery_day_rows
        /\ exists c, In c surgery_day_rows
                     /\ row_claim_id c = row_claim_id (fst row)
                     /\ snd row = Some (assess plain_format plain_format c))
  /\ (NoDup (map row_claim_id surgery_day_rows) ->
      Permutation (load_data reversed_join)
                  (map (fun c => (c, Some (assess plain_format plain_format
                                                  c)))
                       surgery_day_rows)).
Proof.
  apply (load_data_one_row_per_claim_id plain_format plain_format
           surgery_day_rows reversed_join).
  unfold query_result, reversed_join.
  apply Permutation_sym, Permutation_rev.
Defined.


Lemma list_sum_pointwise {A : Type} (f g : A -> nat) (l : list A) :
  (forall a, In a l -> (f a <= g a)%nat) ->
  (list_sum (map f l) <= list_sum (map g l))%nat.
Proof.
  induction l as [|a l IH]; simpl; intro H; [lia|].
  pose proof (H a (or_introl eq_refl)).
  assert (list_sum (map f l) <= list_sum (map g l))%nat
    by (apply IH; intros x Hx; apply H; right; exact Hx).
  lia.
Qed.

Lemma list_sum_ones {A : Type} (l : list A) :
  list_sum (map (fun _ => 1%nat) l) = List.length l.
Proof.
  induction l as [|a l IH]; simpl; [reflexivity|]. rewrite IH. reflexivity.
Qed.

Section DocumentFacts.

Variable fmt_money : fval -> string.
Variable fmt_fixed1 : fval -> string.
Variable _create_document_text : EnrichedClaim * option Assessment -> string.

Local Abbreviation assess_all := (run_all_rules fmt_money fmt_fixed1).

Lemma join_group_length (df : list EnrichedClaim) (c : EnrichedClaim) :
  List.length
    (match filter (fun f => String.eqb (a_claim_id f) (claim_id (claim c)))
                  (assess_all df) with
     | [] => [(c, None)]
     | f :: fs => map (fun f' => (c, Some f')) (f :: fs)
     end)
  = Nat.max 1 (count_rows (fun x => String.eqb (row_claim_id x)
                                               (row_claim_id c)) df).
Proof.
  fold (row_claim_id c). rewrite matching_assessments. unfold count_rows.
  destruct (filter (fun x => String.eqb (row_claim_id x) (row_claim_id c)) df)
    as [|x xs]; [reflexivity|].
  simpl. rewrite !length_map. reflexivity.
Qed.

(** On the tables of one run the documents built for the vector store are
    one per pair of a claims row and an assessment of the same claim id: a
    claim id carried by n rows yields n times n documents.  There are as many
    metadata entries as documents, at least as many documents as claims, and
    exactly as many when no claim id is repeated. *)
Theorem documents_per_claim_id (df : list EnrichedClaim) :
  let documents :=
    fst (create_fraud_documents _create_document_text df (assess_all df)) in
  let metadata_list :=
    snd (create_fraud_documents _create_document_text df (assess_all df)) in
  List.length documents
  = list_sum (map (fun c => count_rows
                              (fun x => String.eqb (row_claim_id x)
                                                   (row_claim_id c)) df) df)
  /\ List.length metadata_list = List.length documents
  /\ (List.length df <= List.length documents)%nat
  /\ (NoDup (map row_claim_id df) ->
      List.length documents = List.length df).
Proof.
  cbv zeta. unfold create_fraud_documents. cbn [fst snd].
  rewrite !length_map. unfold left_join. rewrite length_flat_map_sum.
  assert (forall c, In c df ->
            (1 <= count_rows (fun x => String.eqb (row_claim_id x)
                                                  (row_claim_id c)) df)%nat)
    as Hself.
  { intros c Hc. unfold count_rows. apply (filter_length_pos _ _ c).
    apply filter_In. split; [exact Hc | apply String.eqb_refl]. }
  assert (list_sum
            (map (fun c =>
                    List.length
                      (match filter (fun f => String.eqb (a_claim_id f)
                                                (claim_id (claim c)))
                                    (assess_all df) with
                       | [] => [(c, None)]
                       | f :: fs => map (fun f' => (c, Some f')) (f :: fs)
                       end)) df)
          = list_sum (map (fun c => count_rows
                                      (fun x => String.eqb (row_claim_id x)
                                                           (row_claim_id c))
                                      df) df)) as Hsum.
  { f_equal. apply map_ext_in. intros c Hc. rewrite join_group_length.
    specialize (Hself c Hc). lia. }
  rewrite Hsum.
  split; [reflexivity|]. split; [reflexivity|]. split.
  - rewrite <- (list_sum_ones df) at 1.
    apply list_sum_pointwise. exact Hself.
  - intro Hnd. rewrite <- (list_sum_ones df). f_equal.
    apply map_ext_in. intros c Hc.
    apply (unique_key_count row_claim_id df c Hnd Hc).
Qed.

End DocumentFacts.

(** * Dashboard metrics and store statistics *)

Local Open Scope Q_scope.

Lemma Qof_nat_le (a b : nat) : (a <= b)%nat -> Qof_nat a <= Qof_nat b.
Proof.
  intro H. unfold Qof_nat, Qle. simpl. lia.
Qed.

Lemma percentage_bounds (a b : nat) :
  (a <= b)%nat -> (0 < b)%nat ->
  0 <= Qof_nat a / Qof_nat b * 100 <= 100.
Proof.
  intros Hab Hb.
  pose proof (Qof_nat_pos _ Hb) as Hd.
  pose proof (Qof_nat_nonneg a) as Ha.
  pose proof (Qof_nat_le _ _ Hab) as Hle.
  assert (0 <= Qof_nat a / Qof_nat b)
    by (apply Qle_shift_div_l; [exact Hd | lra]).
  assert (Qof_nat a / Qof_nat b <= 1)
    by (apply Qle_shift_div_r; [exact Hd | lra]).
  lra.
Qed.

Lemma Qsum_filter_le {A : Type} (amount : A -> Q) (keep : A -> bool)
      (rows : list A) :
  (forall row, In row rows -> 0 <= amount row) ->
  0 <= Qsum (map amount (filter keep rows)) <= Qsum (map amount rows).
Proof.
  induction rows as [|row rows IH]; simpl; intro H; [lra|].
  pose proof (H row (or_introl eq_refl)) as Hrow.
  assert (0 <= Qsum (map amount (filter keep rows))
          <= Qsum (map amount rows)) as Hrest
      by (apply IH; intros x Hx; apply H; right; exact Hx).
  destruct (keep row); simpl; lra.
Qed.

(** The dashboard metrics never divide by zero: on an empty frame the fraud
    rate is 0.  The fraud rate lies between 0 and 100, the fraud cases are
    at most the claims, and with non-negative amounts the fraud amount is at
    most the total amount. *)
Theorem fraud_metrics_bounds (df : list (EnrichedClaim * option Assessment)) :
  let m := create_fraud_metrics df in
  (fraud_claims m <= total_claims m)%nat
  /\ 0 <= fraud_rate m <= 100
  /\ (df = [] -> fraud_rate m = 0 /\ total_claims m = 0%nat)
  /\ ((forall row, In row df -> 0 <= claim_amount (claim (fst row))) ->
      0 <= fraud_amount m <= total_amount m).
Proof.
  cbv zeta. unfold create_fraud_metrics.
  cbn [fraud_claims total_claims fraud_rate fraud_amount total_amount].
  assert (List.length (filter flagged df) <= List.length df)%nat as Hle
      by apply (count_rows_le flagged df).
  split; [exact Hle|]. split; [|split].
  - destruct (0 <? List.length df)%nat eqn:E; [|lra].
    apply Nat.ltb_lt in E. apply percentage_bounds; assumption.
  - intros ->. split; reflexivity.
  - apply Qsum_filter_le.
Qed.

Section StoreStatistics.

Variable M : Type.
Variable is_fraud_case : M -> bool.

(** The store statistics fail exactly on an empty store; otherwise fraud
    and legitimate cases add up to the total and the percentage lies between
    0 and 100. *)
Theorem fraud_statistics_defined (metadata_list : list M) :
  (get_fraud_statistics M is_fraud_case metadata_list = None
   <-> metadata_list = [])
  /\ (forall total fraud legitimate percentage,
        get_fraud_statistics M is_fraud_case metadata_list
        = Some (total, fraud, legitimate, percentage) ->
        total = List.length metadata_list
        /\ fraud = count_rows is_fraud_case metadata_list
        /\ (fraud + legitimate = total)%nat
        /\ 0 <= percentage <= 100).
Proof.
  unfold get_fraud_statistics.
  pose proof (count_rows_le is_fraud_case metadata_list) as Hle.
  unfold count_rows in *.
  destruct (List.length metadata_list =? 0)%nat eqn:E.
  - apply Nat.eqb_eq in E. apply length_zero_iff_nil in E.
    split; [tauto|]. discriminate.
  - apply Nat.eqb_neq in E. split.
    + split; [discriminate|]. intros ->. contradiction E. reflexivity.
    + intros total fraud legitimate percentage H. inversion H. subst.
      split; [reflexivity|]. split; [reflexivity|]. split; [lia|].
      apply percentage_bounds; [exact Hle | lia].
Qed.

End StoreStatistics.

Local Close Scope Q_scope.

(** * Searching the vector store *)

Lemma in_firstn_in {A : Type} (n : nat) (l : list A) (x : A) :
  In x (firstn n l) -> In x l.
Proof.
  revert l. induction n as [|n IH]; intros l H; [contradiction|].
  destruct l as [|a l]; [contradiction|].
  destruct H as [->|H]; [left; reflexivity | right; apply IH, H].
Qed.

Section SearchFacts.

Variable M D : Type.
Variable is_fraud_case : M -> bool.

Local Abbreviation collect := (collect_results M D is_fraud_case).
Local Abbreviation ranked := (ranked_candidates M D is_fraud_case).

Lemma collect_results_prefix (documents : list string)
      (metadata_list : list M) (fraud_only : bool) (k : nat)
      (neighbours : list (D * Z)) (results : list (SearchResult M D)) :
  (forall n, In n neighbours ->
             py_index documents (snd n) <> None
             /\ py_index metadata_list (snd n) <> None) ->
  (List.length results < Nat.max k 1)%nat ->
  collect documents metadata_list fraud_only k neighbours results
  = Some (results
          ++ firstn (Nat.max k 1 - List.length results)
                    (ranked documents metadata_list fraud_only neighbours)).
Proof.
  revert results.
  induction neighbours as [|[dist idx] rest IH]; intros results Hvalid Hlen.
  - simpl. unfold ranked_candidates. simpl.
    rewrite firstn_nil, app_nil_r. reflexivity.
  - destruct (Hvalid (dist, idx) (or_introl eq_refl)) as [Hd Hm].
    simpl in Hd, Hm.
    destruct (py_index documents idx) as [d|] eqn:Ed; [|contradiction].
    destruct (py_index metadata_list idx) as [m|] eqn:Em; [|contradiction].
    assert (forall n, In n rest ->
                      py_index documents (snd n) <> None
                      /\ py_index metadata_list (snd n) <> None) as Hrest
        by (intros n Hn; apply Hvalid; right; exact Hn).
    assert (ranked documents metadata_list fraud_only ((dist, idx) :: rest)
            = if negb fraud_only || is_fraud_case m
              then mkSearchResult M D d m dist
                   :: ranked documents metadata_list fraud_only rest
              else ranked documents metadata_list fraud_only rest) as Hranked.
    { unfold ranked_candidates. cbn [flat_map].
      unfold resolve_neighbour at 1. cbn [fst snd]. rewrite Ed, Em.
      cbn [app filter metadata]. reflexivity. }
    assert (forall r,
              (if (k <=? List.length (results ++ [r]))%nat
               then Some (results ++ [r])
               else collect documents metadata_list fraud_only k rest
                            (results ++ [r]))
              = Some (results
                      ++ firstn (Nat.max k 1 - List.length results)
                           (r :: ranked documents metadata_list fraud_only
                                        rest))) as Happend.
    { intro r. rewrite length_app. cbn [List.length].
      destruct (Nat.max k 1 - List.length results)%nat as [|j] eqn:Ej;
        [lia|].
      cbn [firstn].
      destruct (k <=? List.length results + 1)%nat eqn:Ek.
      - apply Nat.leb_le in Ek. assert (j = 0%nat) as -> by lia.
        reflexivity.
      - apply Nat.leb_gt in Ek.
        rewrite IH;
          [|exact Hrest | rewrite length_app; cbn [List.length]; lia].
        rewrite length_app. cbn [List.length].
        replace (Nat.max k 1 - (List.length results + 1))%nat with j by lia.
        rewrite <- app_assoc. reflexivity. }
    rewrite Hranked. cbn [collect_results]. rewrite Ed, Em.
    destruct fraud_only; cbn [negb orb].
    + destruct (is_fraud_case m); cbn [negb].
      * apply Happend.
      * apply IH; assumption.
    + apply Happend.
Qed.

(** For a request of at least one result, when every position the index
    returns is in range, the search returns the first k entries in rank
    order, taken among the fraud cases alone when [fraud_only] is set; it
    never returns more, and with [fraud_only] it looks at no more than 5 k
    neighbours.  A request for no result raises. *)
Theorem search_returns_first_k (documents : list string)
        (metadata_list : list M) (index_search : nat -> list (D * Z))
        (k : nat) (fraud_only : bool) :
  (1 <= k)%nat ->
  let neighbours := index_search (if fraud_only then k * 5 else k)%nat in
  (forall n, In n neighbours ->
             py_index documents (snd n) <> None
             /\ py_index metadata_list (snd n) <> None) ->
  (exists results,
     search M D is_fraud_case documents metadata_list index_search k
            fraud_only = Some results
     /\ results = firstn k (ranked documents metadata_list fraud_only
                                   neighbours)
     /\ (List.length results <= k)%nat
     /\ (fraud_only = true ->
         forall r, In r results -> is_fraud_case (metadata M D r) = true))
  /\ search M D is_fraud_case documents metadata_list index_search 0
            fraud_only = None.
Proof.
  cbv zeta. intros Hk Hvalid. split.
  - eexists. split; [|split; [reflexivity|split]].
    + unfold search.
      assert (((if fraud_only then k * 5 else k) =? 0)%nat = false) as ->
          by (apply Nat.eqb_neq; destruct fraud_only; lia).
      rewrite collect_results_prefix.
      * cbn [app List.length]. rewrite Nat.sub_0_r.
        replace (Nat.max k 1) with k by lia. reflexivity.
      * exact Hvalid.
      * cbn [List.length]. lia.
    + apply firstn_le_length.
    + intros -> r Hr. apply in_firstn_in in Hr.
      unfold ranked_candidates in Hr. apply filter_In in Hr.
      destruct Hr as [_ Hr]. exact Hr.
  - unfold search. destruct fraud_only; reflexivity.
Qed.

End SearchFacts.

(** * Investigating one claim *)

Lemma filter_head_find {A : Type} (p : A -> bool) (l : list A) :
  hd_error (filter p l) = find p l.
Proof.
  induction l as [|a l IH]; simpl; [reflexivity|].
  destruct (p a); [reflexivity | exact IH].
Qed.

Section InvestigationFacts.

Variable fmt_money : fval -> string.
Variable fmt_fixed1 : fval -> string.
Variable Investigation Explanation : Type.
Variable investigate_claim : string -> Investigation.
Variable explain_fraud_case : string -> Investigation -> Explanation.

Local Abbreviation assess_row := (assess fmt_money fmt_fixed1).
Local Abbreviation assess_all := (run_all_rules fmt_money fmt_fixed1).

(** On the tables of one run, investigating a claim id reports
    "Claim not found" exactly when no claims row carries the id and never
    reports missing fraud-flag data; otherwise the claim data, the score and
    the verdict all come from the first claims row carrying the id. *)
Theorem investigate_after_run (df : list EnrichedClaim) (id : string) :
  has_char "'" id = false ->
  let result :=
    investigate_single_claim Investigation Explanation investigate_claim
                             explain_fraud_case df (assess_all df) id in
  match find (fun c => String.eqb (row_claim_id c) id) df with
  | None => result = ResultError Investigation Explanation "Claim not found"
  | Some c =>
      result
      = if fraud_detected (assess_row c)
        then ResultFraud Investigation Explanation id c
                         (fraud_score (assess_row c))
                         (rules_triggered_list
                            (rules_triggered (assess_row c)))
                         (investigate_claim id)
                         (explain_fraud_case id (investigate_claim id))
        else ResultLegitimate Investigation Explanation id c
                              (fraud_score (assess_row c))
  end.
Proof.
  intros _. cbv zeta. unfold investigate_single_claim.
  rewrite (matching_assessments fmt_money fmt_fixed1 df id).
  rewrite <- filter_head_find.
  fold row_claim_id.
  change (fun c : EnrichedClaim => String.eqb (claim_id (claim c)) id)
    with (fun c : EnrichedClaim => String.eqb (row_claim_id c) id).
  destruct (filter (fun c => String.eqb (row_claim_id c) id) df) as [|c cs];
    reflexivity.
Qed.

End InvestigationFacts.

(** * The summary tables of the database *)

Section PartitionFacts.

Context {A K : Type}.
Variable keq : K -> K -> bool.
Variable key : A -> K.
Hypothesis keq_spec : forall a b, keq a b = true <-> a = b.

Lemma distinct_NoDup (ks : list K) : NoDup (distinct keq ks).
Proof.
  induction ks as [|a ks IH]; simpl; [constructor|].
  destruct (existsb (keq a) ks) eqn:E; [exact IH|].
  constructor; [|exact IH].
  rewrite (distinct_In keq keq_spec). intro Ha.
  assert (existsb (keq a) ks = true) as Ht.
  { apply existsb_exists. exists a. split; [exact Ha|].
    apply keq_spec. reflexivity. }
  congruence.
Qed.

Lemma indicator_sum (x : K) (ks : list K) :
  NoDup ks -> In x ks ->
  list_sum (map (fun k => if keq x k then 1%nat else 0%nat) ks) = 1%nat.
Proof.
  induction ks as [|a ks IH]; simpl; [tauto|].
  intros Hnd Hx. inversion Hnd as [|? ? Hnotin Hnd']. subst.
  destruct (keq x a) eqn:E.
  - apply keq_spec in E. subst a. f_equal.
    clear IH Hnd Hnd' Hx. induction ks as [|b ks IH]; [reflexivity|].
    simpl. destruct (keq x b) eqn:Eb.
    + apply keq_spec in Eb. subst b. exfalso. apply Hnotin. left. reflexivity.
    + apply IH. intro H. apply Hnotin. right. exact H.
  - destruct Hx as [->|Hx].
    + rewrite (keq_refl keq keq_spec) in E. discriminate E.
    + apply IH; assumption.
Qed.

Lemma list_sum_map_add {B : Type} (f g : B -> nat) (l : list B) :
  list_sum (map (fun b => (f b + g b)%nat) l)
  = (list_sum (map f l) + list_sum (map g l))%nat.
Proof.
  induction l as [|b l IH]; simpl; [reflexivity|]. rewrite IH. lia.
Qed.

Lemma list_sum_map_zero {B : Type} (l : list B) :
  list_sum (map (fun _ => 0%nat) l) = 0%nat.
Proof.
  induction l as [|b l IH]; simpl; [reflexivity | exact IH].
Qed.

(** Grouping by a key splits a frame: counted group by group over keys
    without repetition that cover the frame, every row is counted once. *)
Lemma groups_partition (keep : A -> bool) (ks : list K) (l : list A) :
  NoDup ks ->
  (forall a, In a l -> In (key a) ks) ->
  list_sum (map (fun k => count_rows keep (group_rows keq key k l)) ks)
  = count_rows keep l.
Proof.
  intros Hnd. induction l as [|a l IH]; intro Hcover.
  - unfold count_rows, group_rows. simpl. apply list_sum_map_zero.
  - assert (forall k,
              count_rows keep (group_rows keq key k (a :: l))
              = ((if keq (key a) k then if keep a then 1 else 0 else 0)
                 + count_rows keep (group_rows keq key k l))%nat) as Hstep.
    { intro k. unfold count_rows, group_rows. simpl.
      destruct (keq (key a) k); [|reflexivity].
      simpl. destruct (keep a); reflexivity. }
    rewrite (map_ext _ _ Hstep), list_sum_map_add, IH
      by (intros x Hx; apply Hcover; right; exact Hx).
    unfold count_rows at 2. simpl.
    destruct (keep a); simpl.
    + rewrite indicator_sum;
        [reflexivity | exact Hnd | apply Hcover; left; reflexivity].
    + rewrite (map_ext _ (fun _ => 0%nat)), list_sum_map_zero;
        [reflexivity|].
      intro k. destruct (keq (key a) k); reflexivity.
Qed.

End PartitionFacts.

(** * When the transform returns *)


Section TransformReturns.

Variable sqrtQ : Q -> Q.


End TransformReturns.

Lemma count_rows_all {A : Type} (l : list A) :
  count_rows (fun _ => true) l = List.length l.
Proof.
  unfold count_rows. induction l as [|a l IH]; simpl; [reflexivity|].
  rewrite IH. reflexivity.
Qed.

Lemma count_rows_filter_le {A : Type} (p : A -> bool) (l : list A) :
  (count_rows p l <= List.length l)%nat.
Proof.
  apply count_rows_le.
Qed.

(** The patients table has one row per patient of the frame and accounts
    for every claim exactly once: its claim counts add up to the number of
    claims and its fraud counts to the number of claims labelled fraud; every
    patient has at least one claim and no more fraud claims than claims. *)
Theorem patients_table_accounts_for_claims (df : list EnrichedClaim) :
  let table := patients_table (load df) in
  NoDup (map pt_patient_id table)
  /\ (forall p, In p (map pt_patient_id table)
                <-> In p (map (fun r => patient_id (claim r)) df))
  /\ list_sum (map pt_total_claims table) = List.length df
  /\ list_sum (map pt_fraud_claims table) = count_rows row_is_fraud df
  /\ (forall row, In row table ->
        (1 <= pt_total_claims row)%nat
        /\ (pt_fraud_claims row <= pt_total_claims row)%nat).
Proof.
  cbv zeta. unfold load, patient_summary. cbn [patients_table].
  set (key := fun r : EnrichedClaim => patient_id (claim r)).
  set (ks := sort_by String.leb (distinct String.eqb (map key df))).
  assert (NoDup ks) as Hnd.
  { apply (Permutation_NoDup
             (Permutation_sym (sort_by_permutation String.leb _))).
    apply (distinct_NoDup String.eqb String.eqb_eq). }
  assert (forall p, In p ks <-> In p (map key df)) as Hks.
  { intro p. unfold ks. rewrite sort_by_In.
    apply (distinct_In String.eqb String.eqb_eq). }
  rewrite !map_map. cbn [pt_patient_id pt_total_claims pt_fraud_claims].
  rewrite map_id.
  split; [exact Hnd|]. split; [exact Hks|].
  split; [|split].
  - rewrite <- (count_rows_all df).
    rewrite <- (groups_partition String.eqb key String.eqb_eq
                                 (fun _ => true) ks df Hnd).
    + apply f_equal, map_ext. intro k. symmetry. apply count_rows_all.
    + intros a Ha. apply Hks, in_map, Ha.
  - apply (groups_partition String.eqb key String.eqb_eq row_is_fraud ks df
                            Hnd).
    intros a Ha. apply Hks, in_map, Ha.
  - intros row Hrow. apply in_map_iff in Hrow.
    destruct Hrow as (k & <- & Hk).
    cbn [pt_total_claims pt_fraud_claims].
    split; [|apply count_rows_le].
    apply Hks, in_map_iff in Hk. destruct Hk as (r & Hr & Hin).
    apply (filter_length_pos _ _ r). apply filter_In.
    split; [exact Hin|]. rewrite Hr. apply String.eqb_refl.
Qed.

Lemma string_pair_eqb_spec (a b : string * string) :
  string_pair_eqb a b = true <-> a = b.
Proof.
  destruct a as [a1 a2], b as [b1 b2]. unfold string_pair_eqb. simpl.
  rewrite andb_true_iff, !String.eqb_eq.
  split; [intros [-> ->]; reflexivity | intro H; inversion H; tauto].
Qed.

(** The providers table has one row per pair of provider and specialty
    occurring in the frame, so a provider billing under two specialties has
    two rows; its claim counts add up to the number of claims, and in every
    row the average is the billed total divided by the claim count. *)
Theorem providers_table_accounts_for_claims (df : list EnrichedClaim) :
  let table := providers_table (load df) in
  NoDup (map (fun row => (ps_provider_id row, ps_provider_specialty row))
             table)
  /\ (forall k, In k (map (fun row => (ps_provider_id row,
                                       ps_provider_specialty row)) table)
                <-> In k (map (fun r => (provider_id (claim r),
                                         provider_specialty (claim r))) df))
  /\ list_sum (map ps_total_claims table) = List.length df
  /\ (forall row, In row table ->
        (1 <= ps_total_claims row)%nat
        /\ (ps_fraud_claims row <= ps_total_claims row)%nat
        /\ avg_claim_amount row
           = Fin (total_billed row / Qof_nat (ps_total_claims row))).
Proof.
  cbv zeta. unfold load, provider_summary. cbn [providers_table].
  set (key := fun r : EnrichedClaim =>
                (provider_id (claim r), provider_specialty (claim r))).
  set (ks := sort_by string_pair_leb
                     (distinct string_pair_eqb (map key df))).
  assert (NoDup ks) as Hnd.
  { apply (Permutation_NoDup
             (Permutation_sym (sort_by_permutation string_pair_leb _))).
    apply (distinct_NoDup string_pair_eqb string_pair_eqb_spec). }
  assert (forall p, In p ks <-> In p (map key df)) as Hks.
  { intro p. unfold ks. rewrite sort_by_In.
    apply (distinct_In string_pair_eqb string_pair_eqb_spec). }
  rewrite !map_map.
  cbn [ps_provider_id ps_provider_specialty ps_total_claims].
  assert (map (fun x : string * string => (fst x, snd x)) ks = ks) as Hid.
  { rewrite <- (map_id ks) at 2. apply map_ext. intros [a b]. reflexivity. }
  rewrite Hid.
  split; [exact Hnd|]. split; [exact Hks|].
  split.
  - rewrite <- (count_rows_all df).
    rewrite <- (groups_partition string_pair_eqb key string_pair_eqb_spec
                                 (fun _ => true) ks df Hnd).
    + apply f_equal, map_ext. intro k. symmetry. apply count_rows_all.
    + intros a Ha. apply Hks, in_map, Ha.
  - intros row Hrow. apply in_map_iff in Hrow.
    destruct Hrow as (k & <- & Hk).
    cbn [ps_total_claims ps_fraud_claims avg_claim_amount total_billed].
    apply Hks, in_map_iff in Hk. destruct Hk as (r & Hr & Hin).
    assert (In r (group_rows string_pair_eqb key k df)) as Hgroup.
    { apply filter_In. split; [exact Hin|].
      rewrite Hr. apply string_pair_eqb_spec. reflexivity. }
    split; [apply (filter_length_pos _ _ r), Hgroup|].
    split; [apply count_rows_le|].
    rewrite mean_of_nonempty.
    + unfold row_amounts. rewrite length_map. reflexivity.
    + unfold row_amounts.
      destruct (group_rows string_pair_eqb key k df);
        [contradiction | discriminate].
Qed.

(** * Calendar features *)

Lemma month_of_range (d : Z) : (1 <= month_of d <= 12)%Z.
Proof.
  unfold month_of. cbv zeta.
  set (z := (d + 719468)%Z).
  set (era := (z / 146097)%Z).
  set (doe := (z - era * 146097)%Z).
  assert (0 <= doe <= 146096)%Z as Hdoe.
  { subst doe era. pose proof (Z.mod_pos_bound z 146097 ltac:(lia)) as H.
    rewrite Z.mod_eq in H by lia. lia. }
  set (yoe := ((doe - doe / 1460 + doe / 36524 - doe / 146096) / 365)%Z).
  set (doy := (doe - (365 * yoe + yoe / 4 - yoe / 100))%Z).
  assert (0 <= doy <= 365)%Z as Hdoy.
  { subst doy yoe. clearbody doe. Z.div_mod_to_equations. lia. }
  clearbody doy.
  destruct (Z.ltb_spec ((5 * doy + 2) / 153) 10);
    Z.div_mod_to_equations; lia.
Qed.

(** The calendar columns of every row are in range: the weekday lies in
    0..6 and the month in 1..12; the weekend flag holds exactly on weekdays
    5 and 6; claims a whole number of weeks apart share the weekday. *)
Theorem calendar_features_in_range (sqrtQ : Q -> Q)
        (population : list Claim) (enriched : list EnrichedClaim)
        (r : EnrichedClaim) :
  transform_frame sqrtQ population = Some enriched ->
  In r enriched ->
  (0 <= day_of_week r <= 6)%Z
  /\ (1 <= month r <= 12)%Z
  /\ (is_weekend r = true <-> (5 <= day_of_week r)%Z)
  /\ (forall r' weeks,
        In r' enriched ->
        claim_date (claim r') = (claim_date (claim r) + 7 * weeks)%Z ->
        day_of_week r' = day_of_week r).
Proof.
  intros Henriched Hr.
  apply transform_frame_some in Henriched. subst enriched.
  apply transform_frame_rows in Hr. destruct Hr as (c & _ & ->).
  cbn [enrich day_of_week month is_weekend claim].
  assert (0 <= dayofweek (claim_date c) <= 6)%Z as Hdow.
  { unfold dayofweek.
    pose proof (Z.mod_pos_bound (claim_date c + 3) 7 ltac:(lia)). lia. }
  split; [exact Hdow|]. split; [apply month_of_range|]. split.
  - rewrite orb_true_iff, !Z.eqb_eq. lia.
  - intros r' weeks Hr' Hdate.
    apply transform_frame_rows in Hr'. destruct Hr' as (c' & _ & ->).
    cbn [enrich day_of_week claim] in *. rewrite Hdate. unfold dayofweek.
    replace (claim_date c + 7 * weeks + 3)%Z
      with (claim_date c + 3 + weeks * 7)%Z by lia.
    apply Z.mod_add. lia.
Qed.

(** * Sample evaluations *)

Lemma calendar_features_in_range_witness :
  (0 <= day_of_week surgery_row <= 6)%Z
  /\ (1 <= month surgery_row <= 12)%Z.
Proof.
  destruct (calendar_features_in_range Qsqrt_down surgery_day_population _
                                       surgery_row surgery_day_transformed
                                       surgery_row_enriched)
    as (Hd & Hm & _).
  split; [exact Hd | exact Hm].
Defined.

Lemma investigation_rule_list_witness :
  rules_triggered_list
    (rules_triggered (assess plain_format plain_format surgery_row))
  = ["DUPLICATE"; " AMOUNT_ANOMALY"; " IMPOSSIBLE_SCENARIO"].
Proof.
  rewrite (investigation_rule_list plain_format plain_format surgery_row);
    reflexivity.
Defined.

Lemma search_returns_first_k_witness :
  (exists results,
     search bool nat (fun m => m) sample_documents sample_metadata
            sample_index_search 2 true = Some results
     /\ results
        = firstn 2 (ranked_candidates bool nat (fun m => m) sample_documents
                                      sample_metadata true
                                      (sample_index_search 10))
     /\ (List.length results <= 2)%nat
     /\ (true = true ->
         forall r, In r results -> metadata bool nat r = true))
  /\ search bool nat (fun m => m) sample_documents sample_metadata
            sample_index_search 0 true = None.
Proof.
  apply (search_returns_first_k bool nat (fun m => m) sample_documents
                                sample_metadata sample_index_search 2 true).
  - lia.
  - intros n Hn. vm_compute in Hn.
    destruct Hn as [<-|[<-|[<-|[]]]]; split; discriminate.
Defined.

Lemma investigate_after_run_witness :
  investigate_single_claim string string (fun id => id)
                           (fun id analysis => analysis) week_rows
                           (run_all_rules plain_format plain_format week_rows)
                           "C00005"
  = ResultFraud string string "C00005" last_of_week 20
                ["VELOCITY_FRAUD"] "C00005" "C00005".
Proof.
  apply (investigate_after_run plain_format plain_format string string
           (fun id => id) (fun id analysis => analysis) week_rows "C00005").
  reflexivity.
Defined.

(** * A patient with five claims on five consecutive days *)

Lemma filter_length_map {A B : Type} (f : A -> B) (p : B -> bool)
      (l : list A) :
  List.length (filter (fun a => p (f a)) l)
  = List.length (filter p (map f l)).
Proof.
  rewrite filter_map_comm, length_map. reflexivity.
Qed.

Ltac decide_leb :=
  repeat match goal with
         | |- context [(?a <=? ?b)%Z] =>
             destruct (Z.leb_spec a b); try lia
         end.

Section ConsecutiveDays.

Variable sqrtQ : Q -> Q.
Variable fmt_money : fval -> string.
Variable fmt_fixed1 : fval -> string.

(** When the claims of a patient are exactly five claims on five
    consecutive days starting on day [d], the claim of day [d + j] has
    7-day and 30-day counts of [j + 1]: only the claim of the fifth day
    triggers VELOCITY_FRAUD. *)
Theorem velocity_on_five_consecutive_days (population : list Claim)
        (enriched : list EnrichedClaim) (d : Z) (r : EnrichedClaim) :
  Permutation
    (map claim_date
         (group_rows String.eqb patient_id (patient_id (claim r)) population))
    [d; d + 1; d + 2; d + 3; d + 4]%Z ->
  transform_frame sqrtQ population = Some enriched ->
  In r enriched ->
  Z.of_nat (patient_claims_7d r) = (claim_date (claim r) - d + 1)%Z
  /\ patient_claims_30d r = patient_claims_7d r
  /\ (In "VELOCITY_FRAUD" (fraud_flags (run_rules fmt_money fmt_fixed1 r))
      <-> claim_date (claim r) = (d + 4)%Z).
Proof.
  intros Hdates Henriched Hr.
  apply transform_frame_some in Henriched. subst enriched.
  apply transform_frame_rows in Hr. destruct Hr as (c & Hc & ->).
  rewrite (label_in_flags_iff fmt_money fmt_fixed1 _ VELOCITY_FRAUD).
  cbn [rule_trigger]. unfold enrich.
  cbn [claim patient_claims_7d patient_claims_30d] in *.
  rewrite !patient_claims_population.
  assert (forall days,
            window_population_count days population c
            = List.length
                (filter (fun x => (claim_date c - days <=? x)%Z
                                  && (x <=? claim_date c)%Z)
                        [d; d + 1; d + 2; d + 3; d + 4]%Z)) as Hcount.
  { intro days. unfold window_population_count.
    rewrite <- filter_filter_andb.
    rewrite (filter_length_map claim_date
               (fun x => (claim_date c - days <=? x)%Z
                         && (x <=? claim_date c)%Z)).
    apply Permutation_length, filter_permutation. exact Hdates. }
  assert (In (claim_date c) [d; d + 1; d + 2; d + 3; d + 4]%Z) as Hday.
  { apply (Permutation_in _ Hdates). apply in_map.
    apply (group_rows_self String.eqb patient_id String.eqb_eq). exact Hc. }
  rewrite (Hcount 7%Z), (Hcount 30%Z).
  cbn [In] in Hday. cbn [filter].
  destruct Hday as [Hd|[Hd|[Hd|[Hd|[Hd|[]]]]]]; rewrite <- Hd;
    decide_leb; cbn [andb List.length Nat.leb orb];
    (split; [lia | split; [reflexivity | split; intro; lia || discriminate]]).
Qed.

End ConsecutiveDays.

Lemma week_dates_consecutive :
  Permutation
    (map claim_date
         (group_rows String.eqb patient_id (patient_id (claim last_of_week))
                     week_population))
    [19737; 19737 + 1; 19737 + 2; 19737 + 3; 19737 + 4]%Z.
Proof.
  vm_compute. apply Permutation_refl.
Qed.

Lemma velocity_on_five_consecutive_days_witness :
  Z.of_nat (patient_claims_7d last_of_week)
  = (claim_date (claim last_of_week) - 19737 + 1)%Z
  /\ patient_claims_30d last_of_week = patient_claims_7d last_of_week
  /\ (In "VELOCITY_FRAUD"
         (fraud_flags (run_rules plain_format plain_format last_of_week))
      <-> claim_date (claim last_of_week) = (19737 + 4)%Z).
Proof.
  apply (velocity_on_five_consecutive_days Qsqrt_down plain_format
           plain_format week_population week_rows 19737 last_of_week
           week_dates_consecutive week_transformed last_of_week_enriched).
Defined.

(** * The generator's data under the feature engine *)

Lemma generated_diagnosis_unknown (d : string) :
  In d generated_diagnosis_codes ->
  diag_prefix d = d
  /\ merge_lookup String.eqb (diag_prefix d) valid_combos = None.
Proof.
  unfold generated_diagnosis_codes, generator_diagnoses.
  cbn [flat_map snd app In]. intro H.
  repeat (destruct H as [<-|H]; [split; vm_compute; reflexivity|]).
  contradiction.
Qed.

Section GeneratedData.

Variable sqrtQ : Q -> Q.
Variable fmt_money : fval -> string.
Variable fmt_fixed1 : fval -> string.

(** Every diagnosis code of the generator has a single underscore, so its
    prefix is the whole code, which is no family of the mapping: on a
    population whose diagnosis codes all come from the generator no row is a
    code mismatch and CODE_MISMATCH never fires, whatever the procedure
    codes. *)
Theorem generated_diagnoses_never_flagged (population : list Claim)
        (enriched : list EnrichedClaim) (r : EnrichedClaim) :
  (forall c, In c population ->
             In (diagnosis_code c) generated_diagnosis_codes) ->
  transform_frame sqrtQ population = Some enriched ->
  In r enriched ->
  diag_prefix (diagnosis_code (claim r)) = diagnosis_code (claim r)
  /\ is_code_mismatch r = false
  /\ ~ In "CODE_MISMATCH" (fraud_flags (run_rules fmt_money fmt_fixed1 r)).
Proof.
  intros Hgen Henriched Hr.
  apply transform_frame_some in Henriched. subst enriched.
  apply transform_frame_rows in Hr. destruct Hr as (c & Hc & ->).
  destruct (generated_diagnosis_unknown _ (Hgen c Hc)) as [Hprefix Hnone].
  assert (is_code_mismatch
            (enrich (provider_stats population)
                    (specialty_stats sqrtQ population)
                    (specialty_stats_f64 population)
                    (sort_by patient_date_leb population) c) = false) as Hflag.
  { cbn [enrich is_code_mismatch]. unfold code_mismatch_of.
    rewrite Hnone. reflexivity. }
  split; [exact Hprefix|]. split; [exact Hflag|].
  rewrite (label_in_flags_iff fmt_money fmt_fixed1 _ CODE_MISMATCH).
  cbn [rule_trigger]. rewrite Hflag. discriminate.
Qed.

Lemma iloc_rows {A : Type} (df : list A) (positions : list nat)
      (rows : list A) :
  iloc df positions = Some rows ->
  forall i, In i positions ->
            exists row, nth_error df i = Some row /\ In row rows.
Proof.
  revert rows. induction positions as [|j rest IH]; intros rows H i Hi.
  - contradiction.
  - simpl in H.
    destruct (nth_error df j) as [row|] eqn:Ej; [|discriminate].
    destruct (iloc df rest) as [rows'|] eqn:Er; [|discriminate].
    inversion H. subst rows. destruct Hi as [->|Hi].
    + exists row. split; [exact Ej | left; reflexivity].
    + destruct (IH rows' eq_refl i Hi) as (row' & Hn & Hin).
      exists row'. split; [exact Hn | right; exact Hin].
Qed.

Lemma iloc_defined {A : Type} (df : list A) (positions : list nat) :
  (forall i, In i positions -> (i < List.length df)%nat) ->
  exists rows, iloc df positions = Some rows.
Proof.
  induction positions as [|j rest IH]; intro H; simpl.
  - exists []. reflexivity.
  - destruct (nth_error df j) as [row|] eqn:Ej.
    + destruct IH as (rows & ->);
        [intros i Hi; apply H; right; exact Hi|].
      exists (row :: rows). reflexivity.
    + apply nth_error_None in Ej.
      pose proof (H j (or_introl eq_refl)). lia.
Qed.

Lemma two_rules_weight (row : EnrichedClaim) :
  rule_trigger DUPLICATE row = true ->
  rule_trigger IMPOSSIBLE_SCENARIO row = true ->
  (50 <= fraud_score (assess fmt_money fmt_fixed1 row))%nat.
Proof.
  intros Hd Hi. rewrite score_is_capped_weight.
  assert (total_weight (filter duplicate_or_impossible all_rules)
          <= total_weight (triggered row))%nat as Hle.
  { apply total_weight_filter_le. intros r Hr.
    destruct r; try discriminate Hr; assumption. }
  change (total_weight (filter duplicate_or_impossible all_rules))
    with 50%nat in Hle.
  lia.
Qed.

(** Injecting duplicates: when the sampled positions are in range the frame
    grows by one copy per sampled position.  After transform both the
    sampled row, whose label is unchanged, and its copy, labelled fraud,
    trigger DUPLICATE and have a same-day count of at least 2; when the
    procedure is a surgery code both also trigger IMPOSSIBLE_SCENARIO and
    score at least 50. *)
Theorem injected_duplicates_flag_both_rows (df : list Claim)
        (duplicate_indices : list nat) (i : nat) :
  (forall j, In j duplicate_indices -> (j < List.length df)%nat) ->
  In i duplicate_indices ->
  exists injected original,
    inject_duplicates df duplicate_indices = Some injected
    /\ List.length injected
       = (List.length df + List.length duplicate_indices)%nat
    /\ nth_error df i = Some original
    /\ forall enriched r,
         transform_frame sqrtQ injected = Some enriched ->
         In r enriched ->
         claim r = original \/ claim r = mark_fraud original ->
         In "DUPLICATE" (fraud_flags (run_rules fmt_money fmt_fixed1 r))
         /\ (exists n, same_day_claim_count r = Some n /\ (2 <= n)%nat)
         /\ (In (procedure_code original) surgery_codes ->
             In "IMPOSSIBLE_SCENARIO"
                (fraud_flags (run_rules fmt_money fmt_fixed1 r))
             /\ (50 <= fraud_score (assess fmt_money fmt_fixed1 r))%nat).
Proof.
  intros Hvalid Hi.
  destruct (iloc_defined df duplicate_indices Hvalid) as (rows & Hrows).
  destruct (iloc_rows df duplicate_indices rows Hrows i Hi)
    as (original & Hnth & Hin).
  exists (df ++ map mark_fraud rows), original.
  unfold inject_duplicates. rewrite Hrows.
  split; [reflexivity|]. split.
  { rewrite length_app, length_map. f_equal.
    clear - Hrows. revert rows Hrows.
    induction duplicate_indices as [|j rest IH]; intros rows H; simpl in H.
    - inversion H. reflexivity.
    - destruct (nth_error df j); [|discriminate].
      destruct (iloc df rest) as [rows'|]; [|discriminate].
      inversion H. simpl. f_equal. apply IH. reflexivity. }
  split; [exact Hnth|].
  set (injected := df ++ map mark_fraud rows).
  assert (sub_rows [original; mark_fraud original] injected) as Hsub.
  { unfold injected. apply nth_error_In in Hnth.
    apply in_split in Hnth. destruct Hnth as (l1 & l2 & ->).
    apply (in_map mark_fraud) in Hin.
    apply in_split in Hin. destruct Hin as (m1 & m2 & ->).
    rewrite <- app_assoc. simpl.
    clear. induction l1 as [|x l1 IH]; simpl.
    - apply sub_rows_take.
      induction l2 as [|y l2 IH2]; simpl.
      + induction m1 as [|z m1 IH3]; simpl.
        * apply sub_rows_take, sub_rows_nil.
        * apply sub_rows_skip, IH3.
      + apply sub_rows_skip, IH2.
    - apply sub_rows_skip, IH. }
  intros enriched r Henriched Hr Hclaim.
  apply transform_frame_some in Henriched. subst enriched.
  pose proof Hr as Hr'.
  apply transform_frame_rows in Hr'. destruct Hr' as (c & Hc & ->).
  change (claim (enrich _ _ _ _ c)) with c in Hclaim.
  assert (claim_id c = claim_id original
          /\ patient_id c = patient_id original
          /\ claim_date c = claim_date original
          /\ procedure_code c = procedure_code original) as (Hid & Hp & Hd & Hpr)
      by (destruct Hclaim as [->| ->]; repeat split; reflexivity).
  assert (2 <= same_key_count String.eqb claim_id injected c)%nat as Hdup.
  { unfold same_key_count.
    apply (sub_rows_filter_length _ _ _ Hsub).
    intros x [<-|[<-|[]]]; rewrite Hid; apply String.eqb_refl. }
  assert (2 <= same_key_count patient_date_eqb
                              (fun x => (patient_id x, claim_date x))
                              injected c)%nat as Hday.
  { unfold same_key_count.
    apply (sub_rows_filter_length _ _ _ Hsub).
    intros x [<-|[<-|[]]]; apply patient_date_eqb_spec;
      rewrite Hp, Hd; reflexivity. }
  assert (rule_trigger DUPLICATE
            (enrich (provider_stats injected)
                    (specialty_stats sqrtQ injected)
                    (specialty_stats_f64 injected)
                    (sort_by patient_date_leb injected) c) = true) as Htd.
  { cbn [rule_trigger enrich duplicate_count].
    rewrite (duplicate_count_value injected c Hc).
    simpl count_gtb. apply Nat.ltb_lt. lia. }
  split; [apply (label_in_flags_iff fmt_money fmt_fixed1 _ DUPLICATE), Htd|].
  split.
  { cbn [enrich same_day_claim_count].
    rewrite (same_day_count_value injected c Hc).
    eexists. split; [reflexivity | exact Hday]. }
  intro Hsurg.
  assert (rule_trigger IMPOSSIBLE_SCENARIO
            (enrich (provider_stats injected)
                    (specialty_stats sqrtQ injected)
                    (specialty_stats_f64 injected)
                    (sort_by patient_date_leb injected) c) = true) as Hti.
  { cbn [rule_trigger enrich same_day_surgeries same_day_claim_count].
    rewrite (same_day_count_value injected c Hc).
    rewrite Hpr. apply str_in_spec in Hsurg. rewrite Hsurg.
    simpl count_gtb.
    assert ((1 <? same_key_count patient_date_eqb
                    (fun x => (patient_id x, claim_date x)) injected c)%nat
            = true) as E by (apply Nat.ltb_lt; lia).
    rewrite E. reflexivity. }
  split;
    [apply (label_in_flags_iff fmt_money fmt_fixed1 _ IMPOSSIBLE_SCENARIO),
           Hti
    | apply two_rules_weight; assumption].
Qed.

End GeneratedData.

Lemma week_population_generated (c : Claim) :
  In c week_population -> In (diagnosis_code c) generated_diagnosis_codes.
Proof.
  unfold week_population. cbn [In]. intro H.
  repeat (destruct H as [<-|H];
          [vm_compute; repeat (try (left; reflexivity); right)|]).
  contradiction.
Qed.

Lemma generated_diagnoses_never_flagged_witness :
  diag_prefix (diagnosis_code (claim last_of_week))
  = diagnosis_code (claim last_of_week)
  /\ is_code_mismatch last_of_week = false
  /\ ~ In "CODE_MISMATCH"
          (fraud_flags (run_rules plain_format plain_format last_of_week)).
Proof.
  apply (generated_diagnoses_never_flagged Qsqrt_down plain_format
           plain_format week_population week_rows last_of_week
           week_population_generated week_transformed
           last_of_week_enriched).
Defined.

Lemma injected_duplicates_flag_both_rows_witness :
  exists injected original,
    inject_duplicates surgery_day_population [0%nat] = Some injected
    /\ List.length injected
       = (List.length surgery_day_population + List.length [0%nat])%nat
    /\ nth_error surgery_day_population 0 = Some original
    /\ forall enriched r,
         transform_frame Qsqrt_down injected = Some enriched ->
         In r enriched ->
         claim r = original \/ claim r = mark_fraud original ->
         In "DUPLICATE"
            (fraud_flags (run_rules plain_format plain_format r))
         /\ (exists n, same_day_claim_count r = Some n /\ (2 <= n)%nat)
         /\ (In (procedure_code original) surgery_codes ->
             In "IMPOSSIBLE_SCENARIO"
                (fraud_flags (run_rules plain_format plain_format r))
             /\ (50 <= fraud_score (assess plain_format plain_format r))%nat).
Proof.
  apply (injected_duplicates_flag_both_rows Qsqrt_down plain_format
           plain_format surgery_day_population [0%nat] 0%nat).
  - intros j [<-|[]]. vm_compute. lia.
  - left. reflexivity.
Defined.

(** * Cleaning the generated query *)

Lemma contains_cons (c0 : ascii) (p0 : string) (c : ascii) (x : string) :
  contains (String c0 p0) (String c x)
  = prefix (String c0 p0) (String c x) || contains (String c0 p0) x.
Proof.
  unfold contains. cbn [String.index].
  destruct (prefix (String c0 p0) (String c x)); [reflexivity|].
  destruct (String.index 0 (String c0 p0) x); reflexivity.
Qed.

Lemma prefix_app (p a w : string) :
  prefix p a = true -> prefix p (a ^^ w) = true.
Proof.
  revert a. induction p as [|c p IH]; intros a H.
  - destruct (a ^^ w); reflexivity.
  - destruct a as [|c' a]; [discriminate H|].
    simpl in *. destruct (ascii_dec c c'); [apply IH, H | discriminate H].
Qed.

Lemma contains_app_l (c0 : ascii) (p0 a w : string) :
  contains (String c0 p0) a = true ->
  contains (String c0 p0) (a ^^ w) = true.
Proof.
  induction a as [|c a IH]; [discriminate|].
  cbn [String.append]. rewrite !contains_cons, !orb_true_iff.
  intros [H|H]; [left; apply (prefix_app _ (String c a)), H | right; apply IH, H].
Qed.

Lemma lstrip_contains (c0 : ascii) (p0 x : string) :
  contains (String c0 p0) x = false ->
  contains (String c0 p0) (lstrip x) = false.
Proof.
  induction x as [|c x IH]; [intros; reflexivity|].
  cbn [lstrip]. destruct (is_space c); [|intros; assumption].
  rewrite contains_cons. intro H. apply orb_false_iff in H.
  apply IH. tauto.
Qed.

Lemma rstrip_prefix (x : string) : exists w, x = rstrip x ^^ w.
Proof.
  induction x as [|c x (w & IH)]; [exists EmptyString; reflexivity|].
  cbn [rstrip]. destruct (rstrip x) as [|c' t'].
  - destruct (is_space c).
    + exists (String c x). reflexivity.
    + exists w. simpl in *. rewrite <- IH. reflexivity.
  - exists w. simpl in *. rewrite <- IH. reflexivity.
Qed.

Lemma rstrip_contains (c0 : ascii) (p0 x : string) :
  contains (String c0 p0) x = false ->
  contains (String c0 p0) (rstrip x) = false.
Proof.
  intro H. destruct (rstrip_prefix x) as (w & Hw).
  destruct (contains (String c0 p0) (rstrip x)) eqn:E; [|reflexivity].
  apply (contains_app_l _ _ _ w) in E. rewrite <- Hw in E. congruence.
Qed.

Lemma strip_contains (c0 : ascii) (p0 x : string) :
  contains (String c0 p0) x = false ->
  contains (String c0 p0) (strip x) = false.
Proof.
  intro H. unfold strip. apply rstrip_contains, lstrip_contains, H.
Qed.

Lemma lstrip_starts_clean (x : string) : starts_clean (lstrip x).
Proof.
  induction x as [|c x IH]; [exact I|].
  cbn [lstrip]. destruct (is_space c) eqn:E; [exact IH | exact E].
Qed.

Lemma starts_clean_lstrip (x : string) : starts_clean x -> lstrip x = x.
Proof.
  destruct x as [|c x]; [reflexivity|]. simpl. intros ->. reflexivity.
Qed.

Lemma rstrip_starts_clean (x : string) :
  starts_clean x -> starts_clean (rstrip x).
Proof.
  destruct x as [|c x]; [intros; exact I|].
  cbn [starts_clean rstrip]. intro H.
  destruct (rstrip x); [rewrite H|]; exact H.
Qed.

Lemma rstrip_idempotent (x : string) : rstrip (rstrip x) = rstrip x.
Proof.
  induction x as [|c x IH]; [reflexivity|].
  cbn [rstrip]. destruct (rstrip x) as [|c' t'] eqn:E.
  - destruct (is_space c) eqn:Es; [reflexivity|].
    cbn [rstrip]. rewrite Es. reflexivity.
  - change (rstrip (String c (String c' t')))
      with (match rstrip (String c' t') with
            | EmptyString => if is_space c then EmptyString
                             else String c EmptyString
            | String c'' t'' => String c (String c'' t'')
            end).
    rewrite IH. reflexivity.
Qed.

(** Stripping twice is stripping once. *)
Lemma strip_idempotent (x : string) : strip (strip x) = strip x.
Proof.
  unfold strip.
  rewrite (starts_clean_lstrip (rstrip (lstrip x)))
    by apply rstrip_starts_clean, lstrip_starts_clean.
  apply rstrip_idempotent.
Qed.

Lemma strip_fixed_parts (q : string) :
  strip q = q -> starts_clean q /\ rstrip q = q.
Proof.
  intro H.
  assert (starts_clean q) as Hc.
  { rewrite <- H. unfold strip.
    apply rstrip_starts_clean, lstrip_starts_clean. }
  split; [exact Hc|]. unfold strip in H.
  rewrite (starts_clean_lstrip q Hc) in H. exact H.
Qed.

Lemma prefix_nil (t : string) : prefix EmptyString t = true.
Proof. destruct t; reflexivity. Qed.

Lemma prefix_cons (a : ascii) (p : string) (c : ascii) (t : string) :
  prefix (String a p) (String c t) = Ascii.eqb a c && prefix p t.
Proof.
  simpl. destruct (ascii_dec a c) as [->|n].
  - rewrite Ascii.eqb_refl. reflexivity.
  - apply Ascii.eqb_neq in n. rewrite n. reflexivity.
Qed.

Lemma prefix_app_self (p r : string) : prefix p (p ^^ r) = true.
Proof.
  induction p as [|c p IH]; [apply prefix_nil|].
  cbn [String.append]. rewrite prefix_cons, Ascii.eqb_refl. exact IH.
Qed.

Lemma append_nil_r (s : string) : s ^^ EmptyString = s.
Proof. induction s as [|c s IH]; [reflexivity|]. simpl. rewrite IH. reflexivity. Qed.

Lemma append_assoc_r (a b c : string) : (a ^^ b) ^^ c = a ^^ (b ^^ c).
Proof. induction a as [|x a IH]; [reflexivity|]. simpl. rewrite IH. reflexivity. Qed.

Lemma fence_prefix_leading (s : string) :
  prefix fence s = (3 <=? leading_backquotes s)%nat.
Proof.
  unfold fence.
  destruct s as [|c1 [|c2 [|c3 t]]]; [reflexivity| | |];
    rewrite ?prefix_cons, ?prefix_nil; cbn [leading_backquotes prefix];
    rewrite ?(Ascii.eqb_sym "`"%char);
    repeat match goal with
           | |- context [Ascii.eqb ?c "`"] => destruct (Ascii.eqb c "`")
           end; reflexivity.
Qed.

Lemma contains_fence_cons (c : ascii) (x : string) :
  contains fence (String c x) = prefix fence (String c x) || contains fence x.
Proof. exact (contains_cons _ _ c x). Qed.

Lemma replace_from_skip (old new p r : string) :
  replace_from old new (String.length p) (p ^^ r) = replace_from old new 0 r.
Proof.
  induction p as [|c p IH]; [reflexivity|].
  cbn [String.length String.append replace_from]. exact IH.
Qed.

(** An occurrence at the head of the text is replaced and the scan goes on
    after it. *)
Lemma replace_hit (c0 : ascii) (p0 new r : string) :
  replace (String c0 p0) new (String c0 p0 ^^ r)
  = new ^^ replace (String c0 p0) new r.
Proof.
  unfold replace. cbn [String.append replace_from].
  change (String c0 (p0 ^^ r)) with (String c0 p0 ^^ r).
  rewrite prefix_app_self. cbn [String.length Nat.sub].
  rewrite Nat.sub_0_r, replace_from_skip. reflexivity.
Qed.

(** Where the head of the text is no occurrence, its first character is
    kept. *)
Lemma replace_miss (old new : string) (c : ascii) (t : string) :
  prefix old (String c t) = false ->
  replace old new (String c t) = String c (replace old new t).
Proof. intro H. unfold replace. cbn [replace_from]. rewrite H. reflexivity. Qed.

(** A stretch without a backquote holds no occurrence of a text that begins
    with one. *)
Lemma replace_skip_clean (p0 new q rest : string) :
  has_char "`" q = false ->
  replace (String "`" p0) new (q ^^ rest)
  = q ^^ replace (String "`" p0) new rest.
Proof.
  induction q as [|c q IH]; intro H; [reflexivity|].
  cbn [has_char] in H. apply orb_false_iff in H. destruct H as [Hc Hq].
  cbn [String.append]. rewrite replace_miss.
  - rewrite (IH Hq). reflexivity.
  - rewrite prefix_cons, Ascii.eqb_sym, Hc. reflexivity.
Qed.

(** What a left-to-right removal of the fences leaves: no fence, at most two
    leading backquotes, and the leading backquotes of a text with fewer than
    three untouched. *)
Lemma replace_fence_inv (n : nat) :
  forall s, String.length s <= n ->
    contains fence (replace fence "" s) = false /\
    leading_backquotes (replace fence "" s) <= 2 /\
    (leading_backquotes s <= 2 ->
     leading_backquotes (replace fence "" s) = leading_backquotes s).
Proof.
  induction n as [n IH] using lt_wf_ind. intros s Hlen.
  destruct s as [|c t].
  - split; [reflexivity | split; [simpl; lia | intro; reflexivity]].
  - destruct (prefix fence (String c t)) eqn:Hp.
    + pose proof Hp as Hl. rewrite fence_prefix_leading in Hl.
      apply Nat.leb_le in Hl.
      destruct t as [|c2 [|c3 t3]];
        try (exfalso; cbn [leading_backquotes] in Hl;
             repeat match goal with
                    | H : context [Ascii.eqb ?c "`"] |- _ =>
                        destruct (Ascii.eqb c "`")
                    end; lia).
      assert (replace fence "" (String c (String c2 (String c3 t3)))
              = replace fence "" t3) as E.
      { unfold replace. cbn [replace_from]. rewrite Hp. reflexivity. }
      rewrite E.
      assert (String.length t3 < n) as Hlt
        by (cbn [String.length] in Hlen; lia).
      destruct (IH _ Hlt t3 (le_n _)) as (H1 & H2 & _).
      split; [exact H1 | split; [exact H2 | intro; lia]].
    + rewrite (replace_miss _ _ _ _ Hp).
      assert (String.length t < n) as Hlt
        by (cbn [String.length] in Hlen; lia).
      destruct (IH _ Hlt t (le_n _)) as (H1 & H2 & H3).
      pose proof Hp as Hl. rewrite fence_prefix_leading in Hl.
      apply Nat.leb_gt in Hl.
      rewrite contains_fence_cons, H1, fence_prefix_leading, orb_false_r.
      cbn [leading_backquotes] in *.
      destruct (Ascii.eqb c "`").
      * assert (leading_backquotes t <= 2) as Ht by lia.
        rewrite (H3 Ht).
        split; [apply Nat.leb_gt; lia | split; [lia | intro; reflexivity]].
      * split; [reflexivity | split; [lia | intro; reflexivity]].
Qed.

Lemma all_space_rstrip (w : string) : all_space w = true -> rstrip w = EmptyString.
Proof.
  induction w as [|c w IH]; [reflexivity|].
  cbn [all_space]. intro H. apply andb_true_iff in H. destruct H as [Hc Hw].
  cbn [rstrip]. rewrite (IH Hw), Hc. reflexivity.
Qed.

(** Trailing spaces do not change what [rstrip] returns. *)
Lemma rstrip_app_space (x w : string) :
  all_space w = true -> rstrip (x ^^ w) = rstrip x.
Proof.
  intro H. induction x as [|c x IH]; [apply all_space_rstrip, H|].
  cbn [String.append rstrip]. rewrite IH. reflexivity.
Qed.

(** A text that ends in something other than a space loses nothing before
    that end. *)
Lemma rstrip_app_kept (x y : string) :
  rstrip y <> EmptyString -> rstrip (x ^^ y) = x ^^ rstrip y.
Proof.
  intro H. induction x as [|c x IH]; [reflexivity|].
  cbn [String.append rstrip]. rewrite IH.
  destruct (x ^^ rstrip y) as [|c' t'] eqn:E; [|reflexivity].
  destruct x; [simpl in E; contradiction | discriminate E].
Qed.

(** [SQLQueryAgent.question_to_sql], the clean-up of the answer.
    Whatever text the model answers, the query handed on holds no markdown
    fence (three backquotes in a row, hence no opening fence of a sql block
    either): removing the fences from left to right never brings the
    backquotes around a removed fence together into a new one.  The query
    also has no space left at either end: stripping it again changes
    nothing. *)
Theorem cleaned_query_has_no_fence (answer : string) :
  contains fence (clean_sql answer) = false /\
  contains sql_fence (clean_sql answer) = false /\
  strip (clean_sql answer) = clean_sql answer.
Proof.
  assert (contains fence (clean_sql answer) = false) as Hf.
  { unfold clean_sql. apply (strip_contains "`" "``").
    exact (proj1 (replace_fence_inv _ _ (le_n _))). }
  split; [exact Hf|]. split.
  - destruct (contains sql_fence (clean_sql answer)) eqn:E; [|reflexivity].
    exfalso. revert Hf E. generalize (clean_sql answer) as s.
    induction s as [|c s IH]; [discriminate 2|].
    rewrite contains_fence_cons, (contains_cons _ _ c s : contains sql_fence _ = _).
    intros Hf E. apply orb_false_iff in Hf. destruct Hf as [Hp Hs].
    apply orb_true_iff in E. destruct E as [E|E]; [|exact (IH Hs E)].
    destruct s as [|c2 [|c3 s3]]; unfold sql_fence, fence in *;
      rewrite ?prefix_cons in *; cbn [prefix andb] in *;
      try (rewrite ?andb_false_r in E; discriminate E).
    rewrite prefix_nil in Hp.
    destruct (Ascii.eqb "`" c), (Ascii.eqb "`" c2), (Ascii.eqb "`" c3);
      cbn [andb] in *; discriminate.
  - unfold clean_sql. apply strip_idempotent.
Qed.

(** [SQLQueryAgent.question_to_sql], the clean-up of the answer.
    A query without a backquote and without a space at either end comes
    back unchanged, both when the model answers it plainly and when it
    answers it inside a fenced sql block, one line for each fence. *)
Theorem cleaned_query_unwraps_block (q : string) :
  has_char "`" q = false ->
  strip q = q ->
  clean_sql (sql_fence ^^ newline ^^ q ^^ newline ^^ fence) = q /\
  clean_sql q = q.
Proof.
  intros Hq Hs. destruct (strip_fixed_parts q Hs) as [Hc Hr]. split.
  - unfold clean_sql.
    assert (strip (sql_fence ^^ newline ^^ q ^^ newline ^^ fence)
            = sql_fence ^^ (newline ^^ q ^^ newline) ^^ fence) as E1.
    { unfold strip.
      rewrite (starts_clean_lstrip (sql_fence ^^ _)) by reflexivity.
      replace (sql_fence ^^ newline ^^ q ^^ newline ^^ fence)
        with ((sql_fence ^^ newline ^^ q ^^ newline) ^^ fence)
        by (rewrite !append_assoc_r; reflexivity).
      rewrite rstrip_app_kept by discriminate.
      rewrite !append_assoc_r. reflexivity. }
    rewrite E1.
    assert (has_char "`" (newline ^^ q ^^ newline) = false) as Hb.
    { cbn [newline String.append has_char]. 
      change (Ascii.eqb (ascii_of_nat 10) "`") with false. cbn [orb].
      clear -Hq. induction q as [|c q IH]; [reflexivity|].
      cbn [has_char String.append] in *.
      apply orb_false_iff in Hq. destruct Hq as [-> Hq]. exact (IH Hq). }
    unfold sql_fence at 1 2. rewrite replace_hit.
    cbn [String.append]. fold sql_fence.
    unfold sql_fence at 1. rewrite (replace_skip_clean _ _ _ _ Hb).
    change (replace "```sql" "" fence) with fence.
    unfold fence at 1. rewrite (replace_skip_clean _ _ _ _ Hb).
    change (replace "```" "" fence) with EmptyString.
    rewrite append_nil_r. unfold strip.
    change (lstrip (newline ^^ q ^^ newline)) with (lstrip (q ^^ newline)).
    destruct q as [|c q'].
    + reflexivity.
    + rewrite starts_clean_lstrip by exact Hc.
      rewrite rstrip_app_space by reflexivity. exact Hr.
  - unfold clean_sql. rewrite Hs.
    rewrite <- (append_nil_r q) at 1 2.
    unfold sql_fence, fence.
    rewrite (replace_skip_clean _ _ _ _ Hq).
    change (replace "```sql" "" "") with EmptyString. rewrite append_nil_r.
    rewrite <- (append_nil_r q) at 1.
    rewrite (replace_skip_clean _ _ _ _ Hq).
    change (replace "```" "" "") with EmptyString. rewrite append_nil_r.
    exact Hs.
Qed.

Lemma cleaned_query_unwraps_block_witness :
  clean_sql (sql_fence ^^ newline ^^ "SELECT COUNT(*) FROM fraud_flags"
             ^^ newline ^^ fence)
  = "SELECT COUNT(*) FROM fraud_flags" /\
  clean_sql "SELECT COUNT(*) FROM fraud_flags"
  = "SELECT COUNT(*) FROM fraud_flags".
Proof.
  apply (cleaned_query_unwraps_block "SELECT COUNT(*) FROM fraud_flags");
    reflexivity.
Defined.
